(** * KubeKey: host reconcile phases, control-plane view, condition
      aggregation and /etc/hosts generation

    A shallow embedding of
    - [controllers/kkinstance/kkinstance_controller_phase.go]
      (the per-host install and deletion phases),
    - the [cluster] package ([ControlPlane] helpers and the workload
      condition aggregation), and
    - the [templates] package ([GenerateHosts]),
    followed by the properties proved about them. *)

From Stdlib Require Import String Ascii ZArith List Lia OrderedTypeEx.
From stdpp Require Import gmap strings list fin_maps sorting.

Set Warnings "-clear-no-such-hyp".

Local Open Scope string_scope.
Local Open Scope list_scope.
Local Open Scope stdpp_scope.

(* ===================================================================== *)
(** * Go library helpers *)
(* ===================================================================== *)

Module GoStrings.

(** [strings.Join(elems, sep)]. *)
Fixpoint Join (elems : list string) (sep : string) : string :=
  match elems with
  | [] => ""
  | [e] => e
  | e :: rest => e +:+ sep +:+ Join rest sep
  end.

(** [strings.Split(s, "\n")]: the pieces of [s] between line feeds; always
    at least one piece ([Split "" = [""]]). *)
Definition newline : ascii := "010"%char.

Fixpoint SplitLines (s : string) : list string :=
  match s with
  | EmptyString => [""]
  | String c rest =>
      if Ascii.eqb c newline then "" :: SplitLines rest
      else match SplitLines rest with
           | [] => [String c ""]
           | piece :: pieces => String c piece :: pieces
           end
  end.

(** The ASCII part of [unicode.IsSpace]: tab, line feed, vertical tab,
    form feed, carriage return and space. *)
Definition isAsciiSpace (c : ascii) : bool :=
  let n := nat_of_ascii c in
  ((9 <=? n)%nat && (n <=? 13)%nat) || (n =? 32)%nat.

Fixpoint trimLeft (s : string) : string :=
  match s with
  | EmptyString => ""
  | String c rest => if isAsciiSpace c then trimLeft rest else s
  end.

Fixpoint trimRight (s : string) : string :=
  match s with
  | EmptyString => ""
  | String c rest =>
      match trimRight rest with
      | EmptyString => if isAsciiSpace c then "" else String c ""
      | r => String c r
      end
  end.

(** [strings.TrimSpace] on ASCII text.  The developments below take
    [TrimSpace] as a variable, so that they also cover Go's treatment of
    multi-byte Unicode white space; this instance is the one used for
    concrete evaluation. *)
Definition TrimSpaceAscii (s : string) : string := trimRight (trimLeft s).

End GoStrings.

(** [k8s.io/apimachinery/pkg/util/sets.String]: a set of strings whose
    [List()] is sorted.  Represented by its sorted duplicate-free listing. *)
Module StringSet.

Definition t := list string.

Definition NewString : t := [].

Fixpoint Insert (x : string) (s : t) : t :=
  match s with
  | [] => [x]
  | y :: rest =>
      match String.compare x y with
      | Lt => x :: s
      | Eq => s
      | Gt => y :: Insert x rest
      end
  end.

Definition List (s : t) : list string := s.
Definition Len (s : t) : nat := length s.

End StringSet.

(* ===================================================================== *)
(** * Conditions ([sigs.k8s.io/cluster-api/util/conditions]) *)
(* ===================================================================== *)

Module Conditions.

Inductive ConditionStatus := ConditionTrue | ConditionFalse | ConditionUnknown.

(** [clusterv1.ConditionSeverity]; [SeverityNone] is the empty severity
    carried by True and Unknown conditions. *)
Inductive ConditionSeverity :=
  SeverityNone | SeverityError | SeverityWarning | SeverityInfo.

Definition ConditionType := string.

Record Condition := mkCondition {
  Type_ : ConditionType;
  Status : ConditionStatus;
  Severity : ConditionSeverity;
  Reason : string;
  Message : string;
}.

#[global] Instance ConditionStatus_eq_dec : EqDecision ConditionStatus.
Proof. solve_decision. Defined.
#[global] Instance ConditionSeverity_eq_dec : EqDecision ConditionSeverity.
Proof. solve_decision. Defined.
#[global] Instance Condition_eq_dec : EqDecision Condition.
Proof. solve_decision. Defined.

(** [conditions.Get]: the condition of the given type, if present. *)
Fixpoint Get (from : list Condition) (t : ConditionType) : option Condition :=
  match from with
  | [] => None
  | c :: rest => if String.eqb (Type_ c) t then Some c else Get rest t
  end.

(** [conditions.Set]: replace the condition of the same type, or append.
    (Transition times and the final cosmetic sort are not modelled.) *)
Fixpoint Set_ (to : list Condition) (c : Condition) : list Condition :=
  match to with
  | [] => [c]
  | x :: rest =>
      if String.eqb (Type_ x) (Type_ c) then c :: rest else x :: Set_ rest c
  end.

Definition TrueCondition (t : ConditionType) : Condition :=
  mkCondition t ConditionTrue SeverityNone "" "".

Definition FalseCondition (t : ConditionType) (reason : string)
    (severity : ConditionSeverity) (message : string) : Condition :=
  mkCondition t ConditionFalse severity reason message.

Definition UnknownCondition (t : ConditionType) (reason message : string)
    : Condition :=
  mkCondition t ConditionUnknown SeverityNone reason message.

Definition MarkTrue (to : list Condition) (t : ConditionType) :=
  Set_ to (TrueCondition t).

(** [message] is the already formatted message. *)
Definition MarkFalse (to : list Condition) (t : ConditionType)
    (reason : string) (severity : ConditionSeverity) (message : string) :=
  Set_ to (FalseCondition t reason severity message).

Definition MarkUnknown (to : list Condition) (t : ConditionType)
    (reason message : string) :=
  Set_ to (UnknownCondition t reason message).

(** [conditions.IsTrue]. *)
Definition IsTrue (from : list Condition) (t : ConditionType) : bool :=
  match Get from t with
  | Some c => bool_decide (Status c = ConditionTrue)
  | None => false
  end.

End Conditions.

(* ===================================================================== *)
(** * The KKInstance reconcile phases
      ([controllers/kkinstance/kkinstance_controller_phase.go]) *)
(* ===================================================================== *)

Module KKInstance.
Import Conditions.

(** Modelled from the spec: the [infrav1] constants (package
    [api/v1beta1], not part of the sources at hand).  Condition types and
    reason codes carry the names the specification gives them. *)
Definition KUBERNETES : string := "kubernetes".
Definition K3S : string := "k3s".

Definition KKInstanceBootstrappedCondition : ConditionType := "Bootstrapped".
Definition KKInstanceRepositoryReadyCondition : ConditionType := "RepositoryReady".
Definition KKInstanceBinariesReadyCondition : ConditionType := "BinariesReady".
Definition KKInstanceCRIReadyCondition : ConditionType := "CRIReady".
Definition KKInstanceProvisionedCondition : ConditionType := "Provisioned".
Definition KKInstanceDeletingBootstrapCondition : ConditionType := "DeletingBootstrap".

Definition KKInstanceInitOSFailedReason : string := "InitOSFailed".
Definition KKInstanceRepositoryFailedReason : string := "RepositoryFailed".
Definition KKInstanceGetBinaryFailedReason : string := "GetBinaryFailed".
Definition KKInstanceInstallCRIFailedReason : string := "InstallCRIFailed".
Definition KKInstanceRunCloudConfigFailedReason : string := "RunCloudConfigFailed".
Definition KKInstanceClearEnvironmentFailedReason : string := "ClearEnvironmentFailed".

Inductive InstanceState :=
| InstanceStatePending
| InstanceStateBootstrapping
| InstanceStateRunning
| InstanceStateCleaning
| InstanceStateSucceeded
| InstanceStateFailed.

(** Every call a phase makes on one of its services (bootstrap,
    repository, binary, container manager, provisioning, ssh client,
    event recorder). *)
Inductive Action :=
| KubeadmReset (criSocket : string)
| ResetNetwork
| RemoveFiles
| DaemonReload
| UninstallK3s
| AddUsers
| SetHostname
| CreateDirectory
| ResetTmpDirectory
| ExecInitScript
| RepositoryCheck
| RepositoryGet (timeout : Z)
| MountISO
| UmountISO
| UpdateAndInstall
| BinaryDownload (distribution : string) (timeout : Z)
| ContainerManagerIsExist
| ContainerManagerGet (timeout : Z)
| ContainerManagerInstall
| GetRawBootstrapDataWithFormat
| SudoCmd (command : string)
| RecorderEvent (reason message : string).

#[global] Instance Action_eq_dec : EqDecision Action.
Proof. solve_decision. Defined.

(** A Go [error]: [None] is [nil], [Some msg] an error whose [Error()]
    is [msg]. *)
Definition error := option string.

(** The world outside the controller.  What a call answers may depend on
    everything done to the host so far, so each answer is a function of
    the history of calls. *)
Record Env := mkEnv {
  (** the [error] returned by an error-returning service call *)
  answer : list Action -> Action -> error;
  (** [svc.IsExist()] of the container manager service *)
  isExist : list Action -> bool;
  (** [instanceScope.GetRawBootstrapDataWithFormat]: data and format, or an error *)
  bootstrapData : list Action -> (string * string) + string;
  (** [RawBootstrapDataToProvisioningCommands] of the provisioning service
      selected by the format: the commands (as rendered by [String()]) or
      a parse error *)
  toCommands : string -> string -> list string + string;
  (** [fmt.Sprintf(format)] without operands, as applied by
      [conditions.MarkFalse] to [err.Error()] *)
  Sprintf0 : string -> string;
}.

(** The reconciler and scope data the phases read. *)
Record Scope := mkScope {
  Distribution : string;
  CRISocket : string;
  WaitKKInstanceTimeout : Z;
}.

(** The KKInstance object (the status fields the phases write) together
    with the log of service calls. *)
Record St := mkSt {
  State : InstanceState;
  Conds : list Condition;
  trace : list Action;
}.

Definition M := St -> error * St.

Definition SetState (st : InstanceState) (s : St) : St :=
  mkSt st (Conds s) (trace s).

Definition setConds (cs : list Condition) (s : St) : St :=
  mkSt (State s) cs (trace s).

Definition log (a : Action) (s : St) : St :=
  mkSt (State s) (Conds s) (trace s ++ [a]).

(** Go's [return err]. *)
Definition ret (e : error) : M := fun s => (e, s).

(** [if err := m; err != nil { return err }; k] *)
Definition andThen (m k : M) : M :=
  fun s => match m s with
           | (Some e, s') => (Some e, s')
           | (None, s') => k s'
           end.

Notation "m >>> k" := (andThen m k) (at level 65, right associativity).

(** [defer f]: [f] runs when the body returns and sees the returned
    error (the named result [err]); the returned value is unchanged. *)
Definition withDefer (body : M) (f : error -> St -> St) : M :=
  fun s => let '(e, s') := body s in (e, f e s').

(** [errors.Wrap(err, msg)]. *)
Definition Wrap (e msg : string) : string := msg +:+ ": " +:+ e.

Section Phases.
Variable E : Env.
Variable R : Scope.

(** One error-returning service call. *)
Definition call (a : Action) : M :=
  fun s => (answer E (trace s) a, log a s).

(** The deferred closure shared by all phases: False with the phase's
    reason and severity when [err != nil], True otherwise. *)
Definition markCondition (t : ConditionType) (reason : string)
    (severity : ConditionSeverity) (err : error) (s : St) : St :=
  match err with
  | Some e => setConds (MarkFalse (Conds s) t reason severity (Sprintf0 E e)) s
  | None => setConds (MarkTrue (Conds s) t) s
  end.

Definition reconcileDeletingBootstrap : M :=
  withDefer
    (fun s =>
       (call (KubeadmReset (CRISocket R)) >>>
        call ResetNetwork >>>
        call RemoveFiles >>>
        call DaemonReload >>>
        call UninstallK3s >>>
        ret None) (SetState InstanceStateCleaning s))
    (markCondition KKInstanceDeletingBootstrapCondition
       KKInstanceClearEnvironmentFailedReason SeverityWarning).

Definition reconcileBootstrap : M :=
  withDefer
    (fun s =>
       if IsTrue (Conds s) KKInstanceBootstrappedCondition then ret None s
       else
         (call AddUsers >>>
          call SetHostname >>>
          call CreateDirectory >>>
          call ResetTmpDirectory >>>
          call ExecInitScript >>>
          ret None) (SetState InstanceStateBootstrapping s))
    (markCondition KKInstanceBootstrappedCondition
       KKInstanceInitOSFailedReason SeverityWarning).

Definition reconcileRepository : M :=
  withDefer
    (fun s =>
       if IsTrue (Conds s) KKInstanceRepositoryReadyCondition then ret None s
       else
         (call RepositoryCheck >>>
          call (RepositoryGet (WaitKKInstanceTimeout R)) >>>
          (fun s1 =>
             let '(err, s2) := call MountISO s1 in
             withDefer
               (match err with
                | Some e => ret (Some e)
                | None => call UpdateAndInstall >>> ret None
                end)
               (fun _ s3 => snd (call UmountISO s3))
               s2)) s)
    (markCondition KKInstanceRepositoryReadyCondition
       KKInstanceRepositoryFailedReason SeverityWarning).

(** The binary service comes from [r.getBinaryService] and is part of the
    environment, like the other services. *)
Definition reconcileBinaryService : M :=
  withDefer
    (fun s =>
       if IsTrue (Conds s) KKInstanceBinariesReadyCondition then ret None s
       else
         (call (BinaryDownload (Distribution R) (WaitKKInstanceTimeout R)) >>>
          ret None) s)
    (markCondition KKInstanceBinariesReadyCondition
       KKInstanceGetBinaryFailedReason SeverityError).

Definition reconcileContainerManager : M :=
  withDefer
    (fun s =>
       if IsTrue (Conds s) KKInstanceCRIReadyCondition then ret None s
       else
         if isExist E (trace s) then ret None (log ContainerManagerIsExist s)
         else
           (call (ContainerManagerGet (WaitKKInstanceTimeout R)) >>>
            call ContainerManagerInstall >>>
            ret None) (log ContainerManagerIsExist s))
    (markCondition KKInstanceCRIReadyCondition
       KKInstanceInstallCRIFailedReason SeverityError).

(** The loop over the provisioning commands. *)
Fixpoint runCommands (commands : list string) : M :=
  match commands with
  | [] => ret None
  | c :: rest =>
      fun s => match call (SudoCmd c) s with
               | (Some e, s') => (Some (Wrap e "failed to run cloud config"), s')
               | (None, s') => runCommands rest s'
               end
  end.

Definition reconcileProvisioning : M :=
  withDefer
    (fun s =>
       if IsTrue (Conds s) KKInstanceProvisionedCondition then ret None s
       else
         let s1 := log GetRawBootstrapDataWithFormat s in
         match bootstrapData E (trace s) with
         | inr e =>
             ret (Some e) (log (RecorderEvent "FailedGetBootstrapData" e) s1)
         | inl (data, format) =>
             match toCommands E format data with
             | inr e =>
                 ret (Some (Wrap e "failed to join a control plane node with kubeadm")) s1
             | inl commands => runCommands commands s1
             end
         end)
    (markCondition KKInstanceProvisionedCondition
       KKInstanceRunCloudConfigFailedReason SeverityError).

(** The phase functions, by name. *)
Inductive PhaseFn :=
| ReconcileBootstrap
| ReconcileRepository
| ReconcileBinaryService
| ReconcileContainerManager
| ReconcileProvisioning.

Definition runPhase (p : PhaseFn) : M :=
  match p with
  | ReconcileBootstrap => reconcileBootstrap
  | ReconcileRepository => reconcileRepository
  | ReconcileBinaryService => reconcileBinaryService
  | ReconcileContainerManager => reconcileContainerManager
  | ReconcileProvisioning => reconcileProvisioning
  end.

(** [phaseFactory]: a [switch] over the distribution with two cases and
    no default, so any other value leaves [phases] nil. *)
Definition phaseFactory : list PhaseFn :=
  if String.eqb (Distribution R) KUBERNETES then
    [ReconcileBootstrap; ReconcileRepository; ReconcileBinaryService;
     ReconcileContainerManager; ReconcileProvisioning]
  else if String.eqb (Distribution R) K3S then
    [ReconcileBootstrap; ReconcileRepository; ReconcileBinaryService;
     ReconcileProvisioning]
  else [].

(** The condition a phase owns, with its failure reason and severity. *)
Definition phaseCondition (p : PhaseFn) : ConditionType :=
  match p with
  | ReconcileBootstrap => KKInstanceBootstrappedCondition
  | ReconcileRepository => KKInstanceRepositoryReadyCondition
  | ReconcileBinaryService => KKInstanceBinariesReadyCondition
  | ReconcileContainerManager => KKInstanceCRIReadyCondition
  | ReconcileProvisioning => KKInstanceProvisionedCondition
  end.

End Phases.

End KKInstance.

(* ===================================================================== *)
(** * Machine collections and failure domains
      ([sigs.k8s.io/cluster-api/util/collections] and [util/failuredomains],
      as used by the [cluster] package) *)
(* ===================================================================== *)

Module Collections.
Import Conditions.

(** The fields of [clusterv1.Machine] the [cluster] package reads. *)
Record Machine := mkMachine {
  Name : string;
  CreationTimestamp : Z;
  DeletionTimestamp : option Z;
  Annotations : gmap string string;
  (** [Spec.FailureDomain], a [*string] *)
  FailureDomain : option string;
  (** [Status.NodeRef], by node name *)
  NodeRef : option string;
  MachineConditions : list Condition;
}.

(** [collections.Machines] is a [map[string]*Machine] keyed by machine name. *)
Abbreviation Machines := (gmap string Machine).

(** [clusterv1.FailureDomains]: failure-domain id to its [ControlPlane] flag. *)
Abbreviation FailureDomains := (gmap string bool).

(** The machines in the order a [range] over the map visits them.  Go leaves
    that order unspecified; [map_to_list] fixes one, and nothing below
    depends on which. *)
Definition UnsortedList (s : Machines) : list Machine := (map_to_list s).*2.

(** [Machines.Filter(filters...)]: the machines passing every filter. *)
Definition Filter (s : Machines) (filters : list (Machine -> bool)) : Machines :=
  filter (fun kv => Is_true (forallb (fun f => f kv.2) filters)) s.

Definition Not (f : Machine -> bool) : Machine -> bool := fun m => negb (f m).

(** [collections.InFailureDomains(failureDomains...)]: the machine's
    failure domain is one of the given pointers ([nil] matches [nil]). *)
Definition InFailureDomains (failureDomains : list (option string))
    : Machine -> bool :=
  fun m => existsb (fun fd => bool_decide (fd = FailureDomain m)) failureDomains.

Definition HasAnnotationKey (key : string) : Machine -> bool :=
  fun m => bool_decide (is_Some (Annotations m !! key)).

(** The [Less] of [machinesByCreationTimestamp]: older first, names
    breaking ties. *)
Definition Less (a b : Machine) : bool :=
  if (CreationTimestamp a =? CreationTimestamp b)%Z
  then String.ltb (Name a) (Name b)
  else (CreationTimestamp a <? CreationTimestamp b)%Z.

Definition pickOlder (m : Machine) (acc : option Machine) : option Machine :=
  match acc with
  | None => Some m
  | Some o => if Less m o then Some m else Some o
  end.

(** [Machines.Oldest()]: [nil] on the empty collection, otherwise the
    head of the collection sorted by [Less]. *)
Definition Oldest (s : Machines) : option Machine :=
  foldr pickOlder None (UnsortedList s).

(** [FailureDomains.FilterControlPlane()] and [GetIDs()]. *)
Definition FilterControlPlane (fds : FailureDomains) : FailureDomains :=
  filter (fun kv => kv.2 = true) fds.

Definition GetIDs (fds : FailureDomains) : list (option string) :=
  (fun kv => Some kv.1) <$> map_to_list fds.

(** [failuredomains.PickMost(failureDomains, groupMachines, machines)]:
    the failure domains are ordered by decreasing number of group
    machines, and the first one hosting a machine of [machines] is
    returned. *)
Definition countIn (group : Machines) (fd : string) : nat :=
  length (List.filter (fun m => bool_decide (FailureDomain m = Some fd))
            (UnsortedList group)).

Definition pick (fds : FailureDomains) (group : Machines) : list (string * nat) :=
  (fun kv => (kv.1, countIn group kv.1)) <$> map_to_list fds.

Definition moreLoaded (a b : string * nat) : Prop := (b.2 <= a.2)%nat.

#[global] Instance moreLoaded_dec a b : Decision (moreLoaded a b).
Proof. unfold moreLoaded. apply _. Defined.

(** [sort.Sort(sort.Reverse(aggregations))]: decreasing machine count.  The
    order among equally loaded failure domains is whatever the sort yields;
    [merge_sort] fixes one. *)
Definition orderDescending (fds : FailureDomains) (group : Machines)
    : list (string * nat) :=
  merge_sort moreLoaded (pick fds group).

Definition hosts (machines : Machines) (fd : string) : bool :=
  existsb (fun m => bool_decide (FailureDomain m = Some fd)) (UnsortedList machines).

Definition PickMost (fds : FailureDomains) (group machines : Machines)
    : option string :=
  match List.find (fun agg => hosts machines agg.1) (orderDescending fds group) with
  | Some agg => Some agg.1
  | None => None
  end.

End Collections.

(* ===================================================================== *)
(** * The control-plane view ([cluster] package, [ControlPlane]) *)
(* ===================================================================== *)

Module Cluster.
Import Conditions Collections.

(** [clusterv1.DeleteMachineAnnotation]. *)
Definition DeleteMachineAnnotation : string := "cluster.x-k8s.io/delete-machine".

(** The parts of [ControlPlane] read and written here: the conditions of
    the K3sControlPlane object, [Cluster.Status.FailureDomains] and the
    owned machines. *)
Record ControlPlane := mkControlPlane {
  KCPConditions : list Condition;
  StatusFailureDomains : FailureDomains;
  CPMachines : Machines;
}.

(** [FailureDomains()]: the cluster's failure domains (a nil map reads as
    the empty one). *)
Definition FailureDomainsOf (c : ControlPlane) : FailureDomains :=
  StatusFailureDomains c.

Definition MachineWithDeleteAnnotation (machines : Machines) : Machines :=
  Filter machines [HasAnnotationKey DeleteMachineAnnotation].

Definition FailureDomainWithMostMachines (c : ControlPlane) (machines : Machines)
    : option string :=
  let notInFailureDomains :=
    Filter machines
      [Not (InFailureDomains (GetIDs (FilterControlPlane (FailureDomainsOf c))))] in
  if bool_decide (0 < size notInFailureDomains)%nat then
    match Oldest notInFailureDomains with
    | Some m => FailureDomain m
    | None => None
    end
  else
    PickMost (FilterControlPlane (StatusFailureDomains c)) (CPMachines c) machines.

(** The result is the machine, or the error message. *)
Definition MachineInFailureDomainWithMostMachines (c : ControlPlane)
    (machines : Machines) : Machine + string :=
  let fd := FailureDomainWithMostMachines c machines in
  let machinesInFailureDomain := Filter machines [InFailureDomains [fd]] in
  match Oldest machinesInFailureDomain with
  | None => inr "failed to pick control plane Machine to mark for deletion"
  | Some machineToMark => inl machineToMark
  end.

(* ------------------------------------------------------------------- *)
(** ** Aggregation of machine conditions ([workload_cluster_conditions]) *)

Record aggregateFromMachinesToKCPInput := mkAggregateInput {
  controlPlane : ControlPlane;
  machineConditions : list ConditionType;
  kcpErrors : list string;
  condition : ConditionType;
  unhealthyReason : string;
  unknownReason : string;
  note : string;
}.

(** The five name sets filled by the loop over the machines. *)
Record Groups := mkGroups {
  kcpMachinesWithErrors : StringSet.t;
  kcpMachinesWithWarnings : StringSet.t;
  kcpMachinesWithInfo : StringSet.t;
  kcpMachinesWithTrue : StringSet.t;
  kcpMachinesWithUnknown : StringSet.t;
}.

Definition noGroups : Groups :=
  mkGroups StringSet.NewString StringSet.NewString StringSet.NewString
           StringSet.NewString StringSet.NewString.

(** Body of the inner loop: one machine, one condition type. *)
Definition classify (machine : Machine) (g : Groups) (ct : ConditionType)
    : Groups :=
  match Get (MachineConditions machine) ct with
  | None => g
  | Some machineCondition =>
      match Status machineCondition with
      | ConditionTrue =>
          mkGroups (kcpMachinesWithErrors g) (kcpMachinesWithWarnings g)
            (kcpMachinesWithInfo g)
            (StringSet.Insert (Name machine) (kcpMachinesWithTrue g))
            (kcpMachinesWithUnknown g)
      | ConditionFalse =>
          match Severity machineCondition with
          | SeverityInfo =>
              mkGroups (kcpMachinesWithErrors g) (kcpMachinesWithWarnings g)
                (StringSet.Insert (Name machine) (kcpMachinesWithInfo g))
                (kcpMachinesWithTrue g) (kcpMachinesWithUnknown g)
          | SeverityWarning =>
              mkGroups (kcpMachinesWithErrors g)
                (StringSet.Insert (Name machine) (kcpMachinesWithWarnings g))
                (kcpMachinesWithInfo g) (kcpMachinesWithTrue g)
                (kcpMachinesWithUnknown g)
          | SeverityError =>
              mkGroups (StringSet.Insert (Name machine) (kcpMachinesWithErrors g))
                (kcpMachinesWithWarnings g) (kcpMachinesWithInfo g)
                (kcpMachinesWithTrue g) (kcpMachinesWithUnknown g)
          | SeverityNone => g
          end
      | ConditionUnknown =>
          mkGroups (kcpMachinesWithErrors g) (kcpMachinesWithWarnings g)
            (kcpMachinesWithInfo g) (kcpMachinesWithTrue g)
            (StringSet.Insert (Name machine) (kcpMachinesWithUnknown g))
      end
  end.

Definition classifyMachine (cts : list ConditionType) (g : Groups)
    (machine : Machine) : Groups :=
  foldl (classify machine) g cts.

Definition groupMachines (cts : list ConditionType) (machines : list Machine)
    : Groups :=
  foldl (classifyMachine cts) noGroups machines.

Section Aggregate.
(** [fmt.Sprintf(format)] without operands, which [conditions.MarkFalse]
    applies to the joined error list. *)
Variable Sprintf0 : string -> string.

(** [aggregateFromMachinesToKCP]; the result is the condition list of
    the KCP object after the call. *)
Definition aggregateFromMachinesToKCP (input : aggregateFromMachinesToKCPInput)
    : list Condition :=
  let kcp := KCPConditions (controlPlane input) in
  let g := groupMachines (machineConditions input)
             (UnsortedList (CPMachines (controlPlane input))) in
  let kcpErrors' :=
    if bool_decide (0 < StringSet.Len (kcpMachinesWithErrors g))%nat then
      kcpErrors input ++
        ["Following machines are reporting " +:+ note input +:+ " errors: "
           +:+ GoStrings.Join (StringSet.List (kcpMachinesWithErrors g)) ", "]
    else kcpErrors input in
  if bool_decide (0 < length kcpErrors')%nat then
    MarkFalse kcp (condition input) (unhealthyReason input) SeverityError
      (Sprintf0 (GoStrings.Join kcpErrors' "; "))
  else if bool_decide (0 < StringSet.Len (kcpMachinesWithWarnings g))%nat then
    MarkFalse kcp (condition input) (unhealthyReason input) SeverityWarning
      ("Following machines are reporting " +:+ note input +:+ " warnings: "
         +:+ GoStrings.Join (StringSet.List (kcpMachinesWithWarnings g)) ", ")
  else if bool_decide (0 < StringSet.Len (kcpMachinesWithWarnings g))%nat then
    MarkFalse kcp (condition input) (unhealthyReason input) SeverityWarning
      ("Following machines are reporting " +:+ note input +:+ " info: "
         +:+ GoStrings.Join (StringSet.List (kcpMachinesWithInfo g)) ", ")
  else if bool_decide (0 < StringSet.Len (kcpMachinesWithTrue g))%nat then
    MarkTrue kcp (condition input)
  else if bool_decide (0 < StringSet.Len (kcpMachinesWithUnknown g))%nat then
    MarkUnknown kcp (condition input) (unknownReason input)
      ("Following machines are reporting unknown " +:+ note input +:+ " status: "
         +:+ GoStrings.Join (StringSet.List (kcpMachinesWithUnknown g)) ", ")
  else kcp.

End Aggregate.

End Cluster.

(* ===================================================================== *)
(** * /etc/hosts generation ([templates] package, [GenerateHosts]) *)
(* ===================================================================== *)

Module Templates.

(** [common.Master] and [common.Registry]. *)
Definition Master : string := "master".
Definition Registry : string := "registry".

(** What [GenerateHosts] reads of a [connector.Host]. *)
Record Host := mkHost {
  GetName : string;
  GetInternalIPv4Address : string;
  GetInternalIPv6Address : string;
  GetRoles : list string;
}.

(** The two methods of [connector.ModuleRuntime] used here. *)
Record ModuleRuntime := mkRuntime {
  GetAllHosts : list Host;
  GetHostsByRole : string -> list Host;
}.

(** Modelled from the spec: the runtime handle is the inventory plus a
    role index (the [connector] package is not part of the sources at
    hand); the index lists, per role, the inventory hosts carrying it. *)
Definition runtimeOf (inventory : list Host) : ModuleRuntime :=
  mkRuntime inventory
    (fun role => List.filter (fun h => bool_decide (role ∈ GetRoles h)) inventory).

(** What [GenerateHosts] reads of [common.KubeConf]. *)
Record KubeConf := mkKubeConf {
  ControlPlaneEndpointAddress : string;
  ControlPlaneEndpointDomain : string;
  ClusterName : string;
  PrivateRegistry : string;
  (** the value of [Cluster.Registry.GetHost()] *)
  RegistryGetHost : string;
  NodeEtcHosts : string;
}.

Definition nonEmpty (s : string) : bool := negb (String.eqb s "").

(** [fmt.Sprintf("%s  %s", a, b)]. *)
Definition entry2 (a b : string) : string := a +:+ "  " +:+ b.

(** [fmt.Sprintf("%s  %s.%s %s", a, b, c, d)]. *)
Definition entry4 (a b c d : string) : string :=
  a +:+ "  " +:+ b +:+ "." +:+ c +:+ " " +:+ d.

Section GenerateHosts.
(** [strings.TrimSpace] and [registry.RegistryCertificateBaseName]. *)
Variable TrimSpace : string -> string.
Variable RegistryCertificateBaseName : string.

(** Body of the loop over [runtime.GetAllHosts()]. *)
Definition appendHost (conf : KubeConf) (hostsList : list string) (host : Host)
    : list string :=
  if nonEmpty (GetName host) then
    let hostsList :=
      hostsList ++ [entry4 (GetInternalIPv4Address host) (GetName host)
                      (ClusterName conf) (GetName host)] in
    if nonEmpty (GetInternalIPv6Address host) then
      hostsList ++ [entry4 (GetInternalIPv6Address host) (GetName host)
                      (ClusterName conf) (GetName host)]
    else hostsList
  else hostsList.

(** The registry block. *)
Definition appendRegistry (runtime : ModuleRuntime) (conf : KubeConf)
    (hostsList : list string) : list string :=
  match GetHostsByRole runtime Registry with
  | [] => hostsList
  | reg0 :: _ =>
      let name := if nonEmpty (PrivateRegistry conf) then RegistryGetHost conf
                  else RegistryCertificateBaseName in
      let hostsList := hostsList ++ [entry2 (GetInternalIPv4Address reg0) name] in
      if nonEmpty (GetInternalIPv6Address reg0) then
        hostsList ++ [entry2 (GetInternalIPv6Address reg0) name]
      else hostsList
  end.

(** Body of the loop over the lines of [NodeEtcHosts]. *)
Definition appendLine (hostsList : list string) (raw : string) : list string :=
  let line := TrimSpace raw in
  if nonEmpty line then hostsList ++ [line] else hostsList.

Definition appendNodeEtcHosts (conf : KubeConf) (hostsList : list string)
    : list string :=
  let nodeEtcHosts := NodeEtcHosts conf in
  if (0 <? String.length nodeEtcHosts)%nat then
    foldl appendLine hostsList (GoStrings.SplitLines (TrimSpace nodeEtcHosts))
  else hostsList.

(** The load-balancer entry; [None] is the run-time panic of indexing
    an empty slice of master hosts. *)
Definition lbHostOf (runtime : ModuleRuntime) (conf : KubeConf) : option string :=
  if nonEmpty (ControlPlaneEndpointAddress conf) then
    Some (entry2 (ControlPlaneEndpointAddress conf) (ControlPlaneEndpointDomain conf))
  else
    match GetHostsByRole runtime Master with
    | m0 :: _ =>
        Some (entry2 (GetInternalIPv4Address m0) (ControlPlaneEndpointDomain conf))
    | [] => None
    end.

(** [GenerateHosts]; [None] stands for a panic. *)
Definition GenerateHosts (runtime : ModuleRuntime) (conf : KubeConf)
    : option (list string) :=
  match lbHostOf runtime conf with
  | None => None
  | Some lbHost =>
      let hostsList := foldl (appendHost conf) [] (GetAllHosts runtime) in
      let hostsList := appendRegistry runtime conf hostsList in
      let hostsList := appendNodeEtcHosts conf hostsList in
      Some (hostsList ++ [lbHost])
  end.

End GenerateHosts.

End Templates.

(* ===================================================================== *)
(** * More of the KKInstance controller: the reachability gate and the
      binary service factory *)
(* ===================================================================== *)

Module KKInstanceMore.
Import Conditions KKInstance.

(** The loop of [reconcilePing], with [remaining] iterations left, [i]
    attempts made so far and [err] the error of the last attempt.
    [ping i] is what [sshClient.Ping()] answers on the attempt made after
    [i] earlier ones.  The result is the returned error and the number of
    attempts made. *)
Fixpoint pingLoop (ping : nat -> error) (remaining i : nat) (err : error)
    : error * nat :=
  match remaining with
  | O => (err, i)
  | S remaining' =>
      match ping i with
      | None => (None, S i)
      | Some e => pingLoop ping remaining' (S i) (Some e)
      end
  end.

(** [reconcilePing]: [for i := 0; i < 3; i++]. *)
Definition reconcilePing (ping : nat -> error) : error * nat :=
  pingLoop ping 3 0 None.

(** The implementations [binary.NewService] chooses between
    ([pkg/service/binary/interface.go]). *)
Inductive Binary := KubernetesBinary | K3sBinary.

(** [binary.NewService]: [None] is the nil interface returned when no case
    of the switch matches. *)
Definition NewService (distribution : string) : option Binary :=
  if String.eqb distribution KUBERNETES then Some KubernetesBinary
  else if String.eqb distribution K3S then Some K3sBinary
  else None.

End KKInstanceMore.

(* ===================================================================== *)
(** * More of the control-plane view ([cluster] package) *)
(* ===================================================================== *)

Module ClusterMore.
Import Conditions Collections Cluster.

(** [clusterv1.ClusterLabelName] and [clusterv1.MachineControlPlaneLabelName]. *)
Definition ClusterLabelName : string := "cluster.x-k8s.io/cluster-name".
Definition MachineControlPlaneLabelName : string := "cluster.x-k8s.io/control-plane".

(** [ControlPlaneMachineLabelsForCluster], on the labels of
    [kcp.Spec.MachineTemplate.ObjectMeta]: the template labels are copied
    into a fresh map, then the two cluster labels are set. *)
Definition ControlPlaneMachineLabelsForCluster (templateLabels : gmap string string)
    (clusterName : string) : gmap string string :=
  let labels := map_fold (fun k v labels => <[k := v]> labels) ∅ templateLabels in
  let labels := <[ClusterLabelName := clusterName]> labels in
  <[MachineControlPlaneLabelName := ""]> labels.

(** [collections.HasDeletionTimestamp]. *)
Definition HasDeletionTimestamp : Machine -> bool :=
  fun m => bool_decide (is_Some (DeletionTimestamp m)).

(** [collections.ShouldRolloutAfter(reconciliationTime, rolloutAfter)]:
    creation time < rolloutAfter < reconciliation time; false when either
    pointer is nil. *)
Definition ShouldRolloutAfter (reconciliationTime rolloutAfter : option Z)
    : Machine -> bool :=
  fun m =>
    match reconciliationTime, rolloutAfter with
    | Some now, Some after => (CreationTimestamp m <? after)%Z && (after <? now)%Z
    | _, _ => false
    end.

(** [Machines.AnyFilter(filters...)]: the machines passing some filter. *)
Definition AnyFilter (s : Machines) (filters : list (Machine -> bool)) : Machines :=
  filter (fun kv => Is_true (existsb (fun f => f kv.2) filters)) s.

(** [failuredomains.PickFewest(failureDomains, machines)]: nil without
    failure domains, otherwise the head of the aggregations sorted by
    increasing machine count. *)
Definition lessLoaded (a b : string * nat) : Prop := (a.2 <= b.2)%nat.

#[global] Instance lessLoaded_dec a b : Decision (lessLoaded a b).
Proof. unfold lessLoaded. apply _. Defined.

Definition PickFewest (fds : FailureDomains) (machines : Machines) : option string :=
  match merge_sort lessLoaded (pick fds machines) with
  | [] => None
  | agg :: _ => Some agg.1
  end.

Section ControlPlaneView.
(** [c.reconciliationTime], [c.KCP.Spec.RolloutAfter] and the filter
    [MatchesMachineSpec(c.infraResources, c.k3sConfigs, c.KCP)], which is
    defined elsewhere in the package. *)
Variable reconciliationTime : Z.
Variable RolloutAfter : option Z.
Variable MatchesMachineSpec : Machine -> bool.

Definition HasDeletingMachine (c : ControlPlane) : bool :=
  bool_decide (0 < size (Filter (CPMachines c) [HasDeletionTimestamp]))%nat.

Definition MachinesNeedingRollout (c : ControlPlane) : Machines :=
  let machines := Filter (CPMachines c) [Not HasDeletionTimestamp] in
  AnyFilter machines
    [ShouldRolloutAfter (Some reconciliationTime) RolloutAfter;
     Not MatchesMachineSpec].

Definition UpToDateMachines (c : ControlPlane) : Machines :=
  Filter (CPMachines c)
    [Not (ShouldRolloutAfter (Some reconciliationTime) RolloutAfter);
     MatchesMachineSpec].

Definition NextFailureDomainForScaleUp (c : ControlPlane) : option string :=
  if bool_decide (size (FilterControlPlane (StatusFailureDomains c)) = 0%nat)
  then None
  else PickFewest (FilterControlPlane (FailureDomainsOf c)) (UpToDateMachines c).

End ControlPlaneView.

End ClusterMore.

(* ===================================================================== *)
(** * Workload-cluster condition updates ([cluster] package,
      [UpdateAgentConditions] and [UpdateEtcdConditions]) *)
(* ===================================================================== *)

Module Workload.
Import Conditions Collections Cluster.

(** What is read of a [corev1.Node]: its name and taints, and of the node
    object fetched per node: the (type, status) pairs of its conditions. *)
Record Taint := mkTaint { TaintKey : string; TaintEffect : string }.

Record Node := mkNode { NodeName : string; NodeTaints : list Taint }.

Record NodeCondition := mkNodeCondition { NodeConditionType : string;
                                          NodeConditionStatus : string }.

(** The outcome of [w.Client.Get] for a node: a not-found error, another
    error, or the conditions of the object read. *)
Inductive GetNode :=
| GetNotFound
| GetFailed
| GetFound (conditions : list NodeCondition).

(** [corev1] and upstream [clusterv1]/[controlplanev1] constants. *)
Definition TaintNodeUnreachable : string := "node.kubernetes.io/unreachable".
Definition TaintEffectNoExecute : string := "NoExecute".
Definition NodeReady : string := "Ready".
Definition NodeConditionTrue : string := "True".
Definition DeletingReason : string := "Deleting".
Definition PodFailedReason : string := "PodFailed".
Definition ControlPlaneComponentsHealthyCondition : ConditionType :=
  "ControlPlaneComponentsHealthy".
Definition ControlPlaneComponentsUnhealthyReason : string :=
  "ControlPlaneComponentsUnhealthy".
Definition ControlPlaneComponentsUnknownReason : string :=
  "ControlPlaneComponentsUnknown".

(** The constants of the repository's own [infracontrolplanev1] package,
    which is not part of the sources at hand; they are parameters. *)
Record Names := mkNames {
  MachineAgentHealthyCondition : ConditionType;
  MachineEtcdMemberHealthyCondition : ConditionType;
  InfraControlPlaneComponentsHealthyCondition : ConditionType;
  ControlPlaneComponentsInspectionFailedReason : string;
  PodInspectionFailedReason : string;
  PodMissingReason : string;
  EtcdClusterHealthyCondition : ConditionType;
  EtcdClusterInspectionFailedReason : string;
  EtcdMemberInspectionFailedReason : string;
}.

(** A machine with its conditions replaced (the effect of
    [conditions.Set] on the machine object). *)
Definition withConditions (m : Machine) (cs : list Condition) : Machine :=
  mkMachine (Name m) (CreationTimestamp m) (DeletionTimestamp m) (Annotations m)
            (FailureDomain m) (NodeRef m) cs.

(** Updating the conditions of the machine object held under [key]. *)
Definition mark (f : list Condition -> list Condition) (key : string)
    (ms : Machines) : Machines :=
  alter (fun m => withConditions m (f (MachineConditions m))) key ms.

(** A [range] over the machines whose body updates the machine it visits:
    every machine is visited once. *)
Definition forEachMachine (f : Machine -> Machine) (ms : Machines) : Machines :=
  f <$> ms.

Definition hasProvisioningMachine (machines : Machines) : bool :=
  existsb (fun m => bool_decide (NodeRef m = None)) (UnsortedList machines).

Definition nodeHasUnreachableTaint (node : Node) : bool :=
  existsb (fun t => String.eqb (TaintKey t) TaintNodeUnreachable
                    && String.eqb (TaintEffect t) TaintEffectNoExecute)
          (NodeTaints node).

(** The search for the machine of a node in [UpdateAgentConditions]: the
    first machine visited whose node reference names the node. *)
Definition machineOfNode (ms : Machines) (nodeName : string)
    : option (string * Machine) :=
  List.find (fun kv => bool_decide (NodeRef kv.2 = Some nodeName)) (map_to_list ms).

(** The search in [updateManagedEtcdConditions], which has no [break]: the
    last machine visited whose node reference names the node. *)
Definition lastMachineOfNode (ms : Machines) (nodeName : string)
    : option (string * Machine) :=
  List.find (fun kv => bool_decide (NodeRef kv.2 = Some nodeName))
            (rev (map_to_list ms)).

(** The state of the loop over the nodes: still running, with the machines
    and the KCP-level errors so far, or left by a [return]. *)
Inductive Loop :=
| Continue (ms : Machines) (kcpErrors : list string)
| Return (ms : Machines).

Section Updates.
Variable N : Names.
(** [w.getControlPlaneNodes]: [None] is an error. *)
Variable getControlPlaneNodes : option (list Node).
(** [w.Client.Get] of the node named as given. *)
Variable clientGet : string -> GetNode.
(** [fmt.Sprintf(format)] without operands. *)
Variable Sprintf0 : string -> string.

Definition allMachinePodConditions : list ConditionType :=
  [MachineAgentHealthyCondition N].

(** Body of the loop over the nodes in [UpdateAgentConditions]. *)
Definition agentNode (node : Node) (ms : Machines) (kcpErrors : list string) : Loop :=
  match machineOfNode ms (NodeName node) with
  | None =>
      if hasProvisioningMachine ms then Continue ms kcpErrors
      else
        Continue ms
          (kcpErrors ++
             ["Control plane node " +:+ NodeName node
                +:+ " does not have a corresponding machine"])
  | Some (key, machine) =>
      if bool_decide (is_Some (DeletionTimestamp machine)) then
        Continue
          (foldl (fun ms condition =>
                    mark (fun cs => MarkFalse cs condition DeletingReason SeverityInfo "")
                         key ms)
                 ms allMachinePodConditions)
          kcpErrors
      else if nodeHasUnreachableTaint node then
        Continue
          (foldl (fun ms condition =>
                    mark (fun cs => MarkUnknown cs condition (PodInspectionFailedReason N)
                                      "Node is unreachable")
                         key ms)
                 ms allMachinePodConditions)
          kcpErrors
      else
        match clientGet (NodeName node) with
        | GetNotFound =>
            Return
              (mark (fun cs => MarkFalse cs (MachineAgentHealthyCondition N)
                                 (PodMissingReason N) SeverityError
                                 ("Node " +:+ NodeName node +:+ " is missing"))
                    key ms)
        | GetFailed =>
            Return
              (mark (fun cs => MarkUnknown cs (MachineAgentHealthyCondition N)
                                 (PodInspectionFailedReason N)
                                 "Failed to get node status")
                    key ms)
        | GetFound conditions =>
            Continue
              (foldl (fun ms condition =>
                        if String.eqb (NodeConditionType condition) NodeReady
                           && String.eqb (NodeConditionStatus condition) NodeConditionTrue
                        then mark (fun cs => MarkTrue cs (MachineAgentHealthyCondition N))
                                  key ms
                        else ms)
                     ms conditions)
              kcpErrors
        end
  end.

Fixpoint agentNodes (nodes : list Node) (ms : Machines) (kcpErrors : list string)
    : Loop :=
  match nodes with
  | [] => Continue ms kcpErrors
  | node :: rest =>
      match agentNode node ms kcpErrors with
      | Continue ms' kcpErrors' => agentNodes rest ms' kcpErrors'
      | Return ms' => Return ms'
      end
  end.

(** Body of the loop over the machines that reports provisioned machines
    without a node. *)
Definition reportMissingNode (nodes : list Node) (machine : Machine) : Machine :=
  match NodeRef machine with
  | None => machine
  | Some ref =>
      if existsb (fun node => String.eqb ref (NodeName node)) nodes then machine
      else
        withConditions machine
          (foldl (fun cs condition =>
                    MarkFalse cs condition PodFailedReason SeverityError "Missing node")
                 (MachineConditions machine) allMachinePodConditions)
  end.

(** [UpdateAgentConditions]; the result is the control plane with the
    machine and KCP conditions as the call leaves them. *)
Definition UpdateAgentConditions (c : ControlPlane) : ControlPlane :=
  match getControlPlaneNodes with
  | None =>
      let ms :=
        forEachMachine
          (fun machine =>
             withConditions machine
               (foldl (fun cs condition =>
                         MarkUnknown cs condition (PodInspectionFailedReason N)
                           "Failed to get the node which is hosting this component")
                      (MachineConditions machine) allMachinePodConditions))
          (CPMachines c) in
      mkControlPlane
        (MarkUnknown (KCPConditions c) (InfraControlPlaneComponentsHealthyCondition N)
           (ControlPlaneComponentsInspectionFailedReason N)
           "Failed to list nodes which are hosting control plane components")
        (StatusFailureDomains c) ms
  | Some nodes =>
      match agentNodes nodes (CPMachines c) [] with
      | Return ms => mkControlPlane (KCPConditions c) (StatusFailureDomains c) ms
      | Continue ms kcpErrors =>
          let ms := forEachMachine (reportMissingNode nodes) ms in
          let c' := mkControlPlane (KCPConditions c) (StatusFailureDomains c) ms in
          mkControlPlane
            (aggregateFromMachinesToKCP Sprintf0
               (mkAggregateInput c' allMachinePodConditions kcpErrors
                  ControlPlaneComponentsHealthyCondition
                  ControlPlaneComponentsUnhealthyReason
                  ControlPlaneComponentsUnknownReason
                  "control plane"))
            (StatusFailureDomains c) ms
      end
  end.

(** Body of the loop over the nodes in [updateManagedEtcdConditions]. *)
Definition etcdNode (node : Node) (ms : Machines) : Machines :=
  match lastMachineOfNode ms (NodeName node) with
  | None => ms
  | Some (key, machine) =>
      if bool_decide (is_Some (DeletionTimestamp machine)) then
        mark (fun cs => MarkFalse cs (MachineEtcdMemberHealthyCondition N)
                          DeletingReason SeverityInfo "")
             key ms
      else
        mark (fun cs => MarkTrue cs (MachineEtcdMemberHealthyCondition N)) key ms
  end.

(** [UpdateEtcdConditions] ([updateManagedEtcdConditions]). *)
Definition UpdateEtcdConditions (c : ControlPlane) : ControlPlane :=
  match getControlPlaneNodes with
  | None =>
      mkControlPlane
        (MarkUnknown (KCPConditions c) (EtcdClusterHealthyCondition N)
           (EtcdClusterInspectionFailedReason N)
           "Failed to list nodes which are hosting the etcd members")
        (StatusFailureDomains c)
        (forEachMachine
           (fun m =>
              withConditions m
                (MarkUnknown (MachineConditions m) (MachineEtcdMemberHealthyCondition N)
                   (EtcdMemberInspectionFailedReason N)
                   "Failed to get the node which is hosting the etcd member"))
           (CPMachines c))
  | Some nodes =>
      mkControlPlane (KCPConditions c) (StatusFailureDomains c)
        (foldl (fun ms node => etcdNode node ms) (CPMachines c) nodes)
  end.

End Updates.

End Workload.

(* ===================================================================== *)
(** * [EnabledIPv6] ([templates] package) *)
(* ===================================================================== *)

Module TemplatesMore.

(** [strings.Split(s, sep)] for a one-byte separator: the pieces of [s]
    between the separators; always at least one piece. *)
Fixpoint Split (sep : ascii) (s : string) : list string :=
  match s with
  | EmptyString => [""]
  | String c rest =>
      if Ascii.eqb c sep then "" :: Split sep rest
      else match Split sep rest with
           | [] => [String c ""]
           | piece :: pieces => String c piece :: pieces
           end
  end.

Definition comma : ascii := ","%char.

(** [EnabledIPv6], of [kubeConf.Cluster.Network.KubePodsCIDR]. *)
Definition EnabledIPv6 (KubePodsCIDR : string) : bool :=
  if (length (Split comma KubePodsCIDR) =? 2)%nat then true else false.

End TemplatesMore.

(* ===================================================================== *)
(** * Reference notions used to state the properties *)
(* ===================================================================== *)

Module PhaseSpec.
Import Conditions KKInstance.

(** The five sub-steps of the deletion phase. *)
Definition deletionSteps (R : Scope) : list Action :=
  [KubeadmReset (CRISocket R); ResetNetwork; RemoveFiles; DaemonReload; UninstallK3s].

(** Running [steps] in order from history [tr]: the position and message
    of the first step that answers with an error, if any. *)
Fixpoint firstFailure (E : Env) (tr : list Action) (steps : list Action)
    : option (nat * string) :=
  match steps with
  | [] => None
  | a :: rest =>
      match answer E tr a with
      | Some msg => Some (0%nat, msg)
      | None =>
          match firstFailure E (tr ++ [a]) rest with
          | Some (i, msg) => Some (S i, msg)
          | None => None
          end
      end
  end.

(** The failure reason and severity each install phase reports. *)
Definition phaseReason (p : PhaseFn) : string :=
  match p with
  | ReconcileBootstrap => "InitOSFailed"
  | ReconcileRepository => "RepositoryFailed"
  | ReconcileBinaryService => "GetBinaryFailed"
  | ReconcileContainerManager => "InstallCRIFailed"
  | ReconcileProvisioning => "RunCloudConfigFailed"
  end.

Definition phaseSeverity (p : PhaseFn) : ConditionSeverity :=
  match p with
  | ReconcileBootstrap | ReconcileRepository => SeverityWarning
  | ReconcileBinaryService | ReconcileContainerManager
  | ReconcileProvisioning => SeverityError
  end.

(** A computation that leaves the instance's conditions alone. *)
Definition keepsConds (m : M) : Prop :=
  forall s, Conds (snd (m s)) = Conds s.

(** The instance after executing the phases [ps] one after the other,
    whatever they return.  (A reconcile that stops at the first error
    executes a prefix of its phase list.) *)
Definition afterPhases (E : Env) (R : Scope) (ps : list PhaseFn) (s : St) : St :=
  foldl (fun s p => snd (runPhase E R p s)) s ps.

(** The calls a phase run added to the log. *)
Definition newCalls (before after : St) : list Action :=
  drop (length (trace before)) (trace after).

(** An environment in which every call succeeds, no container runtime is
    installed yet and the bootstrap payload is two plain commands. *)
Definition envOk : Env :=
  mkEnv (fun _ _ => None) (fun _ => false)
        (fun _ => inl ("echo a
echo b", "cloud-config"))
        (fun _ data => inl (GoStrings.SplitLines data))
        (fun s => s).

(** As [envOk], but the call [bad] answers with the error [msg]. *)
Definition envFailing (bad : Action) (msg : string) : Env :=
  mkEnv (fun _ a => if bool_decide (a = bad) then Some msg else None)
        (fun _ => false)
        (fun _ => inl ("echo a
echo b", "cloud-config"))
        (fun _ data => inl (GoStrings.SplitLines data))
        (fun s => s).

Definition scopeK8s : Scope := mkScope KUBERNETES "/run/containerd/containerd.sock" 600.
Definition scopeK3s : Scope := mkScope K3S "" 600.
Definition scopeK8e : Scope := mkScope "k8e" "" 600.

(** A freshly created instance, and one whose install conditions are all True. *)
Definition pendingInstance : St := mkSt InstanceStatePending [] [].

Definition convergedInstance : St :=
  mkSt InstanceStateRunning
       [TrueCondition KKInstanceBootstrappedCondition;
        TrueCondition KKInstanceRepositoryReadyCondition;
        TrueCondition KKInstanceBinariesReadyCondition;
        TrueCondition KKInstanceCRIReadyCondition;
        TrueCondition KKInstanceProvisionedCondition]
       [].

End PhaseSpec.

Module AggregateSpec.
Import Conditions Collections Cluster.

(** The five ways a machine condition can count in the aggregation. *)
Inductive Kind := KError | KWarning | KInfo | KTrue | KUnknown.

(** What a machine reports for one condition type, if anything. *)
Definition report (m : Machine) (ct : ConditionType) : option Kind :=
  match Get (MachineConditions m) ct with
  | None => None
  | Some c =>
      match Status c with
      | ConditionTrue => Some KTrue
      | ConditionUnknown => Some KUnknown
      | ConditionFalse =>
          match Severity c with
          | SeverityError => Some KError
          | SeverityWarning => Some KWarning
          | SeverityInfo => Some KInfo
          | SeverityNone => None
          end
      end
  end.

Definition group (k : Kind) (g : Groups) : StringSet.t :=
  match k with
  | KError => kcpMachinesWithErrors g
  | KWarning => kcpMachinesWithWarnings g
  | KInfo => kcpMachinesWithInfo g
  | KTrue => kcpMachinesWithTrue g
  | KUnknown => kcpMachinesWithUnknown g
  end.

(** Some machine of the collection reports [k] for one of the aggregated
    condition types. *)
Definition someReports (input : aggregateFromMachinesToKCPInput) (k : Kind) : Prop :=
  exists key m ct,
    CPMachines (controlPlane input) !! key = Some m /\
    ct ∈ machineConditions input /\
    report m ct = Some k.

(** The condition the aggregation leaves on the KCP object. *)
Definition aggregated (Sprintf0 : string -> string)
    (input : aggregateFromMachinesToKCPInput) : option Condition :=
  Get (aggregateFromMachinesToKCP Sprintf0 input) (condition input).

(** Example inputs: the agent-health aggregation of [UpdateAgentConditions]
    over a given machine collection and list of KCP-level errors, starting
    from a KCP object without conditions. *)
Definition agentHealthy : ConditionType := "AgentHealthy".

Definition machineWith (name : string) (created : Z) (fd : option string)
    (conds : list Condition) : Machine :=
  mkMachine name created None ∅ fd (Some name) conds.

Definition agentInput (machines : Machines) (errs : list string)
    : aggregateFromMachinesToKCPInput :=
  mkAggregateInput (mkControlPlane [] ∅ machines) [agentHealthy] errs
    "ControlPlaneComponentsHealthy" "ControlPlaneComponentsUnhealthy"
    "ControlPlaneComponentsUnknown" "control plane".

Definition healthyMachine (name : string) : Machine :=
  machineWith name 1 None [TrueCondition agentHealthy].

Definition unknownMachine (name : string) : Machine :=
  machineWith name 1 None
    [UnknownCondition agentHealthy "PodInspectionFailed" "Node is unreachable"].

(** A machine being deleted, as [UpdateAgentConditions] marks it. *)
Definition deletingMachine (name : string) : Machine :=
  machineWith name 1 None [FalseCondition agentHealthy "Deleting" SeverityInfo ""].

Definition failedMachine (name : string) : Machine :=
  machineWith name 1 None
    [FalseCondition agentHealthy "PodFailed" SeverityError "Missing node"].

End AggregateSpec.

Module SelectionSpec.
Import Conditions Collections Cluster.

(** The machine lies outside the control-plane failure domains currently
    defined in the cluster status: it has no failure domain, or one that is
    not (or no longer) defined there. *)
Definition outsideDefined (c : ControlPlane) (m : Machine) : Prop :=
  forall fd, StatusFailureDomains c !! fd = Some true -> FailureDomain m <> Some fd.

(** The failure domain [fd] hosts a machine of the collection. *)
Definition hostsMachine (machines : Machines) (fd : string) : Prop :=
  exists key m, machines !! key = Some m /\ FailureDomain m = Some fd.

(** Example: failure domain "a" is defined for the control plane; machines
    m1 and m2 run in it, the newer m3 runs in "z", which the cluster status
    does not define. *)
Definition m1 : Machine := mkMachine "m1" 1 None ∅ (Some "a") (Some "n1") [].
Definition m2 : Machine := mkMachine "m2" 2 None ∅ (Some "a") (Some "n2") [].
Definition m3 : Machine := mkMachine "m3" 3 None ∅ (Some "z") (Some "n3") [].

Definition threeMachines : Machines :=
  {[ "m1" := m1; "m2" := m2; "m3" := m3 ]}.

Definition exampleControlPlane : ControlPlane :=
  mkControlPlane [] {[ "a" := true ]} threeMachines.

(** The same machines with m2 annotated for deletion. *)
Definition m2Annotated : Machine :=
  mkMachine "m2" 2 None {[ DeleteMachineAnnotation := "" ]} (Some "a") (Some "n2") [].

End SelectionSpec.

Module HostsSpec.
Import Templates.

(** The entries of one inventory host: none for an unnamed host, otherwise
    the IPv4 entry followed by the IPv6 entry when the host has an IPv6
    address. *)
Definition hostEntries (conf : KubeConf) (host : Host) : list string :=
  if nonEmpty (GetName host) then
    entry4 (GetInternalIPv4Address host) (GetName host) (ClusterName conf)
      (GetName host)
    :: (if nonEmpty (GetInternalIPv6Address host) then
          [entry4 (GetInternalIPv6Address host) (GetName host) (ClusterName conf)
             (GetName host)]
        else [])
  else [].

Definition inventoryEntries (runtime : ModuleRuntime) (conf : KubeConf)
    : list string :=
  flat_map (hostEntries conf) (GetAllHosts runtime).

(** The entries of the first registry host, under the private registry's
    host name when one is configured and the default name otherwise. *)
Definition registryEntries (RegistryCertificateBaseName : string)
    (runtime : ModuleRuntime) (conf : KubeConf) : list string :=
  match head (GetHostsByRole runtime Registry) with
  | None => []
  | Some reg0 =>
      let name := if nonEmpty (PrivateRegistry conf) then RegistryGetHost conf
                  else RegistryCertificateBaseName in
      entry2 (GetInternalIPv4Address reg0) name
      :: (if nonEmpty (GetInternalIPv6Address reg0) then
            [entry2 (GetInternalIPv6Address reg0) name]
          else [])
  end.

(** The trimmed non-empty lines of the [NodeEtcHosts] extension. *)
Definition nodeEtcHostsEntries (TrimSpace : string -> string) (conf : KubeConf)
    : list string :=
  if nonEmpty (NodeEtcHosts conf) then
    List.filter nonEmpty
      (List.map TrimSpace (GoStrings.SplitLines (TrimSpace (NodeEtcHosts conf))))
  else [].

(** Example inventory: a master with both address families, a worker, and
    a configuration whose extension names the master a second time under
    another address. *)
Definition master1 : Host := mkHost "node1" "10.0.0.1" "fd00::1" ["master"; "etcd"].
Definition worker1 : Host := mkHost "node2" "10.0.0.2" "" ["worker"].

Definition confNoEndpoint : KubeConf :=
  mkKubeConf "" "lb.kubesphere.local" "cluster.local" "" ""
    "  10.9.9.9  node1.cluster.local node1

192.168.0.10  harbor.example.com  ".

Definition confWithEndpoint : KubeConf :=
  mkKubeConf "10.0.0.100" "lb.kubesphere.local" "cluster.local" "" "" "".

Definition baseName : string := "dockerhub.kubekey.local".

End HostsSpec.

Module PhaseMoreSpec.
Import Conditions KKInstance PhaseSpec.

(** The five sub-steps of the Bootstrap phase. *)
Definition bootstrapSteps : list Action :=
  [AddUsers; SetHostname; CreateDirectory; ResetTmpDirectory; ExecInitScript].

(** The two installation steps of the ContainerManager phase. *)
Definition installSteps (R : Scope) : list Action :=
  [ContainerManagerGet (WaitKKInstanceTimeout R); ContainerManagerInstall].

(** Every service call succeeds and the bootstrap payload can always be
    fetched and parsed. *)
Definition cooperative (E : Env) : Prop :=
  (forall tr a, answer E tr a = None) /\
  (forall tr, exists data format commands,
      bootstrapData E tr = inl (data, format) /\
      toCommands E format data = inl commands).

(** As [envOk], but a container runtime is already installed. *)
Definition envRuntimePresent : Env :=
  mkEnv (fun _ _ => None) (fun _ => true)
        (fun _ => inl ("echo a", "cloud-config"))
        (fun _ data => inl (GoStrings.SplitLines data))
        (fun s => s).

(** As [envOk], but the bootstrap payload cannot be fetched. *)
Definition envNoPayload : Env :=
  mkEnv (fun _ _ => None) (fun _ => false)
        (fun _ => inr "secret not found")
        (fun _ data => inl (GoStrings.SplitLines data))
        (fun s => s).

(** As [envOk], but the bootstrap payload does not parse. *)
Definition envBadPayload : Env :=
  mkEnv (fun _ _ => None) (fun _ => false)
        (fun _ => inl ("{", "cloud-config"))
        (fun _ _ => inr "yaml: line 1")
        (fun s => s).

(** A host that answers the third ping only. *)
Definition pingThird (i : nat) : error :=
  if (i <? 2)%nat then Some "connection refused" else None.

(** A host that never answers; the error text tells the attempts apart. *)
Definition pingNever (i : nat) : error :=
  Some (if (i =? 2)%nat then "timeout" else "connection refused").

End PhaseMoreSpec.

Module ClusterMoreSpec.
Import Conditions Collections Cluster ClusterMore SelectionSpec.

(** Example: a control plane with failure domains "a" and "b" for the
    control plane and "w" for workers only; m1 and m2 run in "a", the
    machine m4 in "b" is being deleted. *)
Definition m4 : Machine := mkMachine "m4" 4 (Some 9%Z) ∅ (Some "b") (Some "n4") [].

Definition spreadControlPlane : ControlPlane :=
  mkControlPlane [] {[ "a" := true; "b" := true; "w" := false ]}
    {[ "m1" := m1; "m2" := m2; "m4" := m4 ]}.

(** A spec check that accepts every machine but m2. *)
Definition matchesAllButM2 (m : Machine) : bool :=
  negb (String.eqb (Name m) "m2").

End ClusterMoreSpec.

Module WorkloadSpec.
Import Conditions Collections Cluster Workload SelectionSpec.

(** The machines with their conditions blanked: what the condition updates
    never change. *)
Definition identities (ms : Machines) : Machines :=
  (fun m => withConditions m []) <$> ms.

(** Some machine of the collection references the node. *)
Definition hasMachineFor (ms : Machines) (nodeName : string) : Prop :=
  exists key m, ms !! key = Some m /\ NodeRef m = Some nodeName.

(** Every node object can be read. *)
Definition allReadable (clientGet : string -> GetNode) : Prop :=
  forall name, exists conditions, clientGet name = GetFound conditions.

(** No two machines reference the same node. *)
Definition oneMachinePerNode (ms : Machines) : Prop :=
  forall key1 machine1 key2 machine2 ref,
    ms !! key1 = Some machine1 -> ms !! key2 = Some machine2 ->
    NodeRef machine1 = Some ref -> NodeRef machine2 = Some ref -> key1 = key2.

(** The node object carries a Ready condition with status True. *)
Definition reportsReady (conditions : list NodeCondition) : bool :=
  existsb (fun condition =>
             String.eqb (NodeConditionType condition) NodeReady
             && String.eqb (NodeConditionStatus condition) NodeConditionTrue)
          conditions.

(** The node is reachable, its object can be read and reports Ready. *)
Definition healthyNode (clientGet : string -> GetNode) (node : Node) : Prop :=
  nodeHasUnreachableTaint node = false /\
  exists conditions,
    clientGet (NodeName node) = GetFound conditions /\ reportsReady conditions = true.

(** The machine's condition of type [t] is True. *)
Definition isMarkedTrue (t : ConditionType) (m : Machine) : Prop :=
  Get (MachineConditions m) t = Some (TrueCondition t).

(** [m'] is [m] with at most its condition of type [t] changed. *)
Definition sameExcept (t : ConditionType) (m m' : Machine) : Prop :=
  withConditions m' [] = withConditions m [] /\
  forall t', t' <> t -> Get (MachineConditions m') t' = Get (MachineConditions m) t'.

(** Every machine of [ms] is still there in [ms'], with at most its
    condition of type [t] changed, and [ms'] has no other machine. *)
Definition machinesSameExcept (t : ConditionType) (ms ms' : Machines) : Prop :=
  forall key,
    match ms !! key, ms' !! key with
    | Some m, Some m' => sameExcept t m m'
    | None, None => True
    | _, _ => False
    end.

(** The etcd-member condition [updateManagedEtcdConditions] gives the
    machine of a listed node. *)
Definition etcdMemberCondition (N : Names) (m : Machine) : Condition :=
  if bool_decide (is_Some (DeletionTimestamp m)) then
    FalseCondition (MachineEtcdMemberHealthyCondition N) DeletingReason SeverityInfo ""
  else TrueCondition (MachineEtcdMemberHealthyCondition N).

(** The agent condition [UpdateAgentConditions] leaves on the machine of a
    listed node whose object reads as [conditions]: a node that is
    reachable and not Ready leaves the machine's condition as it was. *)
Definition agentVerdict (N : Names) (node : Node) (conditions : list NodeCondition)
    (m : Machine) : option Condition :=
  if bool_decide (is_Some (DeletionTimestamp m)) then
    Some (FalseCondition (MachineAgentHealthyCondition N) DeletingReason SeverityInfo "")
  else if nodeHasUnreachableTaint node then
    Some (UnknownCondition (MachineAgentHealthyCondition N)
            (PodInspectionFailedReason N) "Node is unreachable")
  else if reportsReady conditions then
    Some (TrueCondition (MachineAgentHealthyCondition N))
  else Get (MachineConditions m) (MachineAgentHealthyCondition N).

(** Example names for the repository's constants. *)
Definition exampleNames : Names :=
  mkNames "AgentHealthy" "EtcdMemberHealthy" "ControlPlaneComponentsHealthy"
          "ControlPlaneComponentsInspectionFailed" "PodInspectionFailed" "PodMissing"
          "EtcdClusterHealthy" "EtcdClusterInspectionFailed"
          "EtcdMemberInspectionFailed".

(** Example: machines m1, m2, m3 on nodes n1, n2, n3. *)
Definition node1 : Node := mkNode "n1" [].
Definition node2 : Node := mkNode "n2" [].
Definition node3 : Node := mkNode "n3" [].
Definition node9 : Node := mkNode "n9" [].

Definition readyNode (name : string) : GetNode :=
  GetFound [mkNodeCondition "MemoryPressure" "False"; mkNodeCondition "Ready" "True"].

(** Node n2 cannot be read; the others are Ready. *)
Definition n2Unreadable (name : string) : GetNode :=
  if String.eqb name "n2" then GetNotFound else readyNode name.

(** The example machines with m2 being deleted. *)
Definition m2Deleting : Machine :=
  mkMachine "m2" 2 (Some 7%Z) ∅ (Some "a") (Some "n2") [].

Definition deletingControlPlane : ControlPlane :=
  mkControlPlane [] {[ "a" := true ]} {[ "m1" := m1; "m2" := m2Deleting; "m3" := m3 ]}.

(** Node n1 carries the unreachable taint, node n3 reads as not Ready. *)
Definition node1Unreachable : Node :=
  mkNode "n1" [mkTaint "node.kubernetes.io/unreachable" "NoExecute"].

Definition n3NotReady (name : string) : GetNode :=
  if String.eqb name "n3" then GetFound [mkNodeCondition "Ready" "False"]
  else readyNode name.

End WorkloadSpec.

Module TemplatesMoreSpec.
Import TemplatesMore.

(** The number of occurrences of a character in a string. *)
Fixpoint countChar (c : ascii) (s : string) : nat :=
  match s with
  | EmptyString => 0
  | String x rest => (if Ascii.eqb x c then 1 else 0) + countChar c rest
  end.

End TemplatesMoreSpec.

Module PhaseOutcomeSpec.
Import Conditions KKInstance PhaseSpec PhaseMoreSpec.

(** The error-returning calls of the Repository phase whose error the
    phase returns (the unmount's error is dropped). *)
Definition repositorySteps (R : Scope) : list Action :=
  [RepositoryCheck; RepositoryGet (WaitKKInstanceTimeout R); MountISO; UpdateAndInstall].

(** The error of the first of [steps] that fails, when they are called in
    order from history [tr]. *)
Definition firstError (E : Env) (tr : list Action) (steps : list Action) : error :=
  match firstFailure E tr steps with
  | Some (_, msg) => Some msg
  | None => None
  end.

(** What the actions of a phase answer on a host with history [trace s],
    read off the environment alone: the error of the first action that
    fails, [None] when every action succeeds.
    - Bootstrap, Repository, BinaryService: the phase's service calls.
    - ContainerManager: nothing is to be done when the runtime is found on
      the host; otherwise the fetch and the installation, called after
      the probe.
    - Provisioning: the fetch of the bootstrap payload, its parsing (whose
      error is wrapped), and then the payload's commands, called after the
      fetch (the error of a command is wrapped). *)
Definition phaseFailure (E : Env) (R : Scope) (p : PhaseFn) (s : St) : error :=
  match p with
  | ReconcileBootstrap => firstError E (trace s) bootstrapSteps
  | ReconcileRepository => firstError E (trace s) (repositorySteps R)
  | ReconcileBinaryService =>
      answer E (trace s) (BinaryDownload (Distribution R) (WaitKKInstanceTimeout R))
  | ReconcileContainerManager =>
      if isExist E (trace s) then None
      else firstError E (trace s ++ [ContainerManagerIsExist]) (installSteps R)
  | ReconcileProvisioning =>
      match bootstrapData E (trace s) with
      | inr e => Some e
      | inl (data, format) =>
          match toCommands E format data with
          | inr e => Some (Wrap e "failed to join a control plane node with kubeadm")
          | inl commands =>
              match firstError E (trace s ++ [GetRawBootstrapDataWithFormat])
                      (SudoCmd <$> commands) with
              | Some msg => Some (Wrap msg "failed to run cloud config")
              | None => None
              end
          end
      end
  end.

End PhaseOutcomeSpec.

(* ===================================================================== *)
(** * Properties of conditions *)
(* ===================================================================== *)

Section ConditionFacts.
Import Conditions.

Lemma Get_Set_same (l : list Condition) (c : Condition) :
  Get (Set_ l c) (Type_ c) = Some c.
Proof.
  induction l as [|x l IH]; simpl.
  - by rewrite String.eqb_refl.
  - destruct (String.eqb (Type_ x) (Type_ c)) eqn:Hx; simpl.
    + by rewrite String.eqb_refl.
    + by rewrite Hx.
Qed.

Lemma Get_Set_other (l : list Condition) (c : Condition) (t : ConditionType) :
  t <> Type_ c -> Get (Set_ l c) t = Get l t.
Proof.
  intros Hne. induction l as [|x l IH]; simpl.
  - destruct (String.eqb_spec (Type_ c) t); congruence.
  - destruct (String.eqb_spec (Type_ x) (Type_ c)) as [Hxc|Hxc]; simpl.
    + destruct (String.eqb_spec (Type_ c) t); [congruence|].
      destruct (String.eqb_spec (Type_ x) t); congruence.
    + destruct (String.eqb_spec (Type_ x) t); [done|apply IH].
Qed.

Lemma IsTrue_MarkTrue (l : list Condition) (t : ConditionType) :
  IsTrue (MarkTrue l t) t = true.
Proof.
  unfold IsTrue, MarkTrue.
  change t with (Type_ (TrueCondition t)) at 2.
  by rewrite Get_Set_same.
Qed.

End ConditionFacts.

(* ===================================================================== *)
(** * Properties of the reconcile phases *)
(* ===================================================================== *)

Section PhaseFacts.
Import Conditions KKInstance PhaseSpec.

Variable E : Env.
Variable R : Scope.

Lemma keepsConds_runCommands cmds : keepsConds (runCommands E cmds).
Proof.
  induction cmds as [|c cmds IH]; intros s; simpl; [done|].
  destruct (answer E (trace s) (SudoCmd c)); simpl; [done|].
  by rewrite IH.
Qed.

(** The guarded body shared by the install phases. *)
Lemma withDefer_mark (body : M) t reason sev s :
  Conds (snd (body s)) = Conds s ->
  Conds (snd (withDefer body (markCondition E t reason sev) s)) =
    match fst (withDefer body (markCondition E t reason sev) s) with
    | Some msg => MarkFalse (Conds s) t reason sev (Sprintf0 E msg)
    | None => MarkTrue (Conds s) t
    end.
Proof.
  unfold withDefer. destruct (body s) as [[e|] s']; simpl; by intros ->.
Qed.

Ltac phase_cases :=
  repeat match goal with
         | |- context [answer E ?tr ?a] =>
             let H := fresh "Hans" in destruct (answer E tr a) eqn:H; simpl
         | |- context [if IsTrue ?l ?t then _ else _] =>
             let H := fresh "Htrue" in destruct (IsTrue l t) eqn:H; simpl
         | |- context [if isExist E ?tr then _ else _] =>
             let H := fresh "Hexist" in destruct (isExist E tr) eqn:H; simpl
         end.

Lemma runPhase_body_conds (p : PhaseFn) (s : St) :
  Conds (snd (runPhase E R p s)) =
    match fst (runPhase E R p s) with
    | Some msg =>
        MarkFalse (Conds s) (phaseCondition p) (phaseReason p) (phaseSeverity p)
          (Sprintf0 E msg)
    | None => MarkTrue (Conds s) (phaseCondition p)
    end.
Proof.
  destruct p; simpl; apply withDefer_mark.
  - unfold andThen, call, ret; simpl. phase_cases; done.
  - unfold andThen, call, ret, withDefer; simpl. phase_cases; done.
  - unfold andThen, call, ret; simpl. phase_cases; done.
  - unfold andThen, call, ret; simpl. phase_cases; done.
  - destruct (IsTrue (Conds s) KKInstanceProvisionedCondition); [done|].
    destruct (bootstrapData E (trace s)) as [[data format]|e]; [|done].
    destruct (toCommands E format data) as [cmds|e]; [|done].
    by rewrite keepsConds_runCommands.
Qed.

(** A phase only ever writes the condition it owns. *)
Lemma runPhase_other_condition (p : PhaseFn) (s : St) (t : ConditionType) :
  t <> phaseCondition p ->
  Get (Conds (snd (runPhase E R p s))) t = Get (Conds s) t.
Proof.
  intros Hne. rewrite runPhase_body_conds.
  destruct (fst (runPhase E R p s)); unfold MarkFalse, MarkTrue;
    by rewrite Get_Set_other.
Qed.

(** Refutes membership of a call in an explicit list of other calls. *)
Ltac not_listed :=
  let Hin := fresh "Hin" in
  intros Hin;
  repeat (apply elem_of_cons in Hin as [Hin|Hin]; [discriminate|]);
  by apply elem_of_nil in Hin.

(** With its condition already True a phase returns at once. *)
Lemma runPhase_guard (p : PhaseFn) (s : St) :
  IsTrue (Conds s) (phaseCondition p) = true ->
  runPhase E R p s = (None, setConds (MarkTrue (Conds s) (phaseCondition p)) s).
Proof.
  intros Htrue.
  destruct p; simpl in *;
    unfold reconcileBootstrap, reconcileRepository, reconcileBinaryService,
      reconcileContainerManager, reconcileProvisioning, withDefer;
    by rewrite Htrue.
Qed.

Lemma runPhase_keeps_true (q : PhaseFn) (t : ConditionType) (s : St) :
  IsTrue (Conds s) t = true ->
  IsTrue (Conds (snd (runPhase E R q s))) t = true.
Proof.
  intros Htrue.
  destruct (decide (t = phaseCondition q)) as [->|Hne].
  - rewrite runPhase_guard by done. simpl. apply IsTrue_MarkTrue.
  - unfold IsTrue in *. by rewrite runPhase_other_condition.
Qed.

Lemma afterPhases_keeps_true (ps : list PhaseFn) (t : ConditionType) (s : St) :
  IsTrue (Conds s) t = true ->
  IsTrue (Conds (afterPhases E R ps s)) t = true.
Proof.
unfold afterPhases. revert s.
induction ps as [|q ps IH]; intros s Htrue; simpl; [done|].
by apply IH, runPhase_keeps_true.
Qed.

(** C2 (amended).  [phaseFactory] returns the full sequence Bootstrap,
    Repository, BinaryService, ContainerManager, Provisioning for the
    KUBERNETES distribution; for K3S it returns Bootstrap, Repository,
    BinaryService, Provisioning, none of which ever writes the CRIReady
    condition; for any other distribution value the list is empty. *)
Theorem phaseFactory_by_distribution :
  (Distribution R = KUBERNETES ->
     phaseFactory R =
       [ReconcileBootstrap; ReconcileRepository; ReconcileBinaryService;
        ReconcileContainerManager; ReconcileProvisioning]) /\
  (Distribution R = K3S ->
     phaseFactory R =
       [ReconcileBootstrap; ReconcileRepository; ReconcileBinaryService;
        ReconcileProvisioning] /\
     forall p s,
       p ∈ phaseFactory R ->
       Get (Conds (snd (runPhase E R p s))) KKInstanceCRIReadyCondition
       = Get (Conds s) KKInstanceCRIReadyCondition) /\
  (Distribution R <> KUBERNETES -> Distribution R <> K3S -> phaseFactory R = []).
Proof.
split; [|split].
- intros HK. unfold phaseFactory. by rewrite HK.
- intros HK.
  assert (phaseFactory R =
            [ReconcileBootstrap; ReconcileRepository; ReconcileBinaryService;
             ReconcileProvisioning]) as Hlist
    by (unfold phaseFactory; by rewrite HK).
  split; [done|]. intros p s Hp. rewrite Hlist in Hp.
  apply runPhase_other_condition.
  repeat (apply elem_of_cons in Hp as [->|Hp]; [done|]).
  by apply elem_of_nil in Hp.
- intros H1 H2. unfold phaseFactory.
  destruct (String.eqb_spec (Distribution R) KUBERNETES); [done|].
  by destruct (String.eqb_spec (Distribution R) K3S).
Qed.

(** C3.  If the condition of an install phase P is True at the start of a
    reconcile, then whenever P is executed during that reconcile, after any
    phases that ran before it, P returns nil at once, makes no service call
    and leaves the instance state alone; and P's condition is True after
    any sequence of phase executions, so also at the end of the reconcile. *)
Theorem phase_is_noop_when_condition_true (p : PhaseFn) (s : St) :
  IsTrue (Conds s) (phaseCondition p) = true ->
  (forall before : list PhaseFn,
      fst (runPhase E R p (afterPhases E R before s)) = None /\
      trace (snd (runPhase E R p (afterPhases E R before s)))
      = trace (afterPhases E R before s) /\
      State (snd (runPhase E R p (afterPhases E R before s)))
      = State (afterPhases E R before s)) /\
  (forall executed : list PhaseFn,
      IsTrue (Conds (afterPhases E R executed s)) (phaseCondition p) = true).
Proof.
intros Htrue. split.
- intros before.
  rewrite runPhase_guard by by apply afterPhases_keeps_true.
  done.
- intros executed. by apply afterPhases_keeps_true.
Qed.

(** No step fails exactly when every step, called after its predecessors,
    answers nil. *)
Lemma firstFailure_None_iff (steps : list Action) :
  forall tr,
    firstFailure E tr steps = None <->
    forall i a, steps !! i = Some a -> answer E (tr ++ take i steps) a = None.
Proof.
induction steps as [|a rest IH]; intros tr; simpl.
- split; [|done]. intros _ i a Hi. by rewrite lookup_nil in Hi.
- destruct (answer E tr a) as [msg|] eqn:Ha.
  + split; [done|]. intros Hall.
    specialize (Hall 0%nat a eq_refl). simpl in Hall.
    rewrite app_nil_r in Hall. congruence.
  + specialize (IH (tr ++ [a])).
    destruct (firstFailure E (tr ++ [a]) rest) as [[i msg]|].
    * split; [done|]. intros Hall.
      enough (Some (i, msg) = None) by done.
      apply IH. intros j b Hj. specialize (Hall (S j) b Hj). simpl in Hall.
      by rewrite <- app_assoc.
    * split; [|done]. intros _ [|j] b Hj; simpl in *.
      -- injection Hj as <-. by rewrite app_nil_r.
      -- rewrite (cons_middle a), app_assoc. by apply IH.
Qed.

(** C5.  The deletion phase sets the state to Cleaning and calls
    KubeadmReset, ResetNetwork, RemoveFiles, DaemonReload, UninstallK3s in
    that order, stopping after the first call that fails.  When none
    fails all five were called and DeletingBootstrap is True; when call
    number [i] is the first to fail, exactly the first [i+1] calls were
    made, its error is returned and DeletingBootstrap is False with
    severity Warning. *)
Theorem deletion_runs_five_steps_in_order (s : St) :
  State (snd (reconcileDeletingBootstrap E R s)) = InstanceStateCleaning /\
  match firstFailure E (trace s) (deletionSteps R) with
  | None =>
      fst (reconcileDeletingBootstrap E R s) = None /\
      trace (snd (reconcileDeletingBootstrap E R s)) = trace s ++ deletionSteps R /\
      Get (Conds (snd (reconcileDeletingBootstrap E R s)))
          KKInstanceDeletingBootstrapCondition
      = Some (TrueCondition KKInstanceDeletingBootstrapCondition)
  | Some (i, msg) =>
      fst (reconcileDeletingBootstrap E R s) = Some msg /\
      trace (snd (reconcileDeletingBootstrap E R s))
      = trace s ++ take (S i) (deletionSteps R) /\
      Get (Conds (snd (reconcileDeletingBootstrap E R s)))
          KKInstanceDeletingBootstrapCondition
      = Some (FalseCondition KKInstanceDeletingBootstrapCondition
                KKInstanceClearEnvironmentFailedReason SeverityWarning
                (Sprintf0 E msg))
  end.
Proof.
  unfold reconcileDeletingBootstrap, withDefer, andThen, call, ret, deletionSteps.
  cbn [firstFailure]. simpl.
  phase_cases; (split; [done|]); rewrite <- ?app_assoc; simpl;
    (split; [done|]); (split; [done|]);
    unfold MarkFalse, MarkTrue;
    first [ apply (Get_Set_same _ (TrueCondition _))
          | apply (Get_Set_same _ (FalseCondition _ _ _ _)) ].
Qed.

(** The calls made by one run of the Repository phase. *)
Lemma reconcileRepository_calls (s : St) :
  newCalls s (snd (reconcileRepository E R s)) =
    if IsTrue (Conds s) KKInstanceRepositoryReadyCondition then []
    else
      let tmo := WaitKKInstanceTimeout R in
      match answer E (trace s) RepositoryCheck with
      | Some _ => [RepositoryCheck]
      | None =>
          match answer E (trace s ++ [RepositoryCheck]) (RepositoryGet tmo) with
          | Some _ => [RepositoryCheck; RepositoryGet tmo]
          | None =>
              match answer E ((trace s ++ [RepositoryCheck]) ++ [RepositoryGet tmo])
                      MountISO with
              | Some _ => [RepositoryCheck; RepositoryGet tmo; MountISO; UmountISO]
              | None =>
                  [RepositoryCheck; RepositoryGet tmo; MountISO; UpdateAndInstall;
                   UmountISO]
              end
          end
      end.
Proof.
  unfold newCalls, reconcileRepository, withDefer, andThen, call, ret. simpl.
  phase_cases; rewrite <- ?app_assoc; simpl;
    try (rewrite drop_app_length; reflexivity).
  all: by rewrite drop_all.
Qed.

(** C7.  In every run of the Repository phase that calls MountISO, a call
    of UmountISO follows it and is the last call before the phase
    returns, whatever MountISO and UpdateAndInstall answer; when Check or
    Get fails, UmountISO is not called. *)
Theorem repository_unmounts_whenever_mounted (s : St) :
  (MountISO ∈ newCalls s (snd (reconcileRepository E R s)) ->
     (exists before after,
        newCalls s (snd (reconcileRepository E R s)) = before ++ MountISO :: after /\
        UmountISO ∈ after) /\
     last (newCalls s (snd (reconcileRepository E R s))) = Some UmountISO) /\
  (is_Some (answer E (trace s) RepositoryCheck) ->
     UmountISO ∉ newCalls s (snd (reconcileRepository E R s))) /\
  (answer E (trace s) RepositoryCheck = None ->
   is_Some (answer E (trace s ++ [RepositoryCheck])
              (RepositoryGet (WaitKKInstanceTimeout R))) ->
     UmountISO ∉ newCalls s (snd (reconcileRepository E R s))).
Proof.
  rewrite reconcileRepository_calls. cbv zeta.
  destruct (IsTrue (Conds s) KKInstanceRepositoryReadyCondition).
  { split; [|split]; [not_listed| |]; intros; apply not_elem_of_nil. }
  destruct (answer E (trace s) RepositoryCheck) as [e|] eqn:Hcheck.
  { split; [|split]; [not_listed| |done]. intros _. not_listed. }
  destruct (answer E (trace s ++ [RepositoryCheck])
              (RepositoryGet (WaitKKInstanceTimeout R))) as [e|] eqn:Hget.
  { split; [|split]; [not_listed|by intros [? ?]|]. intros _ _. not_listed. }
  split; [|split].
  - intros _.
    destruct (answer E _ MountISO); (split; [|done]).
    + exists [RepositoryCheck; RepositoryGet (WaitKKInstanceTimeout R)], [UmountISO].
      split; [done|]. by left.
    + exists [RepositoryCheck; RepositoryGet (WaitKKInstanceTimeout R)],
             [UpdateAndInstall; UmountISO].
      split; [done|]. right. by left.
  - by intros [? ?].
  - by intros _ [? ?].
Qed.

End PhaseFacts.

Section PhaseInstances.
Import Conditions KKInstance PhaseSpec.

(** C2 (counterexample).  For the distribution value "k8e", which is
    neither KUBERNETES nor K3S, [phaseFactory] returns no phase at all,
    not the full sequence. *)
Lemma phaseFactory_other_distribution_counterexample :
  Distribution scopeK8e <> K3S /\
  phaseFactory scopeK8e = [] /\
  phaseFactory scopeK8e <>
    [ReconcileBootstrap; ReconcileRepository; ReconcileBinaryService;
     ReconcileContainerManager; ReconcileProvisioning].
Proof. split; [discriminate|]. split; [reflexivity|discriminate]. Qed.

(** The three cases on a Kubernetes, a K3s and a "k8e" scope. *)
Lemma phaseFactory_by_distribution_witness :
  phaseFactory scopeK8s =
    [ReconcileBootstrap; ReconcileRepository; ReconcileBinaryService;
     ReconcileContainerManager; ReconcileProvisioning] /\
  (phaseFactory scopeK3s =
     [ReconcileBootstrap; ReconcileRepository; ReconcileBinaryService;
      ReconcileProvisioning] /\
   forall p s,
     p ∈ phaseFactory scopeK3s ->
     Get (Conds (snd (runPhase envOk scopeK3s p s))) KKInstanceCRIReadyCondition
     = Get (Conds s) KKInstanceCRIReadyCondition) /\
  phaseFactory scopeK8e = [].
Proof.
split; [|split].
- apply (proj1 (phaseFactory_by_distribution envOk scopeK8s)). reflexivity.
- apply (proj1 (proj2 (phaseFactory_by_distribution envOk scopeK3s))).
  reflexivity.
- apply (proj2 (proj2 (phaseFactory_by_distribution envOk scopeK8e)));
    discriminate.
Defined.

(** The BinaryService phase on a converged instance. *)
Lemma phase_is_noop_when_condition_true_witness :
  IsTrue (Conds convergedInstance) (phaseCondition ReconcileBinaryService) = true /\
  (forall before : list PhaseFn,
      fst (runPhase envOk scopeK8s ReconcileBinaryService
             (afterPhases envOk scopeK8s before convergedInstance)) = None /\
      trace (snd (runPhase envOk scopeK8s ReconcileBinaryService
                    (afterPhases envOk scopeK8s before convergedInstance)))
      = trace (afterPhases envOk scopeK8s before convergedInstance) /\
      State (snd (runPhase envOk scopeK8s ReconcileBinaryService
                    (afterPhases envOk scopeK8s before convergedInstance)))
      = State (afterPhases envOk scopeK8s before convergedInstance)) /\
  (forall executed : list PhaseFn,
      IsTrue (Conds (afterPhases envOk scopeK8s executed convergedInstance))
             (phaseCondition ReconcileBinaryService) = true).
Proof.
split; [reflexivity|].
apply (phase_is_noop_when_condition_true envOk scopeK8s
         ReconcileBinaryService convergedInstance).
reflexivity.
Defined.

(** A converged Kubernetes host: running the whole phase list again makes
    no service call. *)
Example converged_host_rerun :
  afterPhases envOk scopeK8s (phaseFactory scopeK8s) convergedInstance
  = convergedInstance.
Proof. reflexivity. Qed.

(** A fresh Kubernetes host on which everything succeeds ends with the five
    install conditions True. *)
Example fresh_host_install :
  Conds (afterPhases envOk scopeK8s (phaseFactory scopeK8s) pendingInstance)
  = Conds convergedInstance.
Proof. reflexivity. Qed.

(** The Repository phase on a fresh instance when the package install,
    the availability check or the ISO download fails. *)
Lemma repository_unmounts_whenever_mounted_witness :
  last (newCalls pendingInstance
          (snd (reconcileRepository (envFailing UpdateAndInstall "no package")
                  scopeK8s pendingInstance)))
  = Some UmountISO /\
  (UmountISO ∉ newCalls pendingInstance
                 (snd (reconcileRepository (envFailing RepositoryCheck "no yum")
                         scopeK8s pendingInstance))) /\
  (UmountISO ∉ newCalls pendingInstance
                 (snd (reconcileRepository (envFailing (RepositoryGet 600) "no iso")
                         scopeK8s pendingInstance))).
Proof.
  split; [|split].
  - apply (proj1 (repository_unmounts_whenever_mounted
                    (envFailing UpdateAndInstall "no package") scopeK8s
                    pendingInstance)).
    vm_compute. do 2 right. left.
  - apply (proj1 (proj2 (repository_unmounts_whenever_mounted
                           (envFailing RepositoryCheck "no yum") scopeK8s
                           pendingInstance))).
    vm_compute. eexists. reflexivity.
  - apply (proj2 (proj2 (repository_unmounts_whenever_mounted
                           (envFailing (RepositoryGet 600) "no iso") scopeK8s
                           pendingInstance))).
    + reflexivity.
    + vm_compute. eexists. reflexivity.
Defined.

(** A failed download leaves BinariesReady False with severity Error and
    reason GetBinaryFailed, carrying the error text. *)
Example binary_download_failure :
  runPhase (envFailing (BinaryDownload KUBERNETES 600) "404 Not Found") scopeK8s
    ReconcileBinaryService pendingInstance
  = (Some "404 Not Found",
     mkSt InstanceStatePending
       [FalseCondition KKInstanceBinariesReadyCondition "GetBinaryFailed"
          SeverityError "404 Not Found"]
       [BinaryDownload KUBERNETES 600]).
Proof. reflexivity. Qed.

(** A clean deletion makes the five calls and marks DeletingBootstrap True. *)
Example deletion_all_ok :
  reconcileDeletingBootstrap envOk scopeK3s pendingInstance
  = (None,
     mkSt InstanceStateCleaning
       [TrueCondition KKInstanceDeletingBootstrapCondition]
       [KubeadmReset ""; ResetNetwork; RemoveFiles; DaemonReload; UninstallK3s]).
Proof. reflexivity. Qed.

(** A failing file removal stops the deletion after the third call. *)
Example deletion_stops_at_failure :
  reconcileDeletingBootstrap (envFailing RemoveFiles "busy") scopeK3s pendingInstance
  = (Some "busy",
     mkSt InstanceStateCleaning
       [FalseCondition KKInstanceDeletingBootstrapCondition "ClearEnvironmentFailed"
          SeverityWarning "busy"]
       [KubeadmReset ""; ResetNetwork; RemoveFiles]).
Proof. reflexivity. Qed.

End PhaseInstances.

(* ===================================================================== *)
(** * Properties of the condition aggregation *)
(* ===================================================================== *)

Section AggregateFacts.
Import Conditions Collections Cluster AggregateSpec.

Lemma elem_of_Insert (x y : string) (s : StringSet.t) :
  y ∈ StringSet.Insert x s <-> y = x \/ y ∈ s.
Proof.
  induction s as [|a s IH]; simpl.
  - rewrite list_elem_of_singleton. set_solver.
  - destruct (String.compare x a) eqn:Hc.
    + apply String.compare_eq_iff in Hc as ->. set_solver.
    + set_solver.
    + rewrite !elem_of_cons, IH. tauto.
Qed.

Lemma Len_pos (s : StringSet.t) :
  (0 < StringSet.Len s)%nat <-> exists x, x ∈ s.
Proof.
  destruct s as [|a s]; simpl.
  - split; [lia|]. intros [x Hx]. by apply elem_of_nil in Hx.
  - split; [|lia]. intros _. exists a. by left.
Qed.

Lemma classify_group (k : Kind) (m : Machine) (g : Groups) (ct : ConditionType)
    (x : string) :
  x ∈ group k (classify m g ct) <->
  x ∈ group k g \/ (report m ct = Some k /\ x = Name m).
Proof.
  unfold classify, report.
  destruct (Get (MachineConditions m) ct) as [c|]; [|naive_solver].
  destruct (Status c); [| destruct (Severity c) |];
    destruct k; simpl; rewrite ?elem_of_Insert; naive_solver.
Qed.

Lemma classifyMachine_group (k : Kind) (m : Machine) (cts : list ConditionType)
    (x : string) :
  forall g,
    x ∈ group k (classifyMachine cts g m) <->
    x ∈ group k g \/ (exists ct, ct ∈ cts /\ report m ct = Some k /\ x = Name m).
Proof.
  unfold classifyMachine.
  induction cts as [|ct cts IH]; intros g; simpl.
  - split; [by left|]. intros [?|(ct & Hct & _)]; [done|].
    by apply elem_of_nil in Hct.
  - rewrite IH, classify_group. split.
    + intros [[?|[? ?]]|(ct' & ? & ? & ?)]; [by left| |].
      * right. exists ct. split; [by left|done].
      * right. exists ct'. split; [by right|done].
    + intros [?|(ct' & Hin & ? & ?)]; [by left; left|].
      apply elem_of_cons in Hin as [->|Hin]; [by left; right|].
      right. by exists ct'.
Qed.

Lemma groupMachines_group_from (k : Kind) (cts : list ConditionType)
    (ms : list Machine) (x : string) :
  forall g,
    x ∈ group k (foldl (classifyMachine cts) g ms) <->
    x ∈ group k g \/
    (exists m ct, m ∈ ms /\ ct ∈ cts /\ report m ct = Some k /\ x = Name m).
Proof.
  induction ms as [|m ms IH]; intros g; simpl.
  - split; [by left|]. intros [?|(m & ? & Hm & _)]; [done|].
    by apply elem_of_nil in Hm.
  - rewrite IH, classifyMachine_group. split.
    + intros [[?|(ct & ? & ? & ?)]|(m' & ct & ? & ? & ? & ?)]; [by left| |].
      * right. exists m, ct. split; [by left|done].
      * right. exists m', ct. split; [by right|done].
    + intros [?|(m' & ct & Hin & ? & ? & ?)]; [by left; left|].
      apply elem_of_cons in Hin as [->|Hin].
      * left; right. by exists ct.
      * right. by exists m', ct.
Qed.

Lemma elem_of_UnsortedList (s : Machines) (m : Machine) :
  m ∈ UnsortedList s <-> exists key, s !! key = Some m.
Proof.
  unfold UnsortedList. rewrite list_elem_of_fmap. split.
  - intros ([key m'] & -> & Hin). exists key. by apply elem_of_map_to_list.
  - intros [key Hkey]. exists (key, m). split; [done|].
    by apply elem_of_map_to_list.
Qed.

(** A name set of the aggregation is non-empty exactly when some machine
    reports the corresponding kind. *)
Lemma group_nonempty (input : aggregateFromMachinesToKCPInput) (k : Kind) :
  (0 < StringSet.Len
         (group k (groupMachines (machineConditions input)
                     (UnsortedList (CPMachines (controlPlane input))))))%nat
  <-> someReports input k.
Proof.
  rewrite Len_pos. unfold groupMachines, someReports. split.
  - intros [x Hx]. apply groupMachines_group_from in Hx
      as [Hx|(m & ct & Hm & Hct & Hrep & _)].
    + destruct k; by apply elem_of_nil in Hx.
    + apply elem_of_UnsortedList in Hm as [key Hkey]. by exists key, m, ct.
  - intros (key & m & ct & Hkey & Hct & Hrep). exists (Name m).
    apply groupMachines_group_from. right. exists m, ct.
    split; [|done]. apply elem_of_UnsortedList. by exists key.
Qed.

Variable Sprintf0 : string -> string.

Ltac by_groups input :=
  pose proof (group_nonempty input KError) as HgE;
  pose proof (group_nonempty input KWarning) as HgW;
  pose proof (group_nonempty input KTrue) as HgT;
  pose proof (group_nonempty input KUnknown) as HgU;
  simpl in HgE, HgW, HgT, HgU;
  unfold aggregated, aggregateFromMachinesToKCP; cbv zeta.

Lemma Get_MarkFalse l t reason sev msg :
  Get (MarkFalse l t reason sev msg) t = Some (FalseCondition t reason sev msg).
Proof. apply (Get_Set_same l (FalseCondition t reason sev msg)). Qed.

Lemma Get_MarkTrue l t : Get (MarkTrue l t) t = Some (TrueCondition t).
Proof. apply (Get_Set_same l (TrueCondition t)). Qed.

Lemma Get_MarkUnknown l t reason msg :
  Get (MarkUnknown l t reason msg) t = Some (UnknownCondition t reason msg).
Proof. apply (Get_Set_same l (UnknownCondition t reason msg)). Qed.

(** Errors first: a machine reporting False/Error, or a KCP-level error,
    makes the KCP condition False with severity Error. *)
Lemma aggregate_error (input : aggregateFromMachinesToKCPInput) :
  someReports input KError \/ kcpErrors input <> [] ->
  exists msg,
    aggregated Sprintf0 input =
      Some (FalseCondition (condition input) (unhealthyReason input)
              SeverityError msg).
Proof.
  intros Herr. by_groups input.
  case_bool_decide as Hlen; [eexists; apply Get_MarkFalse|].
  exfalso. apply Hlen. case_bool_decide as HE.
  - rewrite length_app. simpl. lia.
  - destruct Herr as [Herr|Herr]; [by apply HgE in Herr|].
    destruct (kcpErrors input); [done|simpl; lia].
Qed.

(** Then warnings. *)
Lemma aggregate_warning (input : aggregateFromMachinesToKCPInput) :
  kcpErrors input = [] -> ~ someReports input KError ->
  someReports input KWarning ->
  exists msg,
    aggregated Sprintf0 input =
      Some (FalseCondition (condition input) (unhealthyReason input)
              SeverityWarning msg).
Proof.
  intros Hnil HnE HW. by_groups input. rewrite Hnil.
  rewrite (bool_decide_eq_false_2 _ (fun H => HnE (proj1 HgE H))). simpl.
  apply HgW in HW. rewrite (bool_decide_eq_true_2 _ HW).
  eexists. apply Get_MarkFalse.
Qed.

(** Without errors and warnings, one True report makes the KCP condition
    True, whether or not other machines report Info or Unknown. *)
Lemma aggregate_true (input : aggregateFromMachinesToKCPInput) :
  kcpErrors input = [] -> ~ someReports input KError ->
  ~ someReports input KWarning -> someReports input KTrue ->
  aggregated Sprintf0 input = Some (TrueCondition (condition input)).
Proof.
  intros Hnil HnE HnW HT. by_groups input. rewrite Hnil.
  rewrite (bool_decide_eq_false_2 _ (fun H => HnE (proj1 HgE H))). simpl.
  rewrite (bool_decide_eq_false_2 _ (fun H => HnW (proj1 HgW H))).
  apply HgT in HT. rewrite (bool_decide_eq_true_2 _ HT).
  apply Get_MarkTrue.
Qed.

(** Without errors, warnings and True reports, one Unknown report makes
    the KCP condition Unknown. *)
Lemma aggregate_unknown (input : aggregateFromMachinesToKCPInput) :
  kcpErrors input = [] -> ~ someReports input KError ->
  ~ someReports input KWarning -> ~ someReports input KTrue ->
  someReports input KUnknown ->
  exists msg,
    aggregated Sprintf0 input =
      Some (UnknownCondition (condition input) (unknownReason input) msg).
Proof.
  intros Hnil HnE HnW HnT HU. by_groups input. rewrite Hnil.
  rewrite (bool_decide_eq_false_2 _ (fun H => HnE (proj1 HgE H))). simpl.
  rewrite (bool_decide_eq_false_2 _ (fun H => HnW (proj1 HgW H))).
  rewrite (bool_decide_eq_false_2 _ (fun H => HnT (proj1 HgT H))).
  apply HgU in HU. rewrite (bool_decide_eq_true_2 _ HU).
  eexists. apply Get_MarkUnknown.
Qed.

(** With none of Error, Warning, True and Unknown reported, the KCP
    conditions are left as they were; machines reporting False/Info do
    not change that. *)
Lemma aggregate_info_not_reported (input : aggregateFromMachinesToKCPInput) :
  kcpErrors input = [] -> ~ someReports input KError ->
  ~ someReports input KWarning -> ~ someReports input KTrue ->
  ~ someReports input KUnknown ->
  aggregateFromMachinesToKCP Sprintf0 input = KCPConditions (controlPlane input).
Proof.
  intros Hnil HnE HnW HnT HnU. by_groups input. rewrite Hnil.
  rewrite (bool_decide_eq_false_2 _ (fun H => HnE (proj1 HgE H))). simpl.
  rewrite (bool_decide_eq_false_2 _ (fun H => HnW (proj1 HgW H))).
  rewrite (bool_decide_eq_false_2 _ (fun H => HnT (proj1 HgT H))).
  by rewrite (bool_decide_eq_false_2 _ (fun H => HnU (proj1 HgU H))).
Qed.

End AggregateFacts.

Section AggregateProperties.
Import Conditions Collections Cluster AggregateSpec.

(** C1 (failing input).  With no error and no warning around, machines
    reporting False/Info are not reported: next to a healthy machine the
    KCP condition comes out True, and on their own they leave the KCP
    object without the condition, where the stated order asks for False
    naming the Info machines. *)
Theorem aggregate_info_branch_unreachable :
  aggregated (fun s => s)
    (agentInput {[ "m1" := deletingMachine "m1"; "m2" := healthyMachine "m2" ]} [])
  = Some (TrueCondition "ControlPlaneComponentsHealthy") /\
  aggregateFromMachinesToKCP (fun s => s)
    (agentInput {[ "m1" := deletingMachine "m1" ]} [])
  = [].
Proof. split; vm_compute; reflexivity. Qed.

(** C6 (counterexample).  A machine set whose conditions are all True
    aggregates to False/Error when a KCP-level error was collected, and
    the empty machine set (all of whose conditions are True, and all
    Unknown) leaves the KCP object without the condition. *)
Lemma aggregate_all_true_counterexample :
  aggregated (fun s => s)
    (agentInput {[ "m1" := healthyMachine "m1" ]}
       ["Control plane node n2 does not have a corresponding machine"])
  = Some (FalseCondition "ControlPlaneComponentsHealthy"
            "ControlPlaneComponentsUnhealthy" SeverityError
            "Control plane node n2 does not have a corresponding machine") /\
  aggregated (fun s => s) (agentInput ∅ []) = None.
Proof. split; vm_compute; reflexivity. Qed.

Variable Sprintf0 : string -> string.

(** When every reported condition has status [st], no other kind is reported. *)
Lemma uniform_status (input : aggregateFromMachinesToKCPInput)
    (st : ConditionStatus) (k : Kind) :
  (forall key m ct c,
      CPMachines (controlPlane input) !! key = Some m ->
      ct ∈ machineConditions input ->
      Get (MachineConditions m) ct = Some c -> Status c = st) ->
  someReports input k ->
  match st with
  | ConditionTrue => k = KTrue
  | ConditionUnknown => k = KUnknown
  | ConditionFalse => k <> KTrue /\ k <> KUnknown
  end.
Proof.
  intros Hall (key & m & ct & Hkey & Hct & Hrep).
  unfold report in Hrep.
  destruct (Get (MachineConditions m) ct) as [c|] eqn:Hget; [|done].
  rewrite (Hall key m ct c Hkey Hct Hget) in Hrep.
  destruct st; [congruence| |congruence].
  destruct (Severity c); naive_solver.
Qed.

Lemma someReports_intro (input : aggregateFromMachinesToKCPInput)
    key m ct c (k : Kind) :
  CPMachines (controlPlane input) !! key = Some m ->
  ct ∈ machineConditions input ->
  Get (MachineConditions m) ct = Some c ->
  report m ct = Some k ->
  someReports input k.
Proof. intros. by exists key, m, ct. Qed.

(** C6 (amended).  With no KCP-level error collected, a machine set that
    reports at least one of the aggregated conditions and reports all of
    them as True aggregates to True; any machine set with a condition
    that is False with severity Error aggregates to False/Error; with no
    KCP-level error collected, a machine set that reports at least one of
    the aggregated conditions and reports all of them as Unknown
    aggregates to Unknown. *)
Theorem aggregate_round_trip (input : aggregateFromMachinesToKCPInput) :
  (kcpErrors input = [] ->
   (exists key m ct c,
       CPMachines (controlPlane input) !! key = Some m /\
       ct ∈ machineConditions input /\
       Get (MachineConditions m) ct = Some c) ->
   (forall key m ct c,
       CPMachines (controlPlane input) !! key = Some m ->
       ct ∈ machineConditions input ->
       Get (MachineConditions m) ct = Some c -> Status c = ConditionTrue) ->
   aggregated Sprintf0 input = Some (TrueCondition (condition input))) /\
  ((exists key m ct c,
       CPMachines (controlPlane input) !! key = Some m /\
       ct ∈ machineConditions input /\
       Get (MachineConditions m) ct = Some c /\
       Status c = ConditionFalse /\ Severity c = SeverityError) ->
   exists msg,
     aggregated Sprintf0 input =
       Some (FalseCondition (condition input) (unhealthyReason input)
               SeverityError msg)) /\
  (kcpErrors input = [] ->
   (exists key m ct c,
       CPMachines (controlPlane input) !! key = Some m /\
       ct ∈ machineConditions input /\
       Get (MachineConditions m) ct = Some c) ->
   (forall key m ct c,
       CPMachines (controlPlane input) !! key = Some m ->
       ct ∈ machineConditions input ->
       Get (MachineConditions m) ct = Some c -> Status c = ConditionUnknown) ->
   exists msg,
     aggregated Sprintf0 input =
       Some (UnknownCondition (condition input) (unknownReason input) msg)).
Proof.
  split; [|split].
  - intros Hnil (key & m & ct & c & Hkey & Hct & Hget) Hall.
    apply aggregate_true; [done| | |].
    + intros H. by apply (uniform_status _ _ _ Hall) in H.
    + intros H. by apply (uniform_status _ _ _ Hall) in H.
    + apply (someReports_intro input key m ct c); [done..|].
      unfold report. by rewrite Hget, (Hall key m ct c).
  - intros (key & m & ct & c & Hkey & Hct & Hget & Hst & Hsev).
    apply aggregate_error. left.
    apply (someReports_intro input key m ct c); [done..|].
    unfold report. by rewrite Hget, Hst, Hsev.
  - intros Hnil (key & m & ct & c & Hkey & Hct & Hget) Hall.
    apply aggregate_unknown; [done| | | |].
    + intros H. by apply (uniform_status _ _ _ Hall) in H.
    + intros H. by apply (uniform_status _ _ _ Hall) in H.
    + intros H. by apply (uniform_status _ _ _ Hall) in H.
    + apply (someReports_intro input key m ct c); [done..|].
      unfold report. by rewrite Hget, (Hall key m ct c).
Qed.

End AggregateProperties.

Section AggregateInstances.
Import Conditions Collections Cluster AggregateSpec.

(** Unfolds what a one-machine example collection reports. *)
Ltac single_machine :=
  let key := fresh "key" in
  let m := fresh "m" in
  let ct := fresh "ct" in
  let c := fresh "c" in
  let Hkey := fresh "Hkey" in
  let Hct := fresh "Hct" in
  let Hget := fresh "Hget" in
  intros key m ct c Hkey Hct Hget; simpl in Hkey, Hct;
  apply lookup_singleton_Some in Hkey as [<- <-];
  apply list_elem_of_singleton in Hct as ->;
  injection Hget as <-; reflexivity.

(** One healthy, one failed and one unreachable machine, each on its own. *)
Lemma aggregate_round_trip_witness :
  aggregated (fun s => s) (agentInput {[ "m1" := healthyMachine "m1" ]} [])
  = Some (TrueCondition "ControlPlaneComponentsHealthy") /\
  (exists msg,
      aggregated (fun s => s) (agentInput {[ "m1" := failedMachine "m1" ]} [])
      = Some (FalseCondition "ControlPlaneComponentsHealthy"
                "ControlPlaneComponentsUnhealthy" SeverityError msg)) /\
  (exists msg,
      aggregated (fun s => s) (agentInput {[ "m1" := unknownMachine "m1" ]} [])
      = Some (UnknownCondition "ControlPlaneComponentsHealthy"
                "ControlPlaneComponentsUnknown" msg)).
Proof.
  split; [|split].
  - apply (proj1 (aggregate_round_trip (fun s => s)
                    (agentInput {[ "m1" := healthyMachine "m1" ]} []))).
    + reflexivity.
    + exists "m1", (healthyMachine "m1"), agentHealthy, (TrueCondition agentHealthy).
      split; [reflexivity|]. split; [left|reflexivity].
    + single_machine.
  - apply (proj1 (proj2 (aggregate_round_trip (fun s => s)
                           (agentInput {[ "m1" := failedMachine "m1" ]} [])))).
    exists "m1", (failedMachine "m1"), agentHealthy,
      (FalseCondition agentHealthy "PodFailed" SeverityError "Missing node").
    split; [reflexivity|]. split; [left|]. repeat split.
  - apply (proj2 (proj2 (aggregate_round_trip (fun s => s)
                           (agentInput {[ "m1" := unknownMachine "m1" ]} [])))).
    + reflexivity.
    + exists "m1", (unknownMachine "m1"), agentHealthy,
        (UnknownCondition agentHealthy "PodInspectionFailed" "Node is unreachable").
      split; [reflexivity|]. split; [left|reflexivity].
    + single_machine.
Defined.

End AggregateInstances.

(* ===================================================================== *)
(** * Properties of the control-plane view *)
(* ===================================================================== *)

Section CollectionFacts.
Import Conditions Collections Cluster SelectionSpec.

Lemma ltb_irrefl (a : string) : String.ltb a a = false.
Proof.
unfold String.ltb.
destruct (String.compare a a) eqn:Hc; try done.
pose proof (String.compare_antisym a a) as Ha. rewrite Hc in Ha. done.
Qed.

Lemma ltb_trans (a b c : string) :
  String.ltb a b = true -> String.ltb b c = true -> String.ltb a c = true.
Proof.
unfold String.ltb.
destruct (String.compare a b) eqn:Hab; try done.
destruct (String.compare b c) eqn:Hbc; try done.
intros _ _.
apply String_as_OT.cmp_lt in Hab, Hbc.
pose proof (String_as_OT.lt_trans _ _ _ Hab Hbc) as Hac.
apply String_as_OT.cmp_lt in Hac. unfold String_as_OT.cmp in Hac.
by rewrite Hac.
Qed.

Lemma Less_irrefl (m : Machine) : Less m m = false.
Proof. unfold Less. rewrite Z.eqb_refl. apply ltb_irrefl. Qed.

Lemma Less_trans (a b c : Machine) :
  Less a b = true -> Less b c = true -> Less a c = true.
Proof.
unfold Less.
destruct (Z.eqb_spec (CreationTimestamp a) (CreationTimestamp b)) as [Hab|Hab];
  destruct (Z.eqb_spec (CreationTimestamp b) (CreationTimestamp c)) as [Hbc|Hbc];
  destruct (Z.eqb_spec (CreationTimestamp a) (CreationTimestamp c)) as [Hac|Hac];
  rewrite ?Z.ltb_lt; try lia.
apply ltb_trans.
Qed.

Lemma Filter_lookup (s : Machines) (filters : list (Machine -> bool)) key m :
  Filter s filters !! key = Some m <->
  s !! key = Some m /\ forall f, f ∈ filters -> f m = true.
Proof.
unfold Filter. rewrite map_lookup_filter_Some. simpl.
rewrite Is_true_true, forallb_forall.
setoid_rewrite <- list_elem_of_In. done.
Qed.

Lemma foldr_pickOlder_None (l : list Machine) :
  foldr pickOlder None l = None <-> l = [].
Proof.
destruct l as [|m l]; simpl; [done|].
split; [|done]. unfold pickOlder.
destruct (foldr _ None l) as [o|]; [|done]. by destruct (Less m o).
Qed.

Lemma foldr_pickOlder_Some (l : list Machine) (m : Machine) :
  foldr pickOlder None l = Some m ->
  m ∈ l /\ forall m', m' ∈ l -> Less m' m = false.
Proof.
revert m. induction l as [|x l IH]; intros m; simpl; [done|].
unfold pickOlder at 1.
destruct (foldr pickOlder None l) as [o|] eqn:Hfold.
- destruct (IH o eq_refl) as [Ho Hmin].
  destruct (Less x o) eqn:Hxo; intros [= <-].
  + split; [by left|]. intros m' Hm'.
    apply elem_of_cons in Hm' as [->|Hm']; [apply Less_irrefl|].
    destruct (Less m' x) eqn:Hm'x; [|done].
    pose proof (Hmin m' Hm') as Hc.
    by rewrite (Less_trans _ _ _ Hm'x Hxo) in Hc.
  + split; [by right|]. intros m' Hm'.
    apply elem_of_cons in Hm' as [->|Hm']; [done|by apply Hmin].
- apply foldr_pickOlder_None in Hfold as ->. intros [= <-].
  split; [by left|]. intros m' Hm'.
  apply list_elem_of_singleton in Hm' as ->. apply Less_irrefl.
Qed.

(** [Oldest] is nil exactly on the empty collection. *)
Lemma Oldest_None (s : Machines) : Oldest s = None <-> s = ∅.
Proof.
unfold Oldest, UnsortedList. rewrite foldr_pickOlder_None.
rewrite <- map_to_list_empty_iff. split.
- apply fmap_nil_inv.
- by intros ->.
Qed.

(** Otherwise it is a machine of the collection that no other precedes. *)
Lemma Oldest_Some (s : Machines) (m : Machine) :
  Oldest s = Some m ->
  (exists key, s !! key = Some m) /\
  forall key' m', s !! key' = Some m' -> Less m' m = false.
Proof.
intros H. apply foldr_pickOlder_Some in H as [Hin Hmin].
split; [by apply elem_of_UnsortedList|].
intros key' m' Hm'. apply Hmin, elem_of_UnsortedList. by exists key'.
Qed.

(** A machine passes [InFailureDomains] of the defined control-plane
    failure domains exactly when its failure domain is one of them. *)
Lemma inDefined_iff (c : ControlPlane) (m : Machine) :
  InFailureDomains (GetIDs (FilterControlPlane (FailureDomainsOf c))) m = true <->
  exists fd, StatusFailureDomains c !! fd = Some true /\ FailureDomain m = Some fd.
Proof.
unfold InFailureDomains, GetIDs, FilterControlPlane, FailureDomainsOf.
rewrite existsb_exists. split.
- intros (x & Hin & Hx). apply bool_decide_eq_true in Hx.
  apply list_elem_of_In, list_elem_of_fmap in Hin as ([fd b] & -> & Hin).
  apply elem_of_map_to_list, map_lookup_filter_Some in Hin as [Hfd Hb].
  simpl in *. subst b. by exists fd.
- intros (fd & Hfd & Hm). exists (Some fd). split.
  + apply list_elem_of_In, list_elem_of_fmap. exists (fd, true). split; [done|].
    by apply elem_of_map_to_list, map_lookup_filter_Some.
  + by apply bool_decide_eq_true.
Qed.

Lemma outsideDefined_iff (c : ControlPlane) (m : Machine) :
  Not (InFailureDomains (GetIDs (FilterControlPlane (FailureDomainsOf c)))) m = true
  <-> outsideDefined c m.
Proof.
unfold Not, outsideDefined. rewrite negb_true_iff, <- not_true_iff_false, inDefined_iff.
split.
- intros Hno fd Hfd Hm. apply Hno. by exists fd.
- intros Hout (fd & Hfd & Hm). by apply (Hout fd).
Qed.

Lemma not_outsideDefined (c : ControlPlane) (m : Machine) :
  ~ outsideDefined c m ->
  exists fd, StatusFailureDomains c !! fd = Some true /\ FailureDomain m = Some fd.
Proof.
intros Hno. apply inDefined_iff.
destruct (InFailureDomains _ m) eqn:Hin; [done|].
exfalso. apply Hno, outsideDefined_iff. unfold Not. by rewrite Hin.
Qed.

Lemma InFailureDomains_single (fd : option string) (m : Machine) :
  InFailureDomains [fd] m = true <-> FailureDomain m = fd.
Proof.
unfold InFailureDomains. simpl. rewrite orb_false_r, bool_decide_eq_true.
split; congruence.
Qed.

Lemma hosts_iff (machines : Machines) (fd : string) :
  hosts machines fd = true <-> hostsMachine machines fd.
Proof.
unfold hosts, hostsMachine. rewrite existsb_exists. split.
- intros (m & Hin & Hm). apply bool_decide_eq_true in Hm.
  apply list_elem_of_In, elem_of_UnsortedList in Hin as [key Hkey].
  by exists key, m.
- intros (key & m & Hkey & Hm). exists m. split.
  + apply list_elem_of_In, elem_of_UnsortedList. by exists key.
  + by apply bool_decide_eq_true.
Qed.

#[local] Instance moreLoaded_refl : Reflexive moreLoaded.
Proof. intros x. unfold moreLoaded. lia. Qed.

#[local] Instance moreLoaded_trans : Transitive moreLoaded.
Proof. intros x y z. unfold moreLoaded. lia. Qed.

#[local] Instance moreLoaded_total : Total moreLoaded.
Proof. intros x y. unfold moreLoaded. lia. Qed.

(** In a sorted list the first element passing a test is related to every
    other element passing it. *)
Lemma find_first_sorted {A : Type} (R : relation A) `{!Reflexive R}
    (f : A -> bool) (l : list A) (x : A) :
  StronglySorted R l -> List.find f l = Some x ->
  forall y, y ∈ l -> f y = true -> R x y.
Proof.
induction l as [|a l IH]; intros Hsorted Hfind y Hy Hfy; [done|].
apply StronglySorted_inv in Hsorted as [Hsorted Hall].
simpl in Hfind. destruct (f a) eqn:Hfa.
- injection Hfind as <-.
  apply elem_of_cons in Hy as [->|Hy]; [done|].
  rewrite Forall_forall in Hall. by apply Hall.
- apply elem_of_cons in Hy as [->|Hy]; [congruence|]. by apply IH.
Qed.

Lemma elem_of_orderDescending (fds : FailureDomains) (group : Machines)
    (agg : string * nat) :
  agg ∈ orderDescending fds group <->
  is_Some (fds !! agg.1) /\ agg.2 = countIn group agg.1.
Proof.
unfold orderDescending, pick. rewrite merge_sort_Permutation, list_elem_of_fmap.
split.
- intros ([fd b] & -> & Hin). apply elem_of_map_to_list in Hin. simpl. eauto.
- intros [[b Hb] Hcount]. exists (agg.1, b). split.
  + destruct agg as [fd n]. simpl in *. by subst n.
  + by apply elem_of_map_to_list.
Qed.

(** [PickMost] returns a given failure domain hosting one of the machines,
    with no fewer group machines than any other such failure domain. *)
Lemma PickMost_Some (fds : FailureDomains) (group machines : Machines) (fd : string) :
  PickMost fds group machines = Some fd ->
  is_Some (fds !! fd) /\ hostsMachine machines fd /\
  forall fd', is_Some (fds !! fd') -> hostsMachine machines fd' ->
              (countIn group fd' <= countIn group fd)%nat.
Proof.
unfold PickMost.
destruct (List.find _ (orderDescending fds group)) as [agg|] eqn:Hfind; [|done].
intros [= <-].
pose proof (find_some _ _ Hfind) as [Hin Hhosts].
apply list_elem_of_In, elem_of_orderDescending in Hin as [Hfd Hcount].
split; [done|]. split; [by apply hosts_iff|].
intros fd' Hfd' Hhosts'.
assert (moreLoaded agg (fd', countIn group fd')) as Hle.
{ apply (find_first_sorted moreLoaded _ _ _
           (StronglySorted_merge_sort moreLoaded _) Hfind).
  - by apply elem_of_orderDescending.
  - by apply hosts_iff. }
unfold moreLoaded in Hle. simpl in Hle. by rewrite <- Hcount.
Qed.

Lemma PickMost_None (fds : FailureDomains) (group machines : Machines) :
  PickMost fds group machines = None ->
  forall fd, is_Some (fds !! fd) -> ~ hostsMachine machines fd.
Proof.
unfold PickMost.
destruct (List.find _ (orderDescending fds group)) as [agg|] eqn:Hfind; [done|].
intros _ fd Hfd Hhosts. apply hosts_iff in Hhosts.
pose proof (find_none _ _ Hfind (fd, countIn group fd)) as Hnone.
simpl in Hnone. rewrite Hhosts in Hnone. enough (true = false) by done.
apply Hnone, list_elem_of_In, elem_of_orderDescending. done.
Qed.

End CollectionFacts.

Section SelectionProperties.
Import Conditions Collections Cluster SelectionSpec.

Lemma notInFailureDomains_lookup (c : ControlPlane) (machines : Machines) key m :
  Filter machines
    [Not (InFailureDomains (GetIDs (FilterControlPlane (FailureDomainsOf c))))]
    !! key = Some m
  <-> machines !! key = Some m /\ outsideDefined c m.
Proof.
rewrite Filter_lookup. split; intros [Hkey H]; (split; [done|]).
- apply outsideDefined_iff, H. by left.
- intros f Hf. apply list_elem_of_singleton in Hf as ->.
  by apply outsideDefined_iff.
Qed.

Lemma inFailureDomain_lookup (machines : Machines) (fd : option string) key m :
  Filter machines [InFailureDomains [fd]] !! key = Some m
  <-> machines !! key = Some m /\ FailureDomain m = fd.
Proof.
rewrite Filter_lookup. split; intros [Hkey H]; (split; [done|]).
- apply InFailureDomains_single, H. by left.
- intros f Hf. apply list_elem_of_singleton in Hf as ->.
  by apply InFailureDomains_single.
Qed.

Lemma controlPlaneDomain_lookup (c : ControlPlane) (fd : string) :
  is_Some (FilterControlPlane (StatusFailureDomains c) !! fd) <->
  StatusFailureDomains c !! fd = Some true.
Proof.
unfold FilterControlPlane. split.
- intros [b Hb]. apply map_lookup_filter_Some in Hb as [Hb Htrue].
  simpl in Htrue. by subst b.
- intros Hfd. exists true. by apply map_lookup_filter_Some.
Qed.

(** With a machine outside the defined failure domains, the failure domain
    of the oldest such machine is chosen. *)
Lemma FailureDomainWithMostMachines_outside (c : ControlPlane) (machines : Machines) :
  (exists key m, machines !! key = Some m /\ outsideDefined c m) ->
  exists key o,
    machines !! key = Some o /\ outsideDefined c o /\
    (forall key' m', machines !! key' = Some m' -> outsideDefined c m' ->
                     Less m' o = false) /\
    FailureDomainWithMostMachines c machines = FailureDomain o.
Proof.
intros (key & m & Hkey & Hout). unfold FailureDomainWithMostMachines. cbv zeta.
set (X := Filter machines _).
assert (size X <> 0%nat) as Hsize.
{ apply map_size_ne_0_lookup. exists key, m. by apply notInFailureDomains_lookup. }
rewrite bool_decide_eq_true_2 by lia.
destruct (Oldest X) as [o|] eqn:Ho.
- apply Oldest_Some in Ho as [[ko Hko] Hmin].
  apply notInFailureDomains_lookup in Hko as [Hko Hoout].
  exists ko, o. repeat split; try done.
  intros key' m' Hm' Hm'out. apply (Hmin key').
  by apply notInFailureDomains_lookup.
- apply Oldest_None in Ho. rewrite Ho, map_size_empty in Hsize. done.
Qed.

(** Otherwise the choice is [PickMost]'s. *)
Lemma FailureDomainWithMostMachines_inside (c : ControlPlane) (machines : Machines) :
  (forall key m, machines !! key = Some m -> ~ outsideDefined c m) ->
  FailureDomainWithMostMachines c machines =
    PickMost (FilterControlPlane (StatusFailureDomains c)) (CPMachines c) machines.
Proof.
intros Hin. unfold FailureDomainWithMostMachines. cbv zeta.
set (X := Filter machines _).
assert (X = ∅) as ->.
{ apply map_empty. intros key. destruct (X !! key) as [m|] eqn:Hm; [|done].
  apply notInFailureDomains_lookup in Hm as [Hm Hout]. by destruct (Hin key m). }
by rewrite map_size_empty.
Qed.

(** The machine picked is the oldest of the set in the chosen failure
    domain; the error is returned exactly when the set has none there. *)
Lemma MachineInFailureDomainWithMostMachines_pick (c : ControlPlane)
    (machines : Machines) :
  match MachineInFailureDomainWithMostMachines c machines with
  | inl picked =>
      (exists key, machines !! key = Some picked) /\
      FailureDomain picked = FailureDomainWithMostMachines c machines /\
      forall key' m', machines !! key' = Some m' ->
        FailureDomain m' = FailureDomainWithMostMachines c machines ->
        Less m' picked = false
  | inr _ =>
      forall key m, machines !! key = Some m ->
        FailureDomain m <> FailureDomainWithMostMachines c machines
  end.
Proof.
unfold MachineInFailureDomainWithMostMachines. cbv zeta.
set (fd := FailureDomainWithMostMachines c machines).
destruct (Oldest (Filter machines [InFailureDomains [fd]])) as [o|] eqn:Ho.
- apply Oldest_Some in Ho as [[ko Hko] Hmin].
  apply inFailureDomain_lookup in Hko as [Hko Hfd].
  split; [by exists ko|]. split; [done|].
  intros key' m' Hm' Hfd'. apply (Hmin key'). by apply inFailureDomain_lookup.
- apply Oldest_None in Ho. intros key m Hm Hfd.
  assert (Filter machines [InFailureDomains [fd]] !! key = Some m) as Hlook
    by by apply inFailureDomain_lookup.
  by rewrite Ho in Hlook.
Qed.

(** On a non-empty set a machine is always picked. *)
Lemma MachineInFailureDomainWithMostMachines_total (c : ControlPlane)
    (machines : Machines) :
  machines <> ∅ ->
  exists picked, MachineInFailureDomainWithMostMachines c machines = inl picked.
Proof.
intros Hne.
assert (exists key m, machines !! key = Some m /\
                      FailureDomain m = FailureDomainWithMostMachines c machines)
  as (key & m & Hm & Hfd).
{ set (X := Filter machines
              [Not (InFailureDomains (GetIDs (FilterControlPlane (FailureDomainsOf c))))]).
  destruct (decide (size X = 0%nat)) as [Hsize|Hsize].
  - apply map_size_empty_iff in Hsize.
    assert (forall key m, machines !! key = Some m -> ~ outsideDefined c m) as Hin.
    { intros key m Hm Hout.
      assert (X !! key = Some m) as Hlook by by apply notInFailureDomains_lookup.
      by rewrite Hsize in Hlook. }
    rewrite (FailureDomainWithMostMachines_inside c machines Hin).
    destruct (PickMost _ (CPMachines c) machines) as [fd|] eqn:Hpick.
    + apply PickMost_Some in Hpick as (_ & (key & m & Hm & Hfd) & _).
      by exists key, m.
    + apply map_choose in Hne as (key & m & Hm).
      destruct (not_outsideDefined c m (Hin key m Hm)) as (fd & Hfd & Hmfd).
      exfalso. apply (PickMost_None _ _ _ Hpick fd).
      * by apply controlPlaneDomain_lookup.
      * by exists key, m.
  - apply map_size_ne_0_lookup in Hsize as (key & m & Hm).
    apply notInFailureDomains_lookup in Hm as [Hm Hout].
    destruct (FailureDomainWithMostMachines_outside c machines)
      as (ko & o & Hko & _ & _ & Hfd); [by exists key, m|].
    by exists ko, o. }
pose proof (MachineInFailureDomainWithMostMachines_pick c machines) as Hpick.
destruct (MachineInFailureDomainWithMostMachines c machines) as [picked|e].
- by exists picked.
- by destruct (Hpick key m Hm).
Qed.

(** C8 (amended).  [MachineWithDeleteAnnotation] returns exactly the
    machines of the set bearing the delete-machine annotation.
    [MachineInFailureDomainWithMostMachines] returns the oldest machine of
    the set in the failure domain chosen by [FailureDomainWithMostMachines],
    and an error exactly when the set has no machine there, which never
    happens on a non-empty set.  The chosen failure domain is that of the
    oldest machine lying outside the currently defined control-plane failure
    domains when the set has such a machine; otherwise it is a defined
    control-plane failure domain hosting a machine of the set and holding
    the most control-plane machines among those. *)
Theorem deletion_candidate_selection (c : ControlPlane) (machines : Machines) :
  (forall key m,
      MachineWithDeleteAnnotation machines !! key = Some m <->
      machines !! key = Some m /\
      is_Some (Annotations m !! DeleteMachineAnnotation)) /\
  ((exists key m, machines !! key = Some m /\ outsideDefined c m) ->
   exists key o,
     machines !! key = Some o /\ outsideDefined c o /\
     (forall key' m', machines !! key' = Some m' -> outsideDefined c m' ->
                      Less m' o = false) /\
     FailureDomainWithMostMachines c machines = FailureDomain o) /\
  ((forall key m, machines !! key = Some m -> ~ outsideDefined c m) ->
   match FailureDomainWithMostMachines c machines with
   | Some fd =>
       StatusFailureDomains c !! fd = Some true /\
       hostsMachine machines fd /\
       forall fd', StatusFailureDomains c !! fd' = Some true ->
                   hostsMachine machines fd' ->
                   (countIn (CPMachines c) fd' <= countIn (CPMachines c) fd)%nat
   | None => machines = ∅
   end) /\
  match MachineInFailureDomainWithMostMachines c machines with
  | inl picked =>
      (exists key, machines !! key = Some picked) /\
      FailureDomain picked = FailureDomainWithMostMachines c machines /\
      forall key' m', machines !! key' = Some m' ->
        FailureDomain m' = FailureDomainWithMostMachines c machines ->
        Less m' picked = false
  | inr _ =>
      forall key m, machines !! key = Some m ->
        FailureDomain m <> FailureDomainWithMostMachines c machines
  end /\
  (machines <> ∅ ->
   exists picked, MachineInFailureDomainWithMostMachines c machines = inl picked).
Proof.
split; [|split; [|split; [|split]]].
- intros key m. unfold MachineWithDeleteAnnotation. rewrite Filter_lookup.
  split; intros [Hm H]; (split; [done|]).
  + specialize (H (HasAnnotationKey DeleteMachineAnnotation)).
    unfold HasAnnotationKey in H.
    eapply bool_decide_eq_true_1, H. by left.
  + intros f Hf. apply list_elem_of_singleton in Hf as ->.
    by apply bool_decide_eq_true_2.
- apply FailureDomainWithMostMachines_outside.
- intros Hin. rewrite (FailureDomainWithMostMachines_inside c machines Hin).
  destruct (PickMost _ (CPMachines c) machines) as [fd|] eqn:Hpick.
  + apply PickMost_Some in Hpick as (Hfd & Hhosts & Hmost).
    split; [by apply controlPlaneDomain_lookup|]. split; [done|].
    intros fd' Hfd' Hhosts'. apply Hmost; [|done].
    by apply controlPlaneDomain_lookup.
  + apply map_empty. intros key.
    destruct (machines !! key) as [m|] eqn:Hm; [|done]. exfalso.
    destruct (not_outsideDefined c m (Hin key m Hm)) as (fd & Hfd & Hmfd).
    apply (PickMost_None _ _ _ Hpick fd).
    * by apply controlPlaneDomain_lookup.
    * by exists key, m.
- apply MachineInFailureDomainWithMostMachines_pick.
- apply MachineInFailureDomainWithMostMachines_total.
Qed.

End SelectionProperties.

Section SelectionInstances.
Import Conditions Collections Cluster SelectionSpec.

(** C8 (counterexample).  Failure domain "a" holds two of the three
    control-plane machines and "z" one, yet the machine picked is m3, the
    only machine in "z", because "z" is not a failure domain defined in the
    cluster status; the oldest machine in "a" is m1. *)
Lemma most_populated_failure_domain_counterexample :
  countIn (CPMachines exampleControlPlane) "a" = 2%nat /\
  countIn (CPMachines exampleControlPlane) "z" = 1%nat /\
  Oldest (Filter threeMachines [InFailureDomains [Some "a"]]) = Some m1 /\
  MachineInFailureDomainWithMostMachines exampleControlPlane threeMachines = inl m3.
Proof. repeat split; vm_compute; reflexivity. Qed.

(** The example control plane: with m3 outside the defined failure domains,
    and with m1 alone, inside them. *)
Lemma deletion_candidate_selection_witness :
  (exists key o,
      threeMachines !! key = Some o /\ outsideDefined exampleControlPlane o /\
      (forall key' m', threeMachines !! key' = Some m' ->
                       outsideDefined exampleControlPlane m' -> Less m' o = false) /\
      FailureDomainWithMostMachines exampleControlPlane threeMachines
      = FailureDomain o) /\
  (exists picked,
      MachineInFailureDomainWithMostMachines exampleControlPlane threeMachines
      = inl picked) /\
  match FailureDomainWithMostMachines exampleControlPlane {[ "m1" := m1 ]} with
  | Some fd =>
      StatusFailureDomains exampleControlPlane !! fd = Some true /\
      hostsMachine {[ "m1" := m1 ]} fd /\
      forall fd', StatusFailureDomains exampleControlPlane !! fd' = Some true ->
                  hostsMachine {[ "m1" := m1 ]} fd' ->
                  (countIn (CPMachines exampleControlPlane) fd'
                   <= countIn (CPMachines exampleControlPlane) fd)%nat
  | None => ({[ "m1" := m1 ]} : Machines) = ∅
  end.
Proof.
split; [|split].
- apply (proj1 (proj2 (deletion_candidate_selection exampleControlPlane threeMachines))).
  exists "m3", m3. split; [reflexivity|].
  intros fd Hfd [= <-]. vm_compute in Hfd. discriminate.
- apply (proj2 (proj2 (proj2 (proj2
           (deletion_candidate_selection exampleControlPlane threeMachines))))).
  apply insert_non_empty.
- apply (proj1 (proj2 (proj2
           (deletion_candidate_selection exampleControlPlane {[ "m1" := m1 ]})))).
  intros key m Hm Hout.
  apply lookup_singleton_Some in Hm as [_ <-].
  apply (Hout "a"); reflexivity.
Defined.

(** The annotated machine is the one [MachineWithDeleteAnnotation] keeps. *)
Example annotated_machine_selected :
  MachineWithDeleteAnnotation {[ "m1" := m1; "m2" := m2Annotated; "m3" := m3 ]}
  = {[ "m2" := m2Annotated ]}.
Proof. vm_compute. reflexivity. Qed.

End SelectionInstances.

(* ===================================================================== *)
(** * Properties of the /etc/hosts generation *)
(* ===================================================================== *)

Section HostsFacts.
Import Templates HostsSpec.

Variable TrimSpace : string -> string.
Variable RegistryCertificateBaseName : string.

Lemma nonEmpty_false (s : string) : nonEmpty s = false <-> s = "".
Proof.
unfold nonEmpty. destruct (String.eqb_spec s ""); split; try done.
Qed.

Lemma nonEmpty_length (s : string) :
  (0 <? String.length s)%nat = nonEmpty s.
Proof. by destruct s. Qed.

Lemma appendHost_app (conf : KubeConf) (acc : list string) (host : Host) :
  appendHost conf acc host = acc ++ hostEntries conf host.
Proof.
unfold appendHost, hostEntries.
destruct (nonEmpty (GetName host)); [|by rewrite app_nil_r].
destruct (nonEmpty (GetInternalIPv6Address host)); by rewrite <- ?app_assoc.
Qed.

Lemma foldl_appendHost (conf : KubeConf) (hosts : list Host) :
  forall acc,
    foldl (appendHost conf) acc hosts = acc ++ flat_map (hostEntries conf) hosts.
Proof.
induction hosts as [|h hosts IH]; intros acc; simpl.
- by rewrite app_nil_r.
- by rewrite IH, appendHost_app, <- app_assoc.
Qed.

Lemma appendRegistry_app (runtime : ModuleRuntime) (conf : KubeConf)
    (acc : list string) :
  appendRegistry RegistryCertificateBaseName runtime conf acc =
    acc ++ registryEntries RegistryCertificateBaseName runtime conf.
Proof.
unfold appendRegistry, registryEntries.
destruct (GetHostsByRole runtime Registry) as [|reg0 rest]; simpl.
- by rewrite app_nil_r.
- destruct (nonEmpty (GetInternalIPv6Address reg0)); by rewrite <- ?app_assoc.
Qed.

Lemma foldl_appendLine (lines : list string) :
  forall acc,
    foldl (appendLine TrimSpace) acc lines =
      acc ++ List.filter nonEmpty (List.map TrimSpace lines).
Proof.
induction lines as [|l lines IH]; intros acc; simpl.
- by rewrite app_nil_r.
- rewrite IH. unfold appendLine.
  destruct (nonEmpty (TrimSpace l)); by rewrite <- ?app_assoc.
Qed.

Lemma appendNodeEtcHosts_app (conf : KubeConf) (acc : list string) :
  appendNodeEtcHosts TrimSpace conf acc = acc ++ nodeEtcHostsEntries TrimSpace conf.
Proof.
unfold appendNodeEtcHosts, nodeEtcHostsEntries. cbv zeta.
rewrite nonEmpty_length.
destruct (nonEmpty (NodeEtcHosts conf)).
- apply foldl_appendLine.
- by rewrite app_nil_r.
Qed.

(** The shape of the returned list, whenever the load-balancer entry exists. *)
Lemma GenerateHosts_blocks (runtime : ModuleRuntime) (conf : KubeConf) :
  GenerateHosts TrimSpace RegistryCertificateBaseName runtime conf =
    (fun lbHost =>
       inventoryEntries runtime conf ++
       registryEntries RegistryCertificateBaseName runtime conf ++
       nodeEtcHostsEntries TrimSpace conf ++ [lbHost])
    <$> lbHostOf runtime conf.
Proof.
unfold GenerateHosts. destruct (lbHostOf runtime conf) as [lb|]; [|done].
simpl. rewrite appendNodeEtcHosts_app, appendRegistry_app, foldl_appendHost.
simpl. unfold inventoryEntries. by rewrite <- !app_assoc.
Qed.

(** C9.  With an empty control-plane endpoint address, [GenerateHosts]
    reads the IPv4 address of the first master host without a guard: when
    the runtime has a master host the call returns a list whose
    load-balancer entry is built from that host's address, and when it has
    none the indexing panics. *)
Theorem GenerateHosts_first_master_unchecked (runtime : ModuleRuntime)
    (conf : KubeConf) :
  ControlPlaneEndpointAddress conf = "" ->
  (forall m0 rest,
      GetHostsByRole runtime Master = m0 :: rest ->
      exists entries,
        GenerateHosts TrimSpace RegistryCertificateBaseName runtime conf
        = Some entries /\
        last entries =
          Some (entry2 (GetInternalIPv4Address m0) (ControlPlaneEndpointDomain conf)))
  /\
  (GetHostsByRole runtime Master = [] ->
   GenerateHosts TrimSpace RegistryCertificateBaseName runtime conf = None).
Proof.
intros Haddr. rewrite GenerateHosts_blocks. unfold lbHostOf.
apply nonEmpty_false in Haddr. rewrite Haddr. split.
- intros m0 rest ->. simpl. eexists. split; [done|].
  by rewrite !app_assoc, last_snoc.
- by intros ->.
Qed.

(** C10.  Whenever [GenerateHosts] returns, the list is, in this order:
    the inventory entries (per named host the IPv4 entry, then the IPv6
    entry when the host has an IPv6 address), the registry entries, the
    trimmed non-empty lines of [NodeEtcHosts] as they are, and last the
    load-balancer entry; it returns for every input on which the
    load-balancer entry can be built.  Nothing is filtered out: every
    inventory entry and every trimmed non-empty extension line is in the
    result, also when they name the same host. *)
Theorem GenerateHosts_entry_order (runtime : ModuleRuntime) (conf : KubeConf) :
  GenerateHosts TrimSpace RegistryCertificateBaseName runtime conf =
    (fun lbHost =>
       inventoryEntries runtime conf ++
       registryEntries RegistryCertificateBaseName runtime conf ++
       nodeEtcHostsEntries TrimSpace conf ++ [lbHost])
    <$> lbHostOf runtime conf
  /\
  (forall entries,
      GenerateHosts TrimSpace RegistryCertificateBaseName runtime conf = Some entries ->
      last entries = lbHostOf runtime conf /\
      (forall e, e ∈ inventoryEntries runtime conf -> e ∈ entries) /\
      (forall line, line ∈ nodeEtcHostsEntries TrimSpace conf -> line ∈ entries))
  /\
  (ControlPlaneEndpointAddress conf <> "" \/ GetHostsByRole runtime Master <> [] ->
   is_Some (GenerateHosts TrimSpace RegistryCertificateBaseName runtime conf)).
Proof.
split; [apply GenerateHosts_blocks|]. split.
- intros entries. rewrite GenerateHosts_blocks.
  destruct (lbHostOf runtime conf) as [lb|]; [|done].
  simpl. intros [= <-]. split; [by rewrite !app_assoc, last_snoc|].
  split; intros x Hx; rewrite !elem_of_app; tauto.
- intros Hok. rewrite GenerateHosts_blocks.
  apply fmap_is_Some. unfold lbHostOf.
  destruct (nonEmpty (ControlPlaneEndpointAddress conf)) eqn:Haddr; [done|].
  apply nonEmpty_false in Haddr.
  destruct Hok as [Hok|Hok]; [done|].
  by destruct (GetHostsByRole runtime Master).
Qed.

End HostsFacts.

Section HostsInstances.
Import Templates HostsSpec.

(** No endpoint address: an inventory with a master, and one without. *)
Lemma GenerateHosts_first_master_unchecked_witness :
  (exists entries,
      GenerateHosts GoStrings.TrimSpaceAscii baseName
        (runtimeOf [master1; worker1]) confNoEndpoint = Some entries /\
      last entries =
        Some (entry2 (GetInternalIPv4Address master1)
                (ControlPlaneEndpointDomain confNoEndpoint))) /\
  GenerateHosts GoStrings.TrimSpaceAscii baseName (runtimeOf [worker1]) confNoEndpoint
  = None.
Proof.
split.
- apply (proj1 (GenerateHosts_first_master_unchecked GoStrings.TrimSpaceAscii baseName
                  (runtimeOf [master1; worker1]) confNoEndpoint eq_refl)
           master1 []).
  reflexivity.
- apply (proj2 (GenerateHosts_first_master_unchecked GoStrings.TrimSpaceAscii baseName
                  (runtimeOf [worker1]) confNoEndpoint eq_refl)).
  reflexivity.
Defined.

(** C10 (counterexample).  With an empty endpoint address and an inventory
    without a master host, [GenerateHosts] returns no list at all: indexing
    the empty slice of master hosts panics before anything is returned. *)
Lemma GenerateHosts_returns_nothing_counterexample :
  ControlPlaneEndpointAddress confNoEndpoint = "" /\
  GetHostsByRole (runtimeOf [worker1]) Master = [] /\
  GenerateHosts GoStrings.TrimSpaceAscii baseName (runtimeOf [worker1]) confNoEndpoint
  = None /\
  ~ is_Some (GenerateHosts GoStrings.TrimSpaceAscii baseName (runtimeOf [worker1])
               confNoEndpoint).
Proof.
split; [reflexivity|]. split; [reflexivity|]. split; [reflexivity|].
intros [entries Hsome]. discriminate Hsome.
Qed.

(** The example inventory, with and without an endpoint address. *)
Lemma GenerateHosts_entry_order_witness :
  is_Some (GenerateHosts GoStrings.TrimSpaceAscii baseName
             (runtimeOf [worker1]) confWithEndpoint) /\
  (last ["10.0.0.1  node1.cluster.local node1";
         "fd00::1  node1.cluster.local node1";
         "10.0.0.2  node2.cluster.local node2";
         "10.9.9.9  node1.cluster.local node1";
         "192.168.0.10  harbor.example.com";
         "10.0.0.1  lb.kubesphere.local"]
   = lbHostOf (runtimeOf [master1; worker1]) confNoEndpoint /\
   (forall e,
       e ∈ inventoryEntries (runtimeOf [master1; worker1]) confNoEndpoint ->
       e ∈ ["10.0.0.1  node1.cluster.local node1";
            "fd00::1  node1.cluster.local node1";
            "10.0.0.2  node2.cluster.local node2";
            "10.9.9.9  node1.cluster.local node1";
            "192.168.0.10  harbor.example.com";
            "10.0.0.1  lb.kubesphere.local"]) /\
   (forall line,
       line ∈ nodeEtcHostsEntries GoStrings.TrimSpaceAscii confNoEndpoint ->
       line ∈ ["10.0.0.1  node1.cluster.local node1";
               "fd00::1  node1.cluster.local node1";
               "10.0.0.2  node2.cluster.local node2";
               "10.9.9.9  node1.cluster.local node1";
               "192.168.0.10  harbor.example.com";
               "10.0.0.1  lb.kubesphere.local"])).
Proof.
split.
- apply (proj2 (proj2 (GenerateHosts_entry_order GoStrings.TrimSpaceAscii baseName
                         (runtimeOf [worker1]) confWithEndpoint))).
  left. discriminate.
- apply (proj1 (proj2 (GenerateHosts_entry_order GoStrings.TrimSpaceAscii baseName
                         (runtimeOf [master1; worker1]) confNoEndpoint))).
  vm_compute. reflexivity.
Defined.

(** The inventory and the extension both name node1, with different
    addresses; both entries are emitted, the extension's after the
    inventory's, and the load-balancer entry comes last. *)
Example GenerateHosts_keeps_duplicate_names :
  GenerateHosts GoStrings.TrimSpaceAscii baseName
    (runtimeOf [master1; worker1]) confNoEndpoint
  = Some ["10.0.0.1  node1.cluster.local node1";
          "fd00::1  node1.cluster.local node1";
          "10.0.0.2  node2.cluster.local node2";
          "10.9.9.9  node1.cluster.local node1";
          "192.168.0.10  harbor.example.com";
          "10.0.0.1  lb.kubesphere.local"].
Proof. vm_compute. reflexivity. Qed.

(** With a registry host and a configured endpoint address. *)
Example GenerateHosts_with_registry :
  GenerateHosts GoStrings.TrimSpaceAscii baseName
    (runtimeOf [worker1; mkHost "reg" "10.0.0.9" "" ["registry"]]) confWithEndpoint
  = Some ["10.0.0.2  node2.cluster.local node2";
          "10.0.0.9  reg.cluster.local reg";
          "10.0.0.9  dockerhub.kubekey.local";
          "10.0.0.100  lb.kubesphere.local"].
Proof. vm_compute. reflexivity. Qed.

End HostsInstances.

(* ===================================================================== *)
(** * Further properties of the KKInstance controller *)
(* ===================================================================== *)

Section PhaseMoreFacts.
Import Conditions KKInstance KKInstanceMore PhaseSpec PhaseMoreSpec.

(** X1.  [reconcilePing] makes between one and three attempts, each one
    after the previous one failed, and returns what the last attempt
    answered: nil as soon as an attempt succeeds, and the error of the third
    attempt when all three fail. *)
Theorem reconcilePing_attempts (ping : nat -> error) :
  (1 <= snd (reconcilePing ping) <= 3)%nat /\
  fst (reconcilePing ping) = ping (snd (reconcilePing ping) - 1)%nat /\
  (forall i, (i < snd (reconcilePing ping) - 1)%nat -> ping i <> None) /\
  (fst (reconcilePing ping) <> None -> snd (reconcilePing ping) = 3%nat).
Proof.
unfold reconcilePing. simpl.
destruct (ping 0%nat) as [e0|] eqn:H0; simpl;
  [destruct (ping 1%nat) as [e1|] eqn:H1; simpl;
   [destruct (ping 2%nat) as [e2|] eqn:H2; simpl|]|];
  (split; [lia|]); (split; [done|]); (split; [|done]);
  intros i Hi; do 3 (destruct i as [|i]; [congruence || lia|]); lia.
Qed.

(** X2.  [binary.NewService] returns a service exactly for the two
    distributions for which [phaseFactory] schedules phases: whenever the
    BinaryService phase is in the phase list a binary service exists, for
    a distribution without one the phase list is empty, and whenever a
    binary service exists the BinaryService phase is in the phase list. *)
Theorem binary_service_exists_for_scheduled_phases (R : Scope) :
  (ReconcileBinaryService ∈ phaseFactory R -> is_Some (NewService (Distribution R))) /\
  (NewService (Distribution R) = None -> phaseFactory R = []) /\
  (is_Some (NewService (Distribution R)) -> ReconcileBinaryService ∈ phaseFactory R).
Proof.
unfold phaseFactory, NewService.
destruct (String.eqb (Distribution R) KUBERNETES).
{ split; [by eauto|]. split; [done|]. intros _. set_solver. }
destruct (String.eqb (Distribution R) K3S).
{ split; [by eauto|]. split; [done|]. intros _. set_solver. }
split; [|split; [done|]].
- intros Hin. by apply elem_of_nil in Hin.
- by intros [? ?].
Qed.

Variable E : Env.
Variable R : Scope.

Ltac more_cases :=
  repeat match goal with
         | |- context [answer E ?tr ?a] =>
             let H := fresh "Hans" in destruct (answer E tr a) eqn:H; simpl
         end.

(** X3.  When Bootstrapped is not yet True, the Bootstrap phase sets the
    state to Bootstrapping and calls AddUsers, SetHostname, CreateDirectory,
    ResetTmpDirectory and ExecInitScript in that order, stopping after the
    first call that fails and returning its error. *)
Theorem bootstrap_runs_five_steps_in_order (s : St) :
  IsTrue (Conds s) KKInstanceBootstrappedCondition = false ->
  State (snd (reconcileBootstrap E s)) = InstanceStateBootstrapping /\
  match firstFailure E (trace s) bootstrapSteps with
  | None =>
      fst (reconcileBootstrap E s) = None /\
      trace (snd (reconcileBootstrap E s)) = trace s ++ bootstrapSteps
  | Some (i, msg) =>
      fst (reconcileBootstrap E s) = Some msg /\
      trace (snd (reconcileBootstrap E s)) = trace s ++ take (S i) bootstrapSteps
  end.
Proof.
intros Hfalse.
unfold reconcileBootstrap, withDefer, andThen, call, ret, bootstrapSteps.
rewrite Hfalse. cbn [firstFailure]. simpl.
more_cases; (split; [done|]); rewrite <- ?app_assoc; simpl; by split.
Qed.

(** X4.  When CRIReady is not yet True and a container runtime is already
    present, the ContainerManager phase only probes for it: nothing is
    fetched or installed and CRIReady becomes True.  Otherwise it fetches
    and then installs the runtime, and does not install when the fetch
    fails. *)
Theorem container_manager_skips_existing_runtime (s : St) :
  IsTrue (Conds s) KKInstanceCRIReadyCondition = false ->
  (isExist E (trace s) = true ->
     fst (reconcileContainerManager E R s) = None /\
     newCalls s (snd (reconcileContainerManager E R s)) = [ContainerManagerIsExist] /\
     IsTrue (Conds (snd (reconcileContainerManager E R s)))
            KKInstanceCRIReadyCondition = true) /\
  (isExist E (trace s) = false ->
     match firstFailure E (trace s ++ [ContainerManagerIsExist]) (installSteps R) with
     | None =>
         fst (reconcileContainerManager E R s) = None /\
         newCalls s (snd (reconcileContainerManager E R s))
         = ContainerManagerIsExist :: installSteps R
     | Some (i, msg) =>
         fst (reconcileContainerManager E R s) = Some msg /\
         newCalls s (snd (reconcileContainerManager E R s))
         = ContainerManagerIsExist :: take (S i) (installSteps R)
     end).
Proof.
intros Hfalse.
unfold reconcileContainerManager, withDefer, andThen, call, ret, installSteps, newCalls.
rewrite Hfalse. split; intros ->; cbn [firstFailure]; simpl.
- split; [done|]. split; [by rewrite drop_app_length|]. apply IsTrue_MarkTrue.
- more_cases; (split; [done|]); rewrite <- ?app_assoc; by rewrite drop_app_length.
Qed.

(** The command loop: the commands are issued in order up to and including
    the first that fails, whose error is wrapped. *)
Lemma runCommands_in_order (commands : list string) :
  forall s,
    runCommands E commands s =
      match firstFailure E (trace s) (SudoCmd <$> commands) with
      | None =>
          (None, mkSt (State s) (Conds s) (trace s ++ (SudoCmd <$> commands)))
      | Some (i, msg) =>
          (Some (Wrap msg "failed to run cloud config"),
           mkSt (State s) (Conds s)
                (trace s ++ take (S i) (SudoCmd <$> commands)))
      end.
Proof.
induction commands as [|c commands IH]; intros s; simpl.
- destruct s. unfold ret. simpl. by rewrite app_nil_r.
- unfold call. destruct (answer E (trace s) (SudoCmd c)) as [e|] eqn:Hc.
  { simpl. rewrite take_0. reflexivity. }
  rewrite IH. simpl.
  change (list_fmap string Action SudoCmd commands) with (SudoCmd <$> commands).
  destruct (firstFailure E (trace s ++ [SudoCmd c]) (SudoCmd <$> commands))
    as [[i msg]|]; simpl; by rewrite <- app_assoc.
Qed.

(** X5.  When Provisioned is not yet True and the bootstrap payload is
    fetched and parsed into [k] commands, the Provisioning phase issues the
    commands as sudo commands in input order: all [k] of them when none
    fails, and otherwise the commands up to and including the first failing
    one, returning its error wrapped as "failed to run cloud config". *)
Theorem provisioning_runs_commands_in_order (s : St) (data format : string)
    (commands : list string) :
  IsTrue (Conds s) KKInstanceProvisionedCondition = false ->
  bootstrapData E (trace s) = inl (data, format) ->
  toCommands E format data = inl commands ->
  match firstFailure E (trace s ++ [GetRawBootstrapDataWithFormat])
          (SudoCmd <$> commands) with
  | None =>
      fst (reconcileProvisioning E s) = None /\
      newCalls s (snd (reconcileProvisioning E s))
      = GetRawBootstrapDataWithFormat :: (SudoCmd <$> commands)
  | Some (i, msg) =>
      fst (reconcileProvisioning E s) = Some (Wrap msg "failed to run cloud config") /\
      newCalls s (snd (reconcileProvisioning E s))
      = GetRawBootstrapDataWithFormat :: take (S i) (SudoCmd <$> commands)
  end.
Proof.
intros Hfalse Hdata Hparse.
unfold reconcileProvisioning, withDefer, newCalls.
rewrite Hfalse, Hdata, Hparse, runCommands_in_order. simpl.
destruct (firstFailure E (trace s ++ [GetRawBootstrapDataWithFormat])
            (SudoCmd <$> commands)) as [[i msg]|]; simpl;
  (split; [done|]); rewrite <- app_assoc; by rewrite drop_app_length.
Qed.

(** X6.  When Provisioned is not yet True and the bootstrap payload cannot
    be fetched, the Provisioning phase records a FailedGetBootstrapData
    event and returns the error as it is; when the payload does not parse,
    the parse error is returned wrapped.  In both cases no command is run
    on the host and Provisioned is marked False with severity Error. *)
Theorem provisioning_runs_nothing_without_payload (s : St) :
  IsTrue (Conds s) KKInstanceProvisionedCondition = false ->
  (forall e,
      bootstrapData E (trace s) = inr e ->
      fst (reconcileProvisioning E s) = Some e /\
      newCalls s (snd (reconcileProvisioning E s))
      = [GetRawBootstrapDataWithFormat; RecorderEvent "FailedGetBootstrapData" e] /\
      Get (Conds (snd (reconcileProvisioning E s))) KKInstanceProvisionedCondition
      = Some (FalseCondition KKInstanceProvisionedCondition
                KKInstanceRunCloudConfigFailedReason SeverityError (Sprintf0 E e))) /\
  (forall data format e,
      bootstrapData E (trace s) = inl (data, format) ->
      toCommands E format data = inr e ->
      fst (reconcileProvisioning E s)
      = Some (Wrap e "failed to join a control plane node with kubeadm") /\
      newCalls s (snd (reconcileProvisioning E s)) = [GetRawBootstrapDataWithFormat] /\
      Get (Conds (snd (reconcileProvisioning E s))) KKInstanceProvisionedCondition
      = Some (FalseCondition KKInstanceProvisionedCondition
                KKInstanceRunCloudConfigFailedReason SeverityError
                (Sprintf0 E (Wrap e "failed to join a control plane node with kubeadm")))).
Proof.
intros Hfalse. split.
- intros e Hdata. unfold reconcileProvisioning, withDefer, newCalls.
  rewrite Hfalse, Hdata. simpl. split; [done|]. split.
  + rewrite <- app_assoc. by rewrite drop_app_length.
  + apply Get_MarkFalse.
- intros data format e Hdata Hparse.
  unfold reconcileProvisioning, withDefer, newCalls.
  rewrite Hfalse, Hdata, Hparse. simpl. split; [done|]. split.
  + by rewrite drop_app_length.
  + apply Get_MarkFalse.
Qed.

(** X7.  The error of UmountISO is dropped: when RepositoryReady is not yet
    True and Check, Get, MountISO and UpdateAndInstall succeed, the
    Repository phase returns nil and marks RepositoryReady True whatever
    UmountISO answers. *)
Theorem repository_ignores_unmount_failure (s : St) :
  IsTrue (Conds s) KKInstanceRepositoryReadyCondition = false ->
  firstFailure E (trace s)
    [RepositoryCheck; RepositoryGet (WaitKKInstanceTimeout R); MountISO;
     UpdateAndInstall] = None ->
  fst (reconcileRepository E R s) = None /\
  IsTrue (Conds (snd (reconcileRepository E R s)))
         KKInstanceRepositoryReadyCondition = true /\
  newCalls s (snd (reconcileRepository E R s))
  = [RepositoryCheck; RepositoryGet (WaitKKInstanceTimeout R); MountISO;
     UpdateAndInstall; UmountISO].
Proof.
intros Hfalse Hnone. cbn [firstFailure] in Hnone.
destruct (answer E (trace s) RepositoryCheck) eqn:H1; [done|].
destruct (answer E (trace s ++ [RepositoryCheck]) _) eqn:H2; [done|].
destruct (answer E ((trace s ++ [RepositoryCheck]) ++ _) MountISO) eqn:H3; [done|].
destruct (answer E (((trace s ++ [RepositoryCheck]) ++ _) ++ [MountISO])
            UpdateAndInstall) eqn:H4; [done|].
unfold reconcileRepository, withDefer, andThen, call, ret, newCalls.
rewrite Hfalse. simpl. rewrite H1. simpl. rewrite H2. simpl. rewrite H3. simpl.
rewrite H4. simpl. split; [done|]. split; [apply IsTrue_MarkTrue|].
rewrite <- !app_assoc. by rewrite drop_app_length.
Qed.

Lemma firstFailure_cooperative (steps : list Action) :
  (forall tr a, answer E tr a = None) ->
  forall tr, firstFailure E tr steps = None.
Proof.
intros Hok. induction steps as [|a steps IH]; intros tr; simpl; [done|].
by rewrite Hok, IH.
Qed.

Lemma runPhase_cooperative (p : PhaseFn) (s : St) :
  cooperative E -> fst (runPhase E R p s) = None.
Proof.
intros [Hok Hpayload].
destruct p; simpl;
  unfold reconcileBootstrap, reconcileRepository, reconcileBinaryService,
    reconcileContainerManager, reconcileProvisioning, withDefer, andThen, call, ret;
  simpl.
- destruct (IsTrue (Conds s) KKInstanceBootstrappedCondition); simpl; [done|].
  by rewrite !Hok.
- destruct (IsTrue (Conds s) KKInstanceRepositoryReadyCondition); simpl; [done|].
  rewrite Hok. simpl. rewrite Hok. simpl. rewrite Hok. simpl. by rewrite Hok.
- destruct (IsTrue (Conds s) KKInstanceBinariesReadyCondition); simpl; [done|].
  by rewrite Hok.
- destruct (IsTrue (Conds s) KKInstanceCRIReadyCondition); simpl; [done|].
  destruct (isExist E (trace s)); simpl; [done|]. by rewrite !Hok.
- destruct (IsTrue (Conds s) KKInstanceProvisionedCondition); simpl; [done|].
  destruct (Hpayload (trace s)) as (data & format & commands & -> & ->).
  rewrite runCommands_in_order.
  by rewrite (firstFailure_cooperative _ Hok).
Qed.

Lemma afterPhases_marks_true (ps : list PhaseFn) (p : PhaseFn) :
  cooperative E -> p ∈ ps ->
  forall s, IsTrue (Conds (afterPhases E R ps s)) (phaseCondition p) = true.
Proof.
intros Hcoop. induction ps as [|q ps IH]; intros Hin s.
- by apply elem_of_nil in Hin.
- change (afterPhases E R (q :: ps) s)
    with (afterPhases E R ps (snd (runPhase E R q s))).
  apply elem_of_cons in Hin as [->|Hin]; [|by apply IH].
  apply afterPhases_keeps_true.
  rewrite runPhase_body_conds, runPhase_cooperative by done.
  apply IsTrue_MarkTrue.
Qed.

(** X8.  When every service call succeeds and the bootstrap payload can be
    fetched and parsed, executing the phase list of [phaseFactory] leaves
    the condition of every phase of the list True. *)
Theorem cooperative_install_converges (s : St) :
  cooperative E ->
  forall p, p ∈ phaseFactory R ->
    IsTrue (Conds (afterPhases E R (phaseFactory R) s)) (phaseCondition p) = true.
Proof. intros Hcoop p Hin. by apply afterPhases_marks_true. Qed.

Lemma runCommands_State (commands : list string) :
  forall s, State (snd (runCommands E commands s)) = State s.
Proof.
intros s. rewrite runCommands_in_order.
by destruct (firstFailure E (trace s) (SudoCmd <$> commands)) as [[i msg]|].
Qed.

(** X9.  A phase writes no condition but its own: the install phases leave
    every other condition type as it was, and so does the deletion phase;
    and no install phase other than Bootstrap changes the instance state.
    In particular a failing phase never reverts the condition of another
    phase. *)
Theorem phases_write_only_their_own_condition :
  (forall p s t,
      t <> phaseCondition p ->
      Get (Conds (snd (runPhase E R p s))) t = Get (Conds s) t) /\
  (forall s t,
      t <> KKInstanceDeletingBootstrapCondition ->
      Get (Conds (snd (reconcileDeletingBootstrap E R s))) t = Get (Conds s) t) /\
  (forall p s,
      p <> ReconcileBootstrap -> State (snd (runPhase E R p s)) = State s).
Proof.
split; [|split].
- intros p s t Hne. by apply runPhase_other_condition.
- intros s t Hne.
  unfold reconcileDeletingBootstrap, withDefer, andThen, call, ret. simpl.
  more_cases; unfold MarkFalse, MarkTrue; by rewrite Get_Set_other.
- intros p s Hne. destruct p; [done|..]; simpl.
  + unfold reconcileRepository, withDefer, andThen, call, ret. simpl.
    destruct (IsTrue (Conds s) KKInstanceRepositoryReadyCondition); simpl; [done|].
    more_cases; done.
  + unfold reconcileBinaryService, withDefer, andThen, call, ret. simpl.
    destruct (IsTrue (Conds s) KKInstanceBinariesReadyCondition); simpl; [done|].
    more_cases; done.
  + unfold reconcileContainerManager, withDefer, andThen, call, ret. simpl.
    destruct (IsTrue (Conds s) KKInstanceCRIReadyCondition); simpl; [done|].
    destruct (isExist E (trace s)); simpl; [done|].
    more_cases; done.
  + unfold reconcileProvisioning, withDefer.
    destruct (IsTrue (Conds s) KKInstanceProvisionedCondition); simpl.
    { unfold markCondition, setConds. done. }
    destruct (bootstrapData E (trace s)) as [[data format]|e]; simpl; [|done].
    destruct (toCommands E format data) as [commands|e]; simpl; [|done].
    pose proof (runCommands_State commands
                  (log GetRawBootstrapDataWithFormat s)) as HS.
    destruct (runCommands E commands (log GetRawBootstrapDataWithFormat s))
      as [[e|] s']; simpl in *; done.
Qed.

End PhaseMoreFacts.

Section PhaseMoreInstances.
Import Conditions KKInstance KKInstanceMore PhaseSpec PhaseMoreSpec.

(** A host answering the third ping is reached in three attempts; a host
    that never answers yields the error of the third attempt. *)
Example reconcilePing_examples :
  reconcilePing pingThird = (None, 3%nat) /\
  reconcilePing pingNever = (Some "timeout", 3%nat) /\
  reconcilePing (fun _ => None) = (None, 1%nat).
Proof. repeat split. Qed.

(** A Kubernetes scope has a binary service; a "k8e" scope has no phases. *)
Lemma binary_service_exists_for_scheduled_phases_witness :
  is_Some (NewService (Distribution scopeK8s)) /\ phaseFactory scopeK8e = [] /\
  ReconcileBinaryService ∈ phaseFactory scopeK3s.
Proof.
split; [|split].
- apply (proj1 (binary_service_exists_for_scheduled_phases scopeK8s)).
  vm_compute. do 2 right. left.
- apply (proj1 (proj2 (binary_service_exists_for_scheduled_phases scopeK8e))).
  reflexivity.
- apply (proj2 (proj2 (binary_service_exists_for_scheduled_phases scopeK3s))).
  by eexists.
Defined.

(** Bootstrap on a fresh instance whose work directory cannot be created. *)
Lemma bootstrap_runs_five_steps_in_order_witness :
  State (snd (reconcileBootstrap (envFailing CreateDirectory "read-only")
                pendingInstance)) = InstanceStateBootstrapping /\
  match firstFailure (envFailing CreateDirectory "read-only")
          (trace pendingInstance) bootstrapSteps with
  | None =>
      fst (reconcileBootstrap (envFailing CreateDirectory "read-only")
             pendingInstance) = None /\
      trace (snd (reconcileBootstrap (envFailing CreateDirectory "read-only")
                    pendingInstance))
      = trace pendingInstance ++ bootstrapSteps
  | Some (i, msg) =>
      fst (reconcileBootstrap (envFailing CreateDirectory "read-only")
             pendingInstance) = Some msg /\
      trace (snd (reconcileBootstrap (envFailing CreateDirectory "read-only")
                    pendingInstance))
      = trace pendingInstance ++ take (S i) bootstrapSteps
  end.
Proof.
apply (bootstrap_runs_five_steps_in_order (envFailing CreateDirectory "read-only")
         pendingInstance).
reflexivity.
Defined.

Example bootstrap_stops_at_failure :
  reconcileBootstrap (envFailing CreateDirectory "read-only") pendingInstance
  = (Some "read-only",
     mkSt InstanceStateBootstrapping
       [FalseCondition KKInstanceBootstrappedCondition "InitOSFailed"
          SeverityWarning "read-only"]
       [AddUsers; SetHostname; CreateDirectory]).
Proof. reflexivity. Qed.

(** The ContainerManager phase with and without a runtime on the host. *)
Lemma container_manager_skips_existing_runtime_witness :
  (fst (reconcileContainerManager envRuntimePresent scopeK8s pendingInstance) = None /\
   newCalls pendingInstance
     (snd (reconcileContainerManager envRuntimePresent scopeK8s pendingInstance))
   = [ContainerManagerIsExist] /\
   IsTrue (Conds (snd (reconcileContainerManager envRuntimePresent scopeK8s
                         pendingInstance)))
          KKInstanceCRIReadyCondition = true) /\
  match firstFailure envOk (trace pendingInstance ++ [ContainerManagerIsExist])
          (installSteps scopeK8s) with
  | None =>
      fst (reconcileContainerManager envOk scopeK8s pendingInstance) = None /\
      newCalls pendingInstance
        (snd (reconcileContainerManager envOk scopeK8s pendingInstance))
      = ContainerManagerIsExist :: installSteps scopeK8s
  | Some (i, msg) =>
      fst (reconcileContainerManager envOk scopeK8s pendingInstance) = Some msg /\
      newCalls pendingInstance
        (snd (reconcileContainerManager envOk scopeK8s pendingInstance))
      = ContainerManagerIsExist :: take (S i) (installSteps scopeK8s)
  end.
Proof.
split.
- apply (proj1 (container_manager_skips_existing_runtime envRuntimePresent scopeK8s
                  pendingInstance eq_refl)).
  reflexivity.
- apply (proj2 (container_manager_skips_existing_runtime envOk scopeK8s
                  pendingInstance eq_refl)).
  reflexivity.
Defined.

(** Provisioning a fresh instance from a payload of two commands. *)
Lemma provisioning_runs_commands_in_order_witness :
  match firstFailure envOk (trace pendingInstance ++ [GetRawBootstrapDataWithFormat])
          (SudoCmd <$> ["echo a"; "echo b"]) with
  | None =>
      fst (reconcileProvisioning envOk pendingInstance) = None /\
      newCalls pendingInstance (snd (reconcileProvisioning envOk pendingInstance))
      = GetRawBootstrapDataWithFormat :: (SudoCmd <$> ["echo a"; "echo b"])
  | Some (i, msg) =>
      fst (reconcileProvisioning envOk pendingInstance)
      = Some (Wrap msg "failed to run cloud config") /\
      newCalls pendingInstance (snd (reconcileProvisioning envOk pendingInstance))
      = GetRawBootstrapDataWithFormat :: take (S i) (SudoCmd <$> ["echo a"; "echo b"])
  end.
Proof.
apply (provisioning_runs_commands_in_order envOk pendingInstance
         "echo a
echo b" "cloud-config" ["echo a"; "echo b"]); reflexivity.
Defined.

Example provisioning_stops_at_failing_command :
  reconcileProvisioning (envFailing (SudoCmd "echo a") "exit status 1") pendingInstance
  = (Some "failed to run cloud config: exit status 1",
     mkSt InstanceStatePending
       [FalseCondition KKInstanceProvisionedCondition "RunCloudConfigFailed"
          SeverityError "failed to run cloud config: exit status 1"]
       [GetRawBootstrapDataWithFormat; SudoCmd "echo a"]).
Proof. reflexivity. Qed.

(** Provisioning without a payload, and with one that does not parse. *)
Lemma provisioning_runs_nothing_without_payload_witness :
  (fst (reconcileProvisioning envNoPayload pendingInstance) = Some "secret not found" /\
   newCalls pendingInstance (snd (reconcileProvisioning envNoPayload pendingInstance))
   = [GetRawBootstrapDataWithFormat;
      RecorderEvent "FailedGetBootstrapData" "secret not found"] /\
   Get (Conds (snd (reconcileProvisioning envNoPayload pendingInstance)))
       KKInstanceProvisionedCondition
   = Some (FalseCondition KKInstanceProvisionedCondition
             KKInstanceRunCloudConfigFailedReason SeverityError
             (Sprintf0 envNoPayload "secret not found"))) /\
  (fst (reconcileProvisioning envBadPayload pendingInstance)
   = Some (Wrap "yaml: line 1" "failed to join a control plane node with kubeadm") /\
   newCalls pendingInstance (snd (reconcileProvisioning envBadPayload pendingInstance))
   = [GetRawBootstrapDataWithFormat] /\
   Get (Conds (snd (reconcileProvisioning envBadPayload pendingInstance)))
       KKInstanceProvisionedCondition
   = Some (FalseCondition KKInstanceProvisionedCondition
             KKInstanceRunCloudConfigFailedReason SeverityError
             (Sprintf0 envBadPayload
                (Wrap "yaml: line 1"
                   "failed to join a control plane node with kubeadm")))).
Proof.
split.
- apply (proj1 (provisioning_runs_nothing_without_payload envNoPayload
                  pendingInstance eq_refl)).
  reflexivity.
- apply (proj2 (provisioning_runs_nothing_without_payload envBadPayload
                  pendingInstance eq_refl) "{" "cloud-config"); reflexivity.
Defined.

(** The Repository phase on a host where only the unmount fails. *)
Lemma repository_ignores_unmount_failure_witness :
  answer (envFailing UmountISO "target is busy")
    [RepositoryCheck; RepositoryGet 600; MountISO; UpdateAndInstall] UmountISO
  = Some "target is busy" /\
  fst (reconcileRepository (envFailing UmountISO "target is busy") scopeK8s
         pendingInstance) = None /\
  IsTrue (Conds (snd (reconcileRepository (envFailing UmountISO "target is busy")
                        scopeK8s pendingInstance)))
         KKInstanceRepositoryReadyCondition = true /\
  newCalls pendingInstance
    (snd (reconcileRepository (envFailing UmountISO "target is busy") scopeK8s
            pendingInstance))
  = [RepositoryCheck; RepositoryGet (WaitKKInstanceTimeout scopeK8s); MountISO;
     UpdateAndInstall; UmountISO].
Proof.
split; [reflexivity|].
apply (repository_ignores_unmount_failure (envFailing UmountISO "target is busy")
         scopeK8s pendingInstance); reflexivity.
Defined.

(** A fresh Kubernetes host in the all-succeeding environment. *)
Lemma cooperative_install_converges_witness :
  IsTrue (Conds (afterPhases envOk scopeK8s (phaseFactory scopeK8s) pendingInstance))
         KKInstanceBootstrappedCondition = true /\
  IsTrue (Conds (afterPhases envOk scopeK8s (phaseFactory scopeK8s) pendingInstance))
         KKInstanceProvisionedCondition = true.
Proof.
assert (cooperative envOk) as Hcoop.
{ split.
  - reflexivity.
  - intros tr. exists "echo a
echo b", "cloud-config", ["echo a"; "echo b"]. split; reflexivity. }
split.
- apply (cooperative_install_converges envOk scopeK8s pendingInstance Hcoop
           ReconcileBootstrap).
  vm_compute. left.
- apply (cooperative_install_converges envOk scopeK8s pendingInstance Hcoop
           ReconcileProvisioning).
  vm_compute. do 4 right. left.
Defined.

(** A failed download on a host that was bootstrapped leaves Bootstrapped
    as it was, and the state too. *)
Lemma phases_write_only_their_own_condition_witness :
  Get (Conds (snd (runPhase (envFailing (BinaryDownload KUBERNETES 600) "404")
                     scopeK8s ReconcileBinaryService
                     (mkSt InstanceStateBootstrapping
                        [TrueCondition KKInstanceBootstrappedCondition] []))))
      KKInstanceBootstrappedCondition
  = Some (TrueCondition KKInstanceBootstrappedCondition) /\
  Get (Conds (snd (reconcileDeletingBootstrap envOk scopeK8s convergedInstance)))
      KKInstanceProvisionedCondition
  = Get (Conds convergedInstance) KKInstanceProvisionedCondition /\
  State (snd (runPhase (envFailing (BinaryDownload KUBERNETES 600) "404")
                scopeK8s ReconcileBinaryService
                (mkSt InstanceStateBootstrapping
                   [TrueCondition KKInstanceBootstrappedCondition] [])))
  = InstanceStateBootstrapping.
Proof.
split; [|split].
- apply (proj1 (phases_write_only_their_own_condition
                  (envFailing (BinaryDownload KUBERNETES 600) "404") scopeK8s)
           ReconcileBinaryService
           (mkSt InstanceStateBootstrapping
              [TrueCondition KKInstanceBootstrappedCondition] [])).
  discriminate.
- apply (proj1 (proj2 (phases_write_only_their_own_condition envOk scopeK8s))).
  discriminate.
- apply (proj2 (proj2 (phases_write_only_their_own_condition
                         (envFailing (BinaryDownload KUBERNETES 600) "404") scopeK8s))
           ReconcileBinaryService
           (mkSt InstanceStateBootstrapping
              [TrueCondition KKInstanceBootstrappedCondition] [])).
  discriminate.
Defined.

End PhaseMoreInstances.

(* ===================================================================== *)
(** * Further properties of the control-plane view *)
(* ===================================================================== *)

Section ClusterMoreFacts.
Import Conditions Collections Cluster ClusterMore SelectionSpec ClusterMoreSpec.

Lemma foldr_insert_list_to_map (l : list (string * string)) :
  foldr (uncurry (fun k v (labels : gmap string string) => <[k := v]> labels)) ∅ l
  = list_to_map l.
Proof. induction l as [|[k v] l IH]; simpl; [done|]. by rewrite IH. Qed.

(** X10.  [ControlPlaneMachineLabelsForCluster] always yields the cluster
    name under the cluster label and the empty string under the
    control-plane label, also when the machine template carries other
    values for them, and keeps every other template label as it is. *)
Theorem control_plane_labels_forced (templateLabels : gmap string string)
    (clusterName : string) :
  ControlPlaneMachineLabelsForCluster templateLabels clusterName !! ClusterLabelName
  = Some clusterName /\
  ControlPlaneMachineLabelsForCluster templateLabels clusterName
    !! MachineControlPlaneLabelName = Some "" /\
  forall k, k <> ClusterLabelName -> k <> MachineControlPlaneLabelName ->
    ControlPlaneMachineLabelsForCluster templateLabels clusterName !! k
    = templateLabels !! k.
Proof.
unfold ControlPlaneMachineLabelsForCluster. cbv zeta.
rewrite map_fold_foldr, foldr_insert_list_to_map, list_to_map_to_list.
split; [|split].
- rewrite lookup_insert_ne by done. apply lookup_insert_eq.
- apply lookup_insert_eq.
- intros k H1 H2. by rewrite !lookup_insert_ne.
Qed.

Lemma Filter_lookup_two (s : Machines) (f g : Machine -> bool) key m :
  Filter s [f; g] !! key = Some m <->
  s !! key = Some m /\ f m = true /\ g m = true.
Proof.
rewrite Filter_lookup. split.
- intros [Hm H]. split; [done|]. split; apply H; [by left|by right; left].
- intros (Hm & Hf & Hg). split; [done|]. intros h Hh.
  apply elem_of_cons in Hh as [->|Hh]; [done|].
  by apply list_elem_of_singleton in Hh as ->.
Qed.

Lemma Filter_lookup_one (s : Machines) (f : Machine -> bool) key m :
  Filter s [f] !! key = Some m <-> s !! key = Some m /\ f m = true.
Proof.
rewrite Filter_lookup. split.
- intros [Hm H]. split; [done|]. apply H. by left.
- intros (Hm & Hf). split; [done|]. intros h Hh.
  by apply list_elem_of_singleton in Hh as ->.
Qed.

Lemma AnyFilter_lookup_two (s : Machines) (f g : Machine -> bool) key m :
  AnyFilter s [f; g] !! key = Some m <->
  s !! key = Some m /\ (f m = true \/ g m = true).
Proof.
unfold AnyFilter. rewrite map_lookup_filter_Some. simpl.
rewrite orb_false_r, Is_true_true, orb_true_iff. done.
Qed.

Variable reconciliationTime : Z.
Variable RolloutAfter : option Z.
Variable MatchesMachineSpec : Machine -> bool.

Lemma MachinesNeedingRollout_lookup (c : ControlPlane) key m :
  MachinesNeedingRollout reconciliationTime RolloutAfter MatchesMachineSpec c !! key
  = Some m <->
  CPMachines c !! key = Some m /\ DeletionTimestamp m = None /\
  (ShouldRolloutAfter (Some reconciliationTime) RolloutAfter m = true \/
   MatchesMachineSpec m = false).
Proof.
unfold MachinesNeedingRollout. cbv zeta.
rewrite AnyFilter_lookup_two, Filter_lookup_one.
unfold Not, HasDeletionTimestamp.
rewrite !negb_true_iff, bool_decide_eq_false, <- eq_None_not_Some. tauto.
Qed.

Lemma UpToDateMachines_lookup (c : ControlPlane) key m :
  UpToDateMachines reconciliationTime RolloutAfter MatchesMachineSpec c !! key
  = Some m <->
  CPMachines c !! key = Some m /\
  ShouldRolloutAfter (Some reconciliationTime) RolloutAfter m = false /\
  MatchesMachineSpec m = true.
Proof.
unfold UpToDateMachines. rewrite Filter_lookup_two.
unfold Not. by rewrite negb_true_iff.
Qed.

(** X11.  No machine is both up to date and in need of rollout; every
    machine that is not being deleted is one or the other; a machine being
    deleted never needs rollout; and without a deleting machine
    ([HasDeletingMachine] false) the two collections split the control
    plane's machines. *)
Theorem rollout_splits_machines (c : ControlPlane) :
  (forall key,
      MachinesNeedingRollout reconciliationTime RolloutAfter MatchesMachineSpec c
        !! key = None \/
      UpToDateMachines reconciliationTime RolloutAfter MatchesMachineSpec c
        !! key = None) /\
  (forall key m,
      CPMachines c !! key = Some m -> DeletionTimestamp m = None ->
      MachinesNeedingRollout reconciliationTime RolloutAfter MatchesMachineSpec c
        !! key = Some m \/
      UpToDateMachines reconciliationTime RolloutAfter MatchesMachineSpec c
        !! key = Some m) /\
  (forall key m,
      MachinesNeedingRollout reconciliationTime RolloutAfter MatchesMachineSpec c
        !! key = Some m -> DeletionTimestamp m = None) /\
  (HasDeletingMachine c = false ->
   forall key m,
     CPMachines c !! key = Some m ->
     MachinesNeedingRollout reconciliationTime RolloutAfter MatchesMachineSpec c
       !! key = Some m \/
     UpToDateMachines reconciliationTime RolloutAfter MatchesMachineSpec c
       !! key = Some m).
Proof.
assert (forall key m,
      CPMachines c !! key = Some m -> DeletionTimestamp m = None ->
      MachinesNeedingRollout reconciliationTime RolloutAfter MatchesMachineSpec c
        !! key = Some m \/
      UpToDateMachines reconciliationTime RolloutAfter MatchesMachineSpec c
        !! key = Some m) as Hcover.
{ intros key m Hm Hdel.
  rewrite MachinesNeedingRollout_lookup, UpToDateMachines_lookup.
  destruct (ShouldRolloutAfter (Some reconciliationTime) RolloutAfter m);
    destruct (MatchesMachineSpec m); tauto. }
split; [|split; [done|split]].
- intros key.
  destruct (MachinesNeedingRollout _ _ _ c !! key) as [m|] eqn:Hneed; [|by left].
  right.
  destruct (UpToDateMachines _ _ _ c !! key) as [m'|] eqn:Hup; [|done].
  apply MachinesNeedingRollout_lookup in Hneed as (Hm & _ & Hcase).
  apply UpToDateMachines_lookup in Hup as (Hm' & Hsra & Hmatch).
  assert (m' = m) as -> by congruence.
  destruct Hcase; congruence.
- intros key m Hneed. by apply MachinesNeedingRollout_lookup in Hneed as (_ & ? & _).
- intros Hnone key m Hm. apply Hcover; [done|].
  unfold HasDeletingMachine in Hnone. apply bool_decide_eq_false in Hnone.
  destruct (DeletionTimestamp m) as [t|] eqn:Hdel; [|done].
  exfalso. apply Hnone.
  assert (size (Filter (CPMachines c) [HasDeletionTimestamp]) <> 0%nat); [|lia].
  apply map_size_ne_0_lookup. exists key, m. apply Filter_lookup_one.
  split; [done|]. unfold HasDeletionTimestamp. apply bool_decide_eq_true_2.
  rewrite Hdel. eauto.
Qed.

#[local] Instance lessLoaded_refl : Reflexive lessLoaded.
Proof. intros x. unfold lessLoaded. lia. Qed.

#[local] Instance lessLoaded_trans : Transitive lessLoaded.
Proof. intros x y z. unfold lessLoaded. lia. Qed.

#[local] Instance lessLoaded_total : Total lessLoaded.
Proof. intros x y. unfold lessLoaded. lia. Qed.

Lemma elem_of_pick (fds : FailureDomains) (group : Machines) (agg : string * nat) :
  agg ∈ pick fds group <-> is_Some (fds !! agg.1) /\ agg.2 = countIn group agg.1.
Proof.
unfold pick. rewrite list_elem_of_fmap. split.
- intros ([fd b] & -> & Hin). apply elem_of_map_to_list in Hin. simpl. eauto.
- intros [[b Hb] Hcount]. exists (agg.1, b). split.
  + destruct agg as [fd n]. simpl in *. by subst n.
  + by apply elem_of_map_to_list.
Qed.

(** [PickFewest] is nil exactly without failure domains, and otherwise a
    given failure domain with no more machines than any other. *)
Lemma PickFewest_None (fds : FailureDomains) (machines : Machines) :
  PickFewest fds machines = None <-> fds = ∅.
Proof.
unfold PickFewest.
destruct (merge_sort lessLoaded (pick fds machines)) as [|agg l] eqn:Hsort.
- split; [|done]. intros _.
  pose proof (merge_sort_Permutation lessLoaded (pick fds machines)) as Hperm.
  rewrite Hsort in Hperm. apply Permutation_nil_l in Hperm.
  unfold pick in Hperm. symmetry in Hperm. apply fmap_nil_inv in Hperm.
  by apply map_to_list_empty_iff.
- split; [done|]. intros ->.
  pose proof (merge_sort_Permutation lessLoaded (pick ∅ machines)) as Hperm.
  rewrite Hsort in Hperm. unfold pick in Hperm.
  rewrite map_to_list_empty in Hperm. simpl in Hperm.
  by apply Permutation_nil_r in Hperm.
Qed.

Lemma PickFewest_Some (fds : FailureDomains) (machines : Machines) (fd : string) :
  PickFewest fds machines = Some fd ->
  is_Some (fds !! fd) /\
  forall fd', is_Some (fds !! fd') ->
              (countIn machines fd <= countIn machines fd')%nat.
Proof.
unfold PickFewest.
destruct (merge_sort lessLoaded (pick fds machines)) as [|agg l] eqn:Hsort; [done|].
intros [= <-].
assert (forall x, x ∈ agg :: l <-> x ∈ pick fds machines) as Hmem.
{ intros x. by rewrite <- Hsort, merge_sort_Permutation. }
assert (agg ∈ pick fds machines) as Hagg by (apply Hmem; by left).
apply elem_of_pick in Hagg as [Hfd Hcount].
split; [done|]. intros fd' Hfd'.
assert ((fd', countIn machines fd') ∈ agg :: l) as Hin
  by (apply Hmem, elem_of_pick; done).
pose proof (StronglySorted_merge_sort lessLoaded (pick fds machines)) as Hsorted.
rewrite Hsort in Hsorted. apply StronglySorted_inv in Hsorted as [_ Hall].
rewrite <- Hcount.
apply elem_of_cons in Hin as [<-|Hin]; [simpl; lia|].
rewrite Forall_forall in Hall. apply (Hall _ Hin).
Qed.

(** X12.  [NextFailureDomainForScaleUp] returns nil exactly when the
    cluster status defines no control-plane failure domain, and otherwise a
    control-plane failure domain holding no more up-to-date machines than
    any other control-plane failure domain. *)
Theorem scale_up_targets_least_loaded_domain (c : ControlPlane) :
  (NextFailureDomainForScaleUp reconciliationTime RolloutAfter MatchesMachineSpec c
   = None <->
   forall fd, StatusFailureDomains c !! fd <> Some true) /\
  (forall fd,
      NextFailureDomainForScaleUp reconciliationTime RolloutAfter MatchesMachineSpec c
      = Some fd ->
      StatusFailureDomains c !! fd = Some true /\
      forall fd', StatusFailureDomains c !! fd' = Some true ->
        (countIn (UpToDateMachines reconciliationTime RolloutAfter
                    MatchesMachineSpec c) fd
         <= countIn (UpToDateMachines reconciliationTime RolloutAfter
                       MatchesMachineSpec c) fd')%nat).
Proof.
unfold NextFailureDomainForScaleUp, FailureDomainsOf.
set (fds := FilterControlPlane (StatusFailureDomains c)).
assert (fds = ∅ <-> forall fd, StatusFailureDomains c !! fd <> Some true) as Hempty.
{ split.
  - intros Hfds fd Hfd. apply controlPlaneDomain_lookup in Hfd.
    fold fds in Hfd. rewrite Hfds, lookup_empty in Hfd. by destruct Hfd.
  - intros Hno. apply map_empty. intros fd.
    destruct (fds !! fd) as [b|] eqn:Hb; [|done].
    exfalso. apply (Hno fd), controlPlaneDomain_lookup. fold fds. eauto. }
case_bool_decide as Hsize.
- apply map_size_empty_iff in Hsize. split; [|done].
  split; [intros _; by apply Hempty|done].
- split.
  + rewrite PickFewest_None, Hempty. done.
  + intros fd Hpick. apply PickFewest_Some in Hpick as [Hfd Hmin].
    split; [by apply controlPlaneDomain_lookup|].
    intros fd' Hfd'. apply Hmin. by apply controlPlaneDomain_lookup.
Qed.

End ClusterMoreFacts.

Section ClusterMoreInstances.
Import Conditions Collections Cluster ClusterMore SelectionSpec ClusterMoreSpec.

(** A template that tries to set the cluster label itself. *)
Lemma control_plane_labels_forced_witness :
  ControlPlaneMachineLabelsForCluster
    {[ "app" := "kcp"; ClusterLabelName := "other" ]} "prod" !! "app"
  = ({[ "app" := "kcp"; ClusterLabelName := "other" ]} : gmap string string) !! "app".
Proof.
apply (proj2 (proj2 (control_plane_labels_forced
                       {[ "app" := "kcp"; ClusterLabelName := "other" ]} "prod")));
  discriminate.
Defined.

Example control_plane_labels_example :
  ControlPlaneMachineLabelsForCluster
    {[ "app" := "kcp"; ClusterLabelName := "other" ]} "prod"
  = {[ "app" := "kcp"; ClusterLabelName := "prod";
       MachineControlPlaneLabelName := "" ]}.
Proof. vm_compute. reflexivity. Qed.

(** The example control plane: m1 is up to date, m2 fails the spec check,
    m4 is being deleted. *)
Lemma rollout_splits_machines_witness :
  (MachinesNeedingRollout 100 None matchesAllButM2 spreadControlPlane !! "m1"
   = Some m1 \/
   UpToDateMachines 100 None matchesAllButM2 spreadControlPlane !! "m1" = Some m1) /\
  DeletionTimestamp m2 = None /\
  (MachinesNeedingRollout 100 None matchesAllButM2 exampleControlPlane !! "m3"
   = Some m3 \/
   UpToDateMachines 100 None matchesAllButM2 exampleControlPlane !! "m3" = Some m3).
Proof.
split; [|split].
- apply (proj1 (proj2 (rollout_splits_machines 100 None matchesAllButM2
                         spreadControlPlane)) "m1" m1); reflexivity.
- apply (proj1 (proj2 (proj2 (rollout_splits_machines 100 None matchesAllButM2
                                spreadControlPlane))) "m2" m2).
  vm_compute. reflexivity.
- apply (proj2 (proj2 (proj2 (rollout_splits_machines 100 None matchesAllButM2
                                exampleControlPlane)))).
  + vm_compute. reflexivity.
  + reflexivity.
Defined.

Example rollout_example :
  MachinesNeedingRollout 100 None matchesAllButM2 spreadControlPlane
  = {[ "m2" := m2 ]} /\
  UpToDateMachines 100 None matchesAllButM2 spreadControlPlane
  = {[ "m1" := m1; "m4" := m4 ]} /\
  MachinesNeedingRollout 100 (Some 3%Z) matchesAllButM2 spreadControlPlane
  = {[ "m1" := m1; "m2" := m2 ]}.
Proof. repeat split; vm_compute; reflexivity. Qed.

(** With "a" holding two up-to-date machines and "b" one, scale-up goes to
    "b"; without failure domains there is no target. *)
Lemma scale_up_targets_least_loaded_domain_witness :
  (StatusFailureDomains spreadControlPlane !! "b" = Some true /\
   forall fd', StatusFailureDomains spreadControlPlane !! fd' = Some true ->
     (countIn (UpToDateMachines 100 None (fun _ => true) spreadControlPlane) "b"
      <= countIn (UpToDateMachines 100 None (fun _ => true) spreadControlPlane) fd')%nat)
  /\
  NextFailureDomainForScaleUp 100 None (fun _ => true) (mkControlPlane [] ∅ threeMachines)
  = None.
Proof.
split.
- apply (proj2 (scale_up_targets_least_loaded_domain 100 None (fun _ => true)
                  spreadControlPlane) "b").
  vm_compute. reflexivity.
- apply (proj1 (scale_up_targets_least_loaded_domain 100 None (fun _ => true)
                  (mkControlPlane [] ∅ threeMachines))).
  intros fd. simpl. rewrite lookup_empty. discriminate.
Defined.

End ClusterMoreInstances.

(* ===================================================================== *)
(** * Properties of the workload-cluster condition updates *)
(* ===================================================================== *)

Section WorkloadFacts.
Import Conditions Collections Cluster Workload AggregateSpec WorkloadSpec.

Lemma identities_lookup (ms ms' : Machines) key m' :
  identities ms = identities ms' ->
  ms' !! key = Some m' ->
  exists m, ms !! key = Some m /\
            NodeRef m = NodeRef m' /\ DeletionTimestamp m = DeletionTimestamp m'.
Proof.
intros Hid Hm'.
assert (identities ms !! key = Some (withConditions m' [])) as Hlook.
{ rewrite Hid. unfold identities. by rewrite lookup_fmap, Hm'. }
unfold identities in Hlook. rewrite lookup_fmap in Hlook.
destruct (ms !! key) as [m|]; [|done].
injection Hlook as Hname Hcreated Hdel Hann Hfd Href. by exists m.
Qed.

Lemma identities_mark (f : list Condition -> list Condition) key (ms : Machines) :
  identities (mark f key ms) = identities ms.
Proof.
unfold identities, mark. apply map_eq. intros k.
rewrite !lookup_fmap. destruct (decide (key = k)) as [->|Hne].
- rewrite lookup_alter_eq. by destruct (ms !! k).
- by rewrite lookup_alter_ne.
Qed.

Lemma identities_foldl_mark {A : Type} (p : A -> bool)
    (f : list Condition -> list Condition) key (l : list A) :
  forall ms : Machines,
    identities (foldl (fun ms a => if p a then mark f key ms else ms) ms l)
    = identities ms.
Proof.
induction l as [|a l IH]; intros ms; simpl; [done|].
rewrite IH. destruct (p a); [apply identities_mark|done].
Qed.

Variable N : Names.
Variable clientGet : string -> GetNode.

(** The loop over the nodes changes nothing of a machine but its conditions. *)
Lemma agentNode_identities (node : Node) (ms : Machines) (errs : list string) :
  match agentNode N clientGet node ms errs with
  | Continue ms' _ | Return ms' => identities ms' = identities ms
  end.
Proof.
unfold agentNode.
destruct (machineOfNode ms (NodeName node)) as [[key m]|].
- case_bool_decide; [simpl; apply identities_mark|].
  destruct (nodeHasUnreachableTaint node); [simpl; apply identities_mark|].
  destruct (clientGet (NodeName node)) as [| |conds];
    [apply identities_mark|apply identities_mark|].
  apply (identities_foldl_mark
           (fun c => String.eqb (NodeConditionType c) NodeReady
                     && String.eqb (NodeConditionStatus c) NodeConditionTrue)).
- by destruct (hasProvisioningMachine ms).
Qed.

Lemma agentNodes_identities (nodes : list Node) :
  forall (ms : Machines) (errs : list string),
    match agentNodes N clientGet nodes ms errs with
    | Continue ms' _ | Return ms' => identities ms' = identities ms
    end.
Proof.
induction nodes as [|node nodes IH]; intros ms errs; simpl; [done|].
pose proof (agentNode_identities node ms errs) as Hnode.
destruct (agentNode N clientGet node ms errs) as [ms' errs'|ms']; [|done].
specialize (IH ms' errs').
destruct (agentNodes N clientGet nodes ms' errs'); congruence.
Qed.

Lemma machineOfNode_Some (ms : Machines) name key m :
  machineOfNode ms name = Some (key, m) ->
  ms !! key = Some m /\ NodeRef m = Some name.
Proof.
unfold machineOfNode. intros Hfind. apply find_some in Hfind as [Hin Href].
apply list_elem_of_In, elem_of_map_to_list in Hin.
by apply bool_decide_eq_true in Href.
Qed.

Lemma machineOfNode_None (ms : Machines) name :
  machineOfNode ms name = None -> ~ hasMachineFor ms name.
Proof.
unfold machineOfNode. intros Hfind (key & m & Hm & Href).
pose proof (find_none _ _ Hfind (key, m)) as Hnone. simpl in Hnone.
rewrite bool_decide_eq_true_2 in Hnone by done.
enough (true = false) by done.
by apply Hnone, list_elem_of_In, elem_of_map_to_list.
Qed.

Lemma hasMachineFor_identities (ms ms' : Machines) name :
  identities ms = identities ms' -> hasMachineFor ms' name -> hasMachineFor ms name.
Proof.
intros Hid (key & m' & Hm' & Href).
destruct (identities_lookup ms ms' key m' Hid Hm') as (m & Hm & Href' & _).
exists key, m. split; [done|]. congruence.
Qed.

Lemma hasProvisioningMachine_true (ms : Machines) :
  hasProvisioningMachine ms = true <->
  exists key m, ms !! key = Some m /\ NodeRef m = None.
Proof.
unfold hasProvisioningMachine. rewrite existsb_exists. split.
- intros (m & Hin & Href). apply bool_decide_eq_true in Href.
  apply list_elem_of_In, elem_of_UnsortedList in Hin as [key Hkey]. by exists key, m.
- intros (key & m & Hm & Href). exists m. split.
  + apply list_elem_of_In, elem_of_UnsortedList. by exists key.
  + by apply bool_decide_eq_true_2.
Qed.

Lemma hasProvisioningMachine_identities (ms ms' : Machines) :
  identities ms = identities ms' ->
  hasProvisioningMachine ms = hasProvisioningMachine ms'.
Proof.
intros Hid.
destruct (hasProvisioningMachine ms) eqn:H1, (hasProvisioningMachine ms') eqn:H2;
  try done.
- apply hasProvisioningMachine_true in H1 as (key & m & Hm & Href).
  destruct (identities_lookup ms' ms key m (eq_sym Hid) Hm) as (m' & Hm' & Href' & _).
  assert (hasProvisioningMachine ms' = true) as H3; [|congruence].
  apply hasProvisioningMachine_true. exists key, m'. split; [done|]. congruence.
- apply hasProvisioningMachine_true in H2 as (key & m' & Hm' & Href).
  destruct (identities_lookup ms ms' key m' Hid Hm') as (m & Hm & Href' & _).
  assert (hasProvisioningMachine ms = true) as H3; [|congruence].
  apply hasProvisioningMachine_true. exists key, m. split; [done|]. congruence.
Qed.

(** With every node object readable the loop over the nodes runs to its
    end, and the KCP-level errors only grow. *)
Lemma agentNodes_readable (nodes : list Node) :
  allReadable clientGet ->
  forall (ms : Machines) (errs : list string),
    exists ms' more,
      agentNodes N clientGet nodes ms errs = Continue ms' (errs ++ more).
Proof.
intros Hread. induction nodes as [|node nodes IH]; intros ms errs; simpl.
- exists ms, []. by rewrite app_nil_r.
- assert (exists ms1 more1,
             agentNode N clientGet node ms errs = Continue ms1 (errs ++ more1))
    as (ms1 & more1 & ->).
  { unfold agentNode.
    destruct (machineOfNode ms (NodeName node)) as [[key m]|].
    - case_bool_decide; [eexists _, []; by rewrite app_nil_r|].
      destruct (nodeHasUnreachableTaint node); [eexists _, []; by rewrite app_nil_r|].
      destruct (Hread (NodeName node)) as [conds ->].
      eexists _, []. by rewrite app_nil_r.
    - destruct (hasProvisioningMachine ms); [eexists _, []; by rewrite app_nil_r|].
      by eexists _, _. }
  destruct (IH ms1 (errs ++ more1)) as (ms' & more & ->).
  exists ms', (more1 ++ more). by rewrite app_assoc.
Qed.

Lemma app_cons_not_nil' {A : Type} (l r : list A) (x : A) : l ++ x :: r <> [].
Proof. by destruct l. Qed.

Lemma agentNodes_errors_grow (nodes : list Node) :
  forall (ms ms' : Machines) (errs errs' : list string),
    errs <> [] ->
    agentNodes N clientGet nodes ms errs = Continue ms' errs' -> errs' <> [].
Proof.
induction nodes as [|x l IHl]; intros a b e e' He Hr; simpl in Hr.
- by injection Hr as _ <-.
- destruct (agentNode N clientGet x a e) as [a1 e1|a1] eqn:Hx; [|done].
  apply (IHl a1 b e1 e'); [|done].
  unfold agentNode in Hx.
  destruct (machineOfNode a (NodeName x)) as [[k mm]|].
  + case_bool_decide; [by injection Hx as _ <-|].
    destruct (nodeHasUnreachableTaint x); [by injection Hx as _ <-|].
    destruct (clientGet (NodeName x)); try done. by injection Hx as _ <-.
  + destruct (hasProvisioningMachine a); injection Hx as _ <-; [done|].
    apply app_cons_not_nil'.
Qed.

(** A listed node that no machine references is reported when no machine
    is still waiting for its node. *)
Lemma agentNodes_orphan (nodes : list Node) (node : Node) :
  node ∈ nodes ->
  forall (ms ms' : Machines) (errs errs' : list string),
    ~ hasMachineFor ms (NodeName node) ->
    hasProvisioningMachine ms = false ->
    agentNodes N clientGet nodes ms errs = Continue ms' errs' ->
    errs' <> [].
Proof.
induction nodes as [|n nodes IH]; intros Hin ms ms' errs errs' Hnone Hprov Hrun.
- by apply elem_of_nil in Hin.
- simpl in Hrun.
  pose proof (agentNode_identities n ms errs) as Hid.
  destruct (agentNode N clientGet n ms errs) as [ms1 errs1|ms1] eqn:Hnode; [|done].
  apply elem_of_cons in Hin as [->|Hin].
  + unfold agentNode in Hnode.
    destruct (machineOfNode ms (NodeName n)) as [[key m]|] eqn:Hfind.
    { apply machineOfNode_Some in Hfind as [Hm Href]. destruct Hnone. by exists key, m. }
    rewrite Hprov in Hnode. injection Hnode as <- <-.
    apply (agentNodes_errors_grow _ _ _ _ _ (app_cons_not_nil' _ _ _) Hrun).
  + apply (IH Hin ms1 ms' errs1 errs'); [| |done].
    * intros Hhas. apply Hnone. by apply (hasMachineFor_identities ms ms1).
    * by rewrite (hasProvisioningMachine_identities ms1 ms).
Qed.

Lemma agentNodes_returns (nodes : list Node) (node : Node) :
  node ∈ nodes ->
  nodeHasUnreachableTaint node = false ->
  (forall conditions, clientGet (NodeName node) <> GetFound conditions) ->
  forall (ms : Machines) (errs : list string),
    hasMachineFor ms (NodeName node) ->
    (forall key m, ms !! key = Some m -> NodeRef m = Some (NodeName node) ->
                   DeletionTimestamp m = None) ->
    exists ms', agentNodes N clientGet nodes ms errs = Return ms'.
Proof.
intros Hin Htaint Hget.
induction nodes as [|n nodes IH]; intros ms errs Hhas Hlive.
- by apply elem_of_nil in Hin.
- simpl.
  pose proof (agentNode_identities n ms errs) as Hid.
  destruct (agentNode N clientGet n ms errs) as [ms1 errs1|ms1] eqn:Hnode;
    [|by exists ms1].
  apply elem_of_cons in Hin as [<-|Hin].
  + exfalso. unfold agentNode in Hnode.
    destruct (machineOfNode ms (NodeName node)) as [[key m]|] eqn:Hfind.
    * apply machineOfNode_Some in Hfind as [Hm Href].
      rewrite (Hlive key m Hm Href) in Hnode.
      rewrite bool_decide_eq_false_2 in Hnode by by intros [? ?].
      rewrite Htaint in Hnode.
      destruct (clientGet (NodeName node)) as [| |conds] eqn:Hc; try done.
      by destruct (Hget conds).
    * by apply machineOfNode_None in Hfind.
  + apply IH; [done| |].
    * by apply (hasMachineFor_identities ms1 ms).
    * intros key m1 Hm1 Href.
      destruct (identities_lookup ms ms1 key m1 (eq_sym Hid) Hm1)
        as (m & Hm & Href' & Hdel).
      rewrite <- Hdel. apply (Hlive key m Hm). congruence.
Qed.

Variable Sprintf0 : string -> string.

(** X13.  When the control-plane nodes cannot be listed,
    [UpdateAgentConditions] marks the agent condition of every machine
    Unknown with the inspection-failed reason, marks the KCP components
    condition Unknown, and leaves every other condition of the machines and
    of the KCP object as it was. *)
Theorem agent_conditions_unknown_when_listing_fails (c : ControlPlane) :
  (forall key m,
      CPMachines c !! key = Some m ->
      exists m',
        CPMachines (UpdateAgentConditions N None clientGet Sprintf0 c) !! key
        = Some m' /\
        Get (MachineConditions m') (MachineAgentHealthyCondition N)
        = Some (UnknownCondition (MachineAgentHealthyCondition N)
                  (PodInspectionFailedReason N)
                  "Failed to get the node which is hosting this component") /\
        forall t, t <> MachineAgentHealthyCondition N ->
          Get (MachineConditions m') t = Get (MachineConditions m) t) /\
  Get (KCPConditions (UpdateAgentConditions N None clientGet Sprintf0 c))
      (InfraControlPlaneComponentsHealthyCondition N)
  = Some (UnknownCondition (InfraControlPlaneComponentsHealthyCondition N)
            (ControlPlaneComponentsInspectionFailedReason N)
            "Failed to list nodes which are hosting control plane components") /\
  (forall t, t <> InfraControlPlaneComponentsHealthyCondition N ->
     Get (KCPConditions (UpdateAgentConditions N None clientGet Sprintf0 c)) t
     = Get (KCPConditions c) t).
Proof.
unfold UpdateAgentConditions, forEachMachine. simpl. split; [|split].
- intros key m Hm. rewrite lookup_fmap, Hm. simpl. eexists. split; [done|].
  simpl. split; [apply Get_MarkUnknown|].
  intros t Ht. unfold MarkUnknown. by rewrite Get_Set_other.
- apply Get_MarkUnknown.
- intros t Ht. unfold MarkUnknown. by rewrite Get_Set_other.
Qed.

(** X14.  When the nodes are listed and every node object can be read, a
    machine whose node reference names none of the listed nodes is marked
    with the agent condition False, reason PodFailed, severity Error, and
    the KCP components condition comes out False with severity Error. *)
Theorem agent_conditions_report_missing_node (c : ControlPlane)
    (nodes : list Node) key m ref :
  allReadable clientGet ->
  CPMachines c !! key = Some m ->
  NodeRef m = Some ref ->
  (forall node, node ∈ nodes -> NodeName node <> ref) ->
  (exists m',
      CPMachines (UpdateAgentConditions N (Some nodes) clientGet Sprintf0 c) !! key
      = Some m' /\
      Get (MachineConditions m') (MachineAgentHealthyCondition N)
      = Some (FalseCondition (MachineAgentHealthyCondition N) PodFailedReason
                SeverityError "Missing node")) /\
  exists msg,
    Get (KCPConditions (UpdateAgentConditions N (Some nodes) clientGet Sprintf0 c))
        ControlPlaneComponentsHealthyCondition
    = Some (FalseCondition ControlPlaneComponentsHealthyCondition
              ControlPlaneComponentsUnhealthyReason SeverityError msg).
Proof.
intros Hread Hm Href Hmissing.
unfold UpdateAgentConditions.
destruct (agentNodes_readable nodes Hread (CPMachines c) []) as (ms1 & more & Hrun).
pose proof (agentNodes_identities nodes (CPMachines c) []) as Hid.
rewrite Hrun in *. cbv zeta. simpl.
destruct (identities_lookup ms1 (CPMachines c) key m Hid Hm)
  as (m1 & Hm1 & Href1 & _).
assert (existsb (fun node => String.eqb ref (NodeName node)) nodes = false) as Hnot.
{ apply not_true_iff_false. rewrite existsb_exists. intros (node & Hin & Heq).
  apply String.eqb_eq in Heq. apply (Hmissing node); [|done].
  by apply list_elem_of_In. }
assert (forEachMachine (reportMissingNode N nodes) ms1 !! key
        = Some (withConditions m1
                  (MarkFalse (MachineConditions m1) (MachineAgentHealthyCondition N)
                     PodFailedReason SeverityError "Missing node"))) as Hm'.
{ unfold forEachMachine. rewrite lookup_fmap, Hm1. simpl.
  unfold reportMissingNode. rewrite Href1, Href, Hnot. done. }
split.
- eexists. split; [exact Hm'|]. simpl. apply Get_MarkFalse.
- apply (aggregate_error Sprintf0). left.
  eexists key, _, (MachineAgentHealthyCondition N). simpl.
  split; [exact Hm'|]. split; [by left|].
  unfold report. simpl. by rewrite Get_MarkFalse.
Qed.

(** X15.  When the object of a listed node cannot be read, and the
    machines referencing that node are not being deleted and the node is
    not tainted unreachable, [UpdateAgentConditions] returns from inside
    the loop: the KCP conditions are left exactly as they were, without any
    aggregation. *)
Theorem agent_conditions_stop_at_unreadable_node (c : ControlPlane)
    (nodes : list Node) (node : Node) :
  node ∈ nodes ->
  nodeHasUnreachableTaint node = false ->
  (forall conditions, clientGet (NodeName node) <> GetFound conditions) ->
  hasMachineFor (CPMachines c) (NodeName node) ->
  (forall key m, CPMachines c !! key = Some m ->
                 NodeRef m = Some (NodeName node) -> DeletionTimestamp m = None) ->
  KCPConditions (UpdateAgentConditions N (Some nodes) clientGet Sprintf0 c)
  = KCPConditions c.
Proof.
intros Hin Htaint Hget Hhas Hlive. unfold UpdateAgentConditions.
destruct (agentNodes_returns nodes node Hin Htaint Hget (CPMachines c) [] Hhas Hlive)
  as [ms' ->].
done.
Qed.

(** X16.  When the nodes are listed and every node object can be read, a
    listed node that no machine references makes the KCP components
    condition False with severity Error, provided no machine is still
    without a node reference. *)
Theorem agent_conditions_report_orphan_node (c : ControlPlane)
    (nodes : list Node) (node : Node) :
  allReadable clientGet ->
  node ∈ nodes ->
  ~ hasMachineFor (CPMachines c) (NodeName node) ->
  hasProvisioningMachine (CPMachines c) = false ->
  exists msg,
    Get (KCPConditions (UpdateAgentConditions N (Some nodes) clientGet Sprintf0 c))
        ControlPlaneComponentsHealthyCondition
    = Some (FalseCondition ControlPlaneComponentsHealthyCondition
              ControlPlaneComponentsUnhealthyReason SeverityError msg).
Proof.
intros Hread Hin Hnone Hprov. unfold UpdateAgentConditions.
destruct (agentNodes_readable nodes Hread (CPMachines c) []) as (ms1 & more & Hrun).
pose proof (agentNodes_orphan nodes node Hin _ _ _ _ Hnone Hprov Hrun) as Herrs.
rewrite Hrun. cbv zeta. simpl.
apply (aggregate_error Sprintf0). by right.
Qed.


(* ------------------------------------------------------------------- *)
(** ** The healthy control plane *)

Lemma foldl_mark_other {A : Type} (p : A -> bool)
    (f : list Condition -> list Condition) key (l : list A) k :
  k <> key ->
  forall ms : Machines,
    foldl (fun ms a => if p a then mark f key ms else ms) ms l !! k = ms !! k.
Proof.
intros Hne. induction l as [|a l IH]; intros ms; simpl; [done|].
rewrite IH. destruct (p a); [|done]. unfold mark. by rewrite lookup_alter_ne.
Qed.

Lemma foldl_markTrue_same {A : Type} (p : A -> bool) (t : ConditionType) key
    (l : list A) :
  forall (ms : Machines) m,
    ms !! key = Some m ->
    existsb p l = true \/ isMarkedTrue t m ->
    exists m',
      foldl (fun ms a => if p a then mark (fun cs => MarkTrue cs t) key ms else ms)
            ms l !! key = Some m' /\
      isMarkedTrue t m'.
Proof.
induction l as [|a l IH]; intros ms m Hm Hor; simpl.
- destruct Hor as [Hex|Htrue]; [done|]. by exists m.
- destruct (p a) eqn:Hp.
  + eapply IH.
    * unfold mark. rewrite lookup_alter_eq, Hm. done.
    * right. unfold isMarkedTrue. simpl. apply Get_MarkTrue.
  + eapply IH; [done|]. simpl in Hor. rewrite Hp in Hor. done.
Qed.

Lemma oneMachinePerNode_identities (ms ms' : Machines) :
  identities ms = identities ms' -> oneMachinePerNode ms' -> oneMachinePerNode ms.
Proof.
intros Hid Hone key1 a key2 b ref Ha Hb Hrefa Hrefb.
destruct (identities_lookup ms' ms key1 a (eq_sym Hid) Ha) as (a' & Ha' & Hra & _).
destruct (identities_lookup ms' ms key2 b (eq_sym Hid) Hb) as (b' & Hb' & Hrb & _).
apply (Hone key1 a' key2 b' ref); congruence.
Qed.

Lemma agentNode_healthy (node : Node) (ms : Machines) (errs : list string) :
  healthyNode clientGet node ->
  (forall key m, ms !! key = Some m -> DeletionTimestamp m = None) ->
  hasMachineFor ms (NodeName node) ->
  oneMachinePerNode ms ->
  exists ms',
    agentNode N clientGet node ms errs = Continue ms' errs /\
    forall key m, ms !! key = Some m ->
      exists m', ms' !! key = Some m' /\
        (NodeRef m = Some (NodeName node) ->
         isMarkedTrue (MachineAgentHealthyCondition N) m') /\
        (isMarkedTrue (MachineAgentHealthyCondition N) m ->
         isMarkedTrue (MachineAgentHealthyCondition N) m').
Proof.
intros (Htaint & conds & Hget & Hready) Hlive Hhas Hone. unfold agentNode.
destruct (machineOfNode ms (NodeName node)) as [[k0 m0]|] eqn:Hfind;
  [|by apply machineOfNode_None in Hfind].
apply machineOfNode_Some in Hfind as [Hm0 Href0].
rewrite (Hlive k0 m0 Hm0).
rewrite bool_decide_eq_false_2 by by intros [? ?].
rewrite Htaint, Hget. eexists. split; [reflexivity|].
intros key m Hm. destruct (decide (key = k0)) as [->|Hne].
- assert (m = m0) as -> by congruence.
  destruct (foldl_markTrue_same
              (fun c => String.eqb (NodeConditionType c) NodeReady
                        && String.eqb (NodeConditionStatus c) NodeConditionTrue)
              (MachineAgentHealthyCondition N) k0 conds ms m0 Hm0 (or_introl Hready))
    as (m' & Hm' & Htrue).
  exists m'. by split.
- exists m. split; [|split; [|done]].
  + rewrite <- Hm.
    apply (foldl_mark_other
             (fun c => String.eqb (NodeConditionType c) NodeReady
                       && String.eqb (NodeConditionStatus c) NodeConditionTrue)
             (fun cs => MarkTrue cs (MachineAgentHealthyCondition N)) k0 conds key Hne).
  + intros Href. destruct Hne. by apply (Hone key m k0 m0 (NodeName node)).
Qed.

Lemma agentNodes_healthy (nodes : list Node) :
  (forall node, node ∈ nodes -> healthyNode clientGet node) ->
  forall (ms : Machines) (errs : list string),
    (forall key m, ms !! key = Some m -> DeletionTimestamp m = None) ->
    (forall node, node ∈ nodes -> hasMachineFor ms (NodeName node)) ->
    oneMachinePerNode ms ->
    exists ms',
      agentNodes N clientGet nodes ms errs = Continue ms' errs /\
      forall key m, ms !! key = Some m ->
        exists m', ms' !! key = Some m' /\
          ((exists node, node ∈ nodes /\ NodeRef m = Some (NodeName node)) ->
           isMarkedTrue (MachineAgentHealthyCondition N) m') /\
          (isMarkedTrue (MachineAgentHealthyCondition N) m ->
           isMarkedTrue (MachineAgentHealthyCondition N) m').
Proof.
induction nodes as [|n nodes IH]; intros Hgood ms errs Hlive Hhas Hone; simpl.
- exists ms. split; [done|]. intros key m Hm. exists m. split; [done|].
  split; [|done]. intros (node & Hin & _). by apply elem_of_nil in Hin.
- destruct (agentNode_healthy n ms errs) as (ms1 & Hstep & Hms1);
    [apply Hgood; by left|done|apply Hhas; by left|done|].
  pose proof (agentNode_identities n ms errs) as Hid. rewrite Hstep in Hid.
  rewrite Hstep.
  destruct (IH (fun node Hin => Hgood node (list_elem_of_further _ _ _ Hin)) ms1 errs)
    as (ms' & Hrun & Hms').
  + intros key m1 Hm1.
    destruct (identities_lookup ms ms1 key m1 (eq_sym Hid) Hm1) as (m & Hm & _ & Hdel).
    rewrite <- Hdel. by apply (Hlive key m).
  + intros node Hin. apply (hasMachineFor_identities ms1 ms); [done|].
    apply Hhas. by right.
  + by apply (oneMachinePerNode_identities ms1 ms).
  + exists ms'. split; [done|]. intros key m Hm.
    destruct (Hms1 key m Hm) as (m1 & Hm1 & Hhere & Hkeep1).
    destruct (Hms' key m1 Hm1) as (m' & Hm' & Hlater & Hkeep).
    exists m'. split; [done|]. split; [|by intros; apply Hkeep, Hkeep1].
    intros (node & Hin & Href). apply elem_of_cons in Hin as [->|Hin].
    * by apply Hkeep, Hhere.
    * apply Hlater. exists node. split; [done|].
      destruct (identities_lookup ms ms1 key m1 (eq_sym Hid) Hm1) as (m_ & Hm_ & Href_ & _).
      congruence.
Qed.

(** X17.  The healthy control plane: when every listed node is reachable,
    readable and Ready and has a machine, no machine is being deleted,
    every machine references a listed node and no two machines share a
    node, [UpdateAgentConditions] marks the agent condition of every
    machine True and the KCP components condition True. *)
Theorem agent_conditions_healthy_control_plane (c : ControlPlane)
    (nodes : list Node) :
  (forall node, node ∈ nodes ->
     healthyNode clientGet node /\ hasMachineFor (CPMachines c) (NodeName node)) ->
  (forall key m, CPMachines c !! key = Some m ->
     DeletionTimestamp m = None /\
     exists node, node ∈ nodes /\ NodeRef m = Some (NodeName node)) ->
  oneMachinePerNode (CPMachines c) ->
  CPMachines c <> ∅ ->
  (forall key m, CPMachines c !! key = Some m ->
     exists m',
       CPMachines (UpdateAgentConditions N (Some nodes) clientGet Sprintf0 c) !! key
       = Some m' /\
       Get (MachineConditions m') (MachineAgentHealthyCondition N)
       = Some (TrueCondition (MachineAgentHealthyCondition N))) /\
  Get (KCPConditions (UpdateAgentConditions N (Some nodes) clientGet Sprintf0 c))
      ControlPlaneComponentsHealthyCondition
  = Some (TrueCondition ControlPlaneComponentsHealthyCondition).
Proof.
intros Hnodes Hmachines Hone Hnonempty.
destruct (agentNodes_healthy nodes (fun node Hin => proj1 (Hnodes node Hin))
            (CPMachines c) []
            (fun key m Hm => proj1 (Hmachines key m Hm))
            (fun node Hin => proj2 (Hnodes node Hin)) Hone)
  as (ms' & Hrun & Hms').
pose proof (agentNodes_identities nodes (CPMachines c) []) as Hid.
rewrite Hrun in Hid.
assert (forall key m, CPMachines c !! key = Some m ->
          exists m', forEachMachine (reportMissingNode N nodes) ms' !! key = Some m' /\
                     isMarkedTrue (MachineAgentHealthyCondition N) m') as Hall.
{ intros key m Hm. destruct (Hms' key m Hm) as (m' & Hm' & Htrue & _).
  destruct (Hmachines key m Hm) as (_ & node & Hin & Href).
  exists m'. split; [|apply Htrue; by exists node].
  unfold forEachMachine. rewrite lookup_fmap, Hm'. simpl. f_equal.
  destruct (identities_lookup (CPMachines c) ms' key m' (eq_sym Hid) Hm')
    as (m_ & Hm_ & Href_ & _).
  unfold reportMissingNode.
  assert (NodeRef m' = Some (NodeName node)) as -> by congruence.
  assert (existsb (fun n => String.eqb (NodeName node) (NodeName n)) nodes = true)
    as ->; [|done].
  apply existsb_exists. exists node. split; [by apply list_elem_of_In|].
  apply String.eqb_refl. }
assert (forall key m', forEachMachine (reportMissingNode N nodes) ms' !! key = Some m' ->
          isMarkedTrue (MachineAgentHealthyCondition N) m') as Honly.
{ intros key m' Hm'.
  assert (is_Some (CPMachines c !! key)) as [m Hm].
  { unfold forEachMachine in Hm'. rewrite lookup_fmap in Hm'.
    destruct (ms' !! key) as [m1|] eqn:Hm1; [|done].
    destruct (identities_lookup (CPMachines c) ms' key m1 (eq_sym Hid) Hm1)
      as (m & Hm & _). by exists m. }
  destruct (Hall key m Hm) as (m2 & Hm2 & Htrue). congruence. }
unfold UpdateAgentConditions. rewrite Hrun. cbv zeta. simpl. split.
- intros key m Hm. destruct (Hall key m Hm) as (m' & Hm' & Htrue). by exists m'.
- apply (aggregate_true Sprintf0); simpl; [done| | |].
  + intros (key & m' & ct & Hm' & Hct & Hrep). simpl in Hm', Hct.
    apply list_elem_of_singleton in Hct as ->.
    unfold report in Hrep. by rewrite (Honly key m' Hm') in Hrep.
  + intros (key & m' & ct & Hm' & Hct & Hrep). simpl in Hm', Hct.
    apply list_elem_of_singleton in Hct as ->.
    unfold report in Hrep. by rewrite (Honly key m' Hm') in Hrep.
  + apply map_choose in Hnonempty as (key & m & Hm).
    destruct (Hall key m Hm) as (m' & Hm' & Htrue).
    exists key, m', (MachineAgentHealthyCondition N). simpl.
    split; [done|]. split; [by left|]. unfold report. by rewrite Htrue.
Qed.

(* ------------------------------------------------------------------- *)
(** ** What the agent update leaves alone *)

Lemma sameExcept_refl t m : sameExcept t m m.
Proof. by split. Qed.

Lemma sameExcept_trans t m1 m2 m3 :
  sameExcept t m1 m2 -> sameExcept t m2 m3 -> sameExcept t m1 m3.
Proof.
intros [Hid1 Hget1] [Hid2 Hget2]. split; [congruence|].
intros t' Hne. rewrite Hget2, Hget1; done.
Qed.

Lemma machinesSameExcept_refl t ms : machinesSameExcept t ms ms.
Proof. intros key. destruct (ms !! key); [apply sameExcept_refl|done]. Qed.

Lemma machinesSameExcept_trans t ms1 ms2 ms3 :
  machinesSameExcept t ms1 ms2 -> machinesSameExcept t ms2 ms3 ->
  machinesSameExcept t ms1 ms3.
Proof.
intros H12 H23 key. specialize (H12 key). specialize (H23 key).
destruct (ms1 !! key), (ms2 !! key), (ms3 !! key); try done.
by apply (sameExcept_trans t _ m0).
Qed.

Lemma sameExcept_Set t m (c : Condition) :
  Type_ c = t -> sameExcept t m (withConditions m (Set_ (MachineConditions m) c)).
Proof.
intros <-. split; [done|]. intros t' Hne. simpl. by apply Get_Set_other.
Qed.

Lemma machinesSameExcept_mark t (f : list Condition -> list Condition) key ms :
  (forall m, sameExcept t m (withConditions m (f (MachineConditions m)))) ->
  machinesSameExcept t ms (mark f key ms).
Proof.
intros Hf k. unfold mark. destruct (decide (k = key)) as [->|Hne].
- rewrite lookup_alter_eq. destruct (ms !! key); simpl; [apply Hf|done].
- rewrite lookup_alter_ne by done. destruct (ms !! k); [apply sameExcept_refl|done].
Qed.

Lemma machinesSameExcept_fmap t (f : Machine -> Machine) ms :
  (forall m, sameExcept t m (f m)) -> machinesSameExcept t ms (forEachMachine f ms).
Proof.
intros Hf k. unfold forEachMachine. rewrite lookup_fmap.
destruct (ms !! k); simpl; [apply Hf|done].
Qed.

Lemma machinesSameExcept_foldl_mark {A : Type} t (p : A -> bool)
    (f : list Condition -> list Condition) key (l : list A) :
  (forall m, sameExcept t m (withConditions m (f (MachineConditions m)))) ->
  forall ms,
    machinesSameExcept t ms
      (foldl (fun ms a => if p a then mark f key ms else ms) ms l).
Proof.
intros Hf. induction l as [|a l IH]; intros ms; simpl.
- apply machinesSameExcept_refl.
- eapply machinesSameExcept_trans; [|apply IH].
  destruct (p a); [by apply machinesSameExcept_mark|apply machinesSameExcept_refl].
Qed.

Lemma agentNode_sameExcept (node : Node) (ms : Machines) (errs : list string) :
  match agentNode N clientGet node ms errs with
  | Continue ms' _ | Return ms' =>
      machinesSameExcept (MachineAgentHealthyCondition N) ms ms'
  end.
Proof.
unfold agentNode.
destruct (machineOfNode ms (NodeName node)) as [[key m]|].
- case_bool_decide.
  { simpl. apply machinesSameExcept_mark. intros m'. by apply sameExcept_Set. }
  destruct (nodeHasUnreachableTaint node).
  { simpl. apply machinesSameExcept_mark. intros m'. by apply sameExcept_Set. }
  destruct (clientGet (NodeName node)) as [| |conds].
  + apply machinesSameExcept_mark. intros m'. by apply sameExcept_Set.
  + apply machinesSameExcept_mark. intros m'. by apply sameExcept_Set.
  + apply (machinesSameExcept_foldl_mark _
             (fun c => String.eqb (NodeConditionType c) NodeReady
                       && String.eqb (NodeConditionStatus c) NodeConditionTrue)).
    intros m'. by apply sameExcept_Set.
- destruct (hasProvisioningMachine ms); apply machinesSameExcept_refl.
Qed.

Lemma agentNodes_sameExcept (nodes : list Node) :
  forall (ms : Machines) (errs : list string),
    match agentNodes N clientGet nodes ms errs with
    | Continue ms' _ | Return ms' =>
        machinesSameExcept (MachineAgentHealthyCondition N) ms ms'
    end.
Proof.
induction nodes as [|node nodes IH]; intros ms errs; simpl.
- apply machinesSameExcept_refl.
- pose proof (agentNode_sameExcept node ms errs) as Hnode.
  destruct (agentNode N clientGet node ms errs) as [ms1 errs1|ms1]; [|done].
  specialize (IH ms1 errs1).
  destruct (agentNodes N clientGet nodes ms1 errs1);
    by apply (machinesSameExcept_trans _ ms ms1).
Qed.

Lemma aggregate_other (input : aggregateFromMachinesToKCPInput) (t : ConditionType) :
  t <> condition input ->
  Get (aggregateFromMachinesToKCP Sprintf0 input) t
  = Get (KCPConditions (controlPlane input)) t.
Proof.
intros Hne. unfold aggregateFromMachinesToKCP. cbv zeta.
repeat case_bool_decide; unfold MarkFalse, MarkTrue, MarkUnknown;
  try (by apply Get_Set_other); done.
Qed.

(** X18.  Whatever the node listing and the node reads return,
    [UpdateAgentConditions] keeps the set of machines and the failure
    domains, changes nothing of a machine but its agent condition, and
    changes no KCP condition other than the two components conditions. *)
Theorem agent_conditions_touch_only_agent_health
    (getControlPlaneNodes : option (list Node)) (c : ControlPlane) :
  machinesSameExcept (MachineAgentHealthyCondition N) (CPMachines c)
    (CPMachines (UpdateAgentConditions N getControlPlaneNodes clientGet Sprintf0 c)) /\
  StatusFailureDomains (UpdateAgentConditions N getControlPlaneNodes clientGet Sprintf0 c)
  = StatusFailureDomains c /\
  forall t,
    t <> ControlPlaneComponentsHealthyCondition ->
    t <> InfraControlPlaneComponentsHealthyCondition N ->
    Get (KCPConditions (UpdateAgentConditions N getControlPlaneNodes clientGet Sprintf0 c)) t
    = Get (KCPConditions c) t.
Proof.
unfold UpdateAgentConditions. destruct getControlPlaneNodes as [nodes|].
- pose proof (agentNodes_sameExcept nodes (CPMachines c) []) as Hloop.
  destruct (agentNodes N clientGet nodes (CPMachines c) []) as [ms errs|ms];
    cbv zeta; simpl.
  + split; [|split; [done|]].
    * eapply machinesSameExcept_trans; [exact Hloop|].
      apply machinesSameExcept_fmap. intros m. unfold reportMissingNode.
      destruct (NodeRef m) as [ref|]; [|apply sameExcept_refl].
      destruct (existsb _ nodes); [apply sameExcept_refl|].
      simpl. by apply sameExcept_Set.
    * intros t Ht _. by rewrite aggregate_other.
  + by split.
- cbv zeta. simpl. split; [|split; [done|]].
  + apply machinesSameExcept_fmap. intros m. simpl. by apply sameExcept_Set.
  + intros t _ Ht. unfold MarkUnknown. by rewrite Get_Set_other.
Qed.

End WorkloadFacts.

(* ===================================================================== *)
(** * Properties of the etcd condition update *)
(* ===================================================================== *)

Section EtcdFacts.
Import Conditions Collections Cluster Workload AggregateSpec WorkloadSpec.

Variable N : Names.

Lemma lastMachineOfNode_Some (ms : Machines) name key m :
  lastMachineOfNode ms name = Some (key, m) ->
  ms !! key = Some m /\ NodeRef m = Some name.
Proof.
unfold lastMachineOfNode. intros Hfind. apply find_some in Hfind as [Hin Href].
apply in_rev, list_elem_of_In, elem_of_map_to_list in Hin.
by apply bool_decide_eq_true in Href.
Qed.

Lemma lastMachineOfNode_None (ms : Machines) name :
  lastMachineOfNode ms name = None -> ~ hasMachineFor ms name.
Proof.
unfold lastMachineOfNode. intros Hfind (key & m & Hm & Href).
pose proof (find_none _ _ Hfind (key, m)) as Hnone. simpl in Hnone.
rewrite bool_decide_eq_true_2 in Hnone by done.
enough (true = false) by done.
apply Hnone. apply (proj1 (in_rev _ _)).
by apply list_elem_of_In, elem_of_map_to_list.
Qed.

Lemma etcdNode_identities (node : Node) (ms : Machines) :
  identities (etcdNode N node ms) = identities ms.
Proof.
unfold etcdNode. destruct (lastMachineOfNode ms (NodeName node)) as [[key m]|]; [|done].
case_bool_decide; apply identities_mark.
Qed.

Lemma etcdNodes_identities (nodes : list Node) :
  forall ms : Machines,
    identities (foldl (fun ms node => etcdNode N node ms) ms nodes) = identities ms.
Proof.
induction nodes as [|node nodes IH]; intros ms; simpl; [done|].
rewrite IH. apply etcdNode_identities.
Qed.

(** A machine that does not reference the node is not touched by the
    node's iteration. *)
Lemma etcdNode_other (node : Node) (ms : Machines) key m :
  ms !! key = Some m -> NodeRef m <> Some (NodeName node) ->
  etcdNode N node ms !! key = Some m.
Proof.
intros Hm Hne. unfold etcdNode.
destruct (lastMachineOfNode ms (NodeName node)) as [[k0 m0]|] eqn:Hfind; [|done].
apply lastMachineOfNode_Some in Hfind as [Hm0 Href0].
assert (k0 <> key) as Hk by (intros ->; congruence).
case_bool_decide; unfold mark; by rewrite lookup_alter_ne.
Qed.

(** The only machine referencing the node gets the member condition. *)
Lemma etcdNode_same (node : Node) (ms : Machines) key m :
  ms !! key = Some m -> NodeRef m = Some (NodeName node) ->
  (forall key' m', ms !! key' = Some m' -> NodeRef m' = Some (NodeName node) ->
                   key' = key) ->
  exists m', etcdNode N node ms !! key = Some m' /\
             Get (MachineConditions m') (MachineEtcdMemberHealthyCondition N)
             = Some (etcdMemberCondition N m).
Proof.
intros Hm Href Hone. unfold etcdNode.
destruct (lastMachineOfNode ms (NodeName node)) as [[k0 m0]|] eqn:Hfind.
- apply lastMachineOfNode_Some in Hfind as [Hm0 Href0].
  assert (k0 = key) as -> by by apply (Hone k0 m0).
  assert (m0 = m) as -> by congruence.
  unfold etcdMemberCondition, mark.
  case_bool_decide; rewrite lookup_alter_eq, Hm; simpl; eexists; (split; [done|]); simpl.
  + apply Get_MarkFalse.
  + apply Get_MarkTrue.
- apply lastMachineOfNode_None in Hfind. destruct Hfind. by exists key, m.
Qed.

Lemma etcdNodes_unlisted (nodes : list Node) key m :
  (forall node, node ∈ nodes -> NodeRef m <> Some (NodeName node)) ->
  forall ms : Machines,
    ms !! key = Some m ->
    foldl (fun ms node => etcdNode N node ms) ms nodes !! key = Some m.
Proof.
induction nodes as [|node nodes IH]; intros Hunlisted ms Hm; simpl; [done|].
apply IH.
- intros n Hin. apply Hunlisted. by right.
- apply etcdNode_other; [done|]. apply Hunlisted. by left.
Qed.

Lemma etcdNodes_listed (nodes : list Node) (ref : string) key
    (target : Condition) :
  forall ms m,
    ms !! key = Some m -> NodeRef m = Some ref ->
    etcdMemberCondition N m = target ->
    (forall key' m', ms !! key' = Some m' -> NodeRef m' = Some ref -> key' = key) ->
    (exists node, node ∈ nodes /\ NodeName node = ref) \/
    Get (MachineConditions m) (MachineEtcdMemberHealthyCondition N) = Some target ->
    exists m',
      foldl (fun ms node => etcdNode N node ms) ms nodes !! key = Some m' /\
      Get (MachineConditions m') (MachineEtcdMemberHealthyCondition N) = Some target.
Proof.
induction nodes as [|n nodes IH]; intros ms m Hm Href Htarget Hone Hor; simpl.
- destruct Hor as [(node & Hin & _)|Hget]; [by apply elem_of_nil in Hin|].
  by exists m.
- pose proof (etcdNode_identities n ms) as Hid.
  assert (exists m1, etcdNode N n ms !! key = Some m1 /\
            ((exists node, node ∈ nodes /\ NodeName node = ref) \/
             Get (MachineConditions m1) (MachineEtcdMemberHealthyCondition N)
             = Some target)) as (m1 & Hm1 & Hor1).
  { destruct (decide (NodeName n = ref)) as [Heq|Hne].
    - subst ref. destruct (etcdNode_same n ms key m Hm Href Hone) as (m1 & Hm1 & Hget).
      exists m1. split; [done|]. right. congruence.
    - exists m. split; [apply etcdNode_other; [done|congruence]|].
      destruct Hor as [(node & Hin & Hname)|Hget]; [|by right].
      apply elem_of_cons in Hin as [->|Hin]; [done|]. left. by exists node. }
  destruct (identities_lookup ms (etcdNode N n ms) key m1 (eq_sym Hid) Hm1)
    as (m_ & Hm_ & Href_ & Hdel_).
  assert (m_ = m) as -> by congruence.
  apply (IH (etcdNode N n ms) m1); [done|congruence| | |done].
  + unfold etcdMemberCondition in *. by rewrite <- Hdel_.
  + intros key' m' Hm' Href'.
    destruct (identities_lookup ms (etcdNode N n ms) key' m' (eq_sym Hid) Hm')
      as (m0 & Hm0 & Href0 & _).
    apply (Hone key' m0); congruence.
Qed.

(** X19.  When the control-plane nodes cannot be listed,
    [UpdateEtcdConditions] marks the etcd-member condition of every machine
    Unknown and the KCP etcd-cluster condition Unknown, each with its
    inspection-failed reason, and changes no other condition. *)
Theorem etcd_conditions_unknown_when_listing_fails (c : ControlPlane) :
  (forall key m,
      CPMachines c !! key = Some m ->
      exists m',
        CPMachines (UpdateEtcdConditions N None c) !! key = Some m' /\
        Get (MachineConditions m') (MachineEtcdMemberHealthyCondition N)
        = Some (UnknownCondition (MachineEtcdMemberHealthyCondition N)
                  (EtcdMemberInspectionFailedReason N)
                  "Failed to get the node which is hosting the etcd member") /\
        forall t, t <> MachineEtcdMemberHealthyCondition N ->
          Get (MachineConditions m') t = Get (MachineConditions m) t) /\
  Get (KCPConditions (UpdateEtcdConditions N None c)) (EtcdClusterHealthyCondition N)
  = Some (UnknownCondition (EtcdClusterHealthyCondition N)
            (EtcdClusterInspectionFailedReason N)
            "Failed to list nodes which are hosting the etcd members") /\
  (forall t, t <> EtcdClusterHealthyCondition N ->
     Get (KCPConditions (UpdateEtcdConditions N None c)) t = Get (KCPConditions c) t).
Proof.
unfold UpdateEtcdConditions, forEachMachine. simpl. split; [|split].
- intros key m Hm. rewrite lookup_fmap, Hm. simpl. eexists. split; [done|].
  simpl. split; [apply Get_MarkUnknown|].
  intros t Ht. unfold MarkUnknown. by rewrite Get_Set_other.
- apply Get_MarkUnknown.
- intros t Ht. unfold MarkUnknown. by rewrite Get_Set_other.
Qed.

(** X20.  When the nodes are listed, the machine that alone references a
    listed node ends with the etcd-member condition True, or False with
    reason Deleting and severity Info when the machine is being deleted,
    whatever the other nodes and machines are. *)
Theorem etcd_member_condition_follows_machine (c : ControlPlane)
    (nodes : list Node) (node : Node) key m :
  node ∈ nodes ->
  CPMachines c !! key = Some m ->
  NodeRef m = Some (NodeName node) ->
  (forall key' m', CPMachines c !! key' = Some m' ->
                   NodeRef m' = Some (NodeName node) -> key' = key) ->
  exists m',
    CPMachines (UpdateEtcdConditions N (Some nodes) c) !! key = Some m' /\
    Get (MachineConditions m') (MachineEtcdMemberHealthyCondition N)
    = Some (if bool_decide (is_Some (DeletionTimestamp m))
            then FalseCondition (MachineEtcdMemberHealthyCondition N)
                   DeletingReason SeverityInfo ""
            else TrueCondition (MachineEtcdMemberHealthyCondition N)).
Proof.
intros Hin Hm Href Hone. unfold UpdateEtcdConditions. simpl.
apply (etcdNodes_listed nodes (NodeName node) key _ (CPMachines c) m);
  [done|done|done|done|].
left. by exists node.
Qed.

(** X21.  When the nodes are listed, [UpdateEtcdConditions] leaves a
    machine that references no listed node exactly as it was, and reports
    nothing on the KCP object: unlike the agent update, a machine without
    its node and a node without a machine go unreported. *)
Theorem etcd_conditions_skip_unlisted_machines (c : ControlPlane)
    (nodes : list Node) key m :
  CPMachines c !! key = Some m ->
  (forall node, node ∈ nodes -> NodeRef m <> Some (NodeName node)) ->
  CPMachines (UpdateEtcdConditions N (Some nodes) c) !! key = Some m /\
  KCPConditions (UpdateEtcdConditions N (Some nodes) c) = KCPConditions c.
Proof.
intros Hm Hunlisted. unfold UpdateEtcdConditions. simpl. split; [|done].
by apply etcdNodes_unlisted.
Qed.

End EtcdFacts.

Section WorkloadInstances.
Import Conditions Collections Cluster Workload AggregateSpec SelectionSpec WorkloadSpec.

Lemma three_lookup (a b c : Machine) key m :
  ({[ "m1" := a; "m2" := b; "m3" := c ]} : Machines) !! key = Some m ->
  (key = "m1" /\ m = a) \/ (key = "m2" /\ m = b) \/ (key = "m3" /\ m = c).
Proof.
intros Hm.
apply lookup_insert_Some in Hm as [[<- <-]|[_ Hm]]; [by left|].
apply lookup_insert_Some in Hm as [[<- <-]|[_ Hm]]; [by right; left|].
apply lookup_singleton_Some in Hm as [<- <-]. by right; right.
Qed.

Lemma three_oneMachinePerNode (a b c : Machine) :
  NodeRef a = Some "n1" -> NodeRef b = Some "n2" -> NodeRef c = Some "n3" ->
  oneMachinePerNode {[ "m1" := a; "m2" := b; "m3" := c ]}.
Proof.
intros Ha Hb Hc key1 x key2 y ref Hx Hy Hrx Hry.
apply three_lookup in Hx as [[-> ->]|[[-> ->]|[-> ->]]];
  apply three_lookup in Hy as [[-> ->]|[[-> ->]|[-> ->]]];
  congruence.
Qed.

Lemma readyNode_allReadable : allReadable readyNode.
Proof. intros name. by eexists. Qed.

(** The example control plane when the node listing fails. *)
Lemma agent_conditions_unknown_when_listing_fails_witness :
  Get (KCPConditions (UpdateAgentConditions exampleNames None readyNode (fun s => s)
                        exampleControlPlane))
      (InfraControlPlaneComponentsHealthyCondition exampleNames)
  = Some (UnknownCondition (InfraControlPlaneComponentsHealthyCondition exampleNames)
            (ControlPlaneComponentsInspectionFailedReason exampleNames)
            "Failed to list nodes which are hosting control plane components").
Proof.
apply (proj1 (proj2 (agent_conditions_unknown_when_listing_fails exampleNames readyNode
                       (fun s => s) exampleControlPlane))).
Defined.

(** Nodes n1 and n2 are listed; the node n3 of machine m3 is not. *)
Lemma agent_conditions_report_missing_node_witness :
  (exists m',
      CPMachines (UpdateAgentConditions exampleNames (Some [node1; node2]) readyNode
                    (fun s => s) exampleControlPlane) !! "m3" = Some m' /\
      Get (MachineConditions m') (MachineAgentHealthyCondition exampleNames)
      = Some (FalseCondition (MachineAgentHealthyCondition exampleNames) PodFailedReason
                SeverityError "Missing node")) /\
  exists msg,
    Get (KCPConditions (UpdateAgentConditions exampleNames (Some [node1; node2])
                          readyNode (fun s => s) exampleControlPlane))
        ControlPlaneComponentsHealthyCondition
    = Some (FalseCondition ControlPlaneComponentsHealthyCondition
              ControlPlaneComponentsUnhealthyReason SeverityError msg).
Proof.
apply (agent_conditions_report_missing_node exampleNames readyNode (fun s => s)
         exampleControlPlane [node1; node2] "m3" m3 "n3").
- exact readyNode_allReadable.
- reflexivity.
- reflexivity.
- intros node Hin. rewrite !elem_of_cons, elem_of_nil in Hin.
  destruct Hin as [->|[->|[]]]; discriminate.
Defined.

Example missing_node_example :
  UpdateAgentConditions exampleNames (Some [node1; node2]) readyNode (fun s => s)
    exampleControlPlane
  = mkControlPlane
      [FalseCondition "ControlPlaneComponentsHealthy" "ControlPlaneComponentsUnhealthy"
         SeverityError "Following machines are reporting control plane errors: m3"]
      {[ "a" := true ]}
      {[ "m1" := withConditions m1 [TrueCondition "AgentHealthy"];
         "m2" := withConditions m2 [TrueCondition "AgentHealthy"];
         "m3" := withConditions m3
                   [FalseCondition "AgentHealthy" "PodFailed" SeverityError
                      "Missing node"] ]}.
Proof. vm_compute. reflexivity. Qed.

(** The object of node n2 cannot be read. *)
Lemma agent_conditions_stop_at_unreadable_node_witness :
  KCPConditions (UpdateAgentConditions exampleNames (Some [node1; node2; node3])
                   n2Unreadable (fun s => s) exampleControlPlane)
  = KCPConditions exampleControlPlane.
Proof.
apply (agent_conditions_stop_at_unreadable_node exampleNames n2Unreadable (fun s => s)
         exampleControlPlane [node1; node2; node3] node2).
- rewrite !elem_of_cons. tauto.
- reflexivity.
- intros conditions. discriminate.
- exists "m2", m2. split; reflexivity.
- intros key m Hm _. apply three_lookup in Hm as [[_ ->]|[[_ ->]|[_ ->]]]; reflexivity.
Defined.

(** Node n9 is listed and no machine references it. *)
Lemma agent_conditions_report_orphan_node_witness :
  exists msg,
    Get (KCPConditions (UpdateAgentConditions exampleNames
                          (Some [node1; node2; node3; node9]) readyNode (fun s => s)
                          exampleControlPlane))
        ControlPlaneComponentsHealthyCondition
    = Some (FalseCondition ControlPlaneComponentsHealthyCondition
              ControlPlaneComponentsUnhealthyReason SeverityError msg).
Proof.
apply (agent_conditions_report_orphan_node exampleNames readyNode (fun s => s)
         exampleControlPlane [node1; node2; node3; node9] node9).
- exact readyNode_allReadable.
- rewrite !elem_of_cons. tauto.
- intros (key & m & Hm & Href).
  apply three_lookup in Hm as [[_ ->]|[[_ ->]|[_ ->]]]; discriminate.
- vm_compute. reflexivity.
Defined.

(** Machines m1, m2, m3 on the Ready nodes n1, n2, n3. *)
Lemma agent_conditions_healthy_control_plane_witness :
  (forall key m, CPMachines exampleControlPlane !! key = Some m ->
     exists m',
       CPMachines (UpdateAgentConditions exampleNames (Some [node1; node2; node3])
                     readyNode (fun s => s) exampleControlPlane) !! key = Some m' /\
       Get (MachineConditions m') (MachineAgentHealthyCondition exampleNames)
       = Some (TrueCondition (MachineAgentHealthyCondition exampleNames))) /\
  Get (KCPConditions (UpdateAgentConditions exampleNames (Some [node1; node2; node3])
                        readyNode (fun s => s) exampleControlPlane))
      ControlPlaneComponentsHealthyCondition
  = Some (TrueCondition ControlPlaneComponentsHealthyCondition).
Proof.
apply (agent_conditions_healthy_control_plane exampleNames readyNode (fun s => s)
         exampleControlPlane [node1; node2; node3]).
- intros node Hin. rewrite !elem_of_cons, elem_of_nil in Hin.
  destruct Hin as [->|[->|[->|[]]]].
  + split; [split; [reflexivity|by eexists]|]. exists "m1", m1. split; reflexivity.
  + split; [split; [reflexivity|by eexists]|]. exists "m2", m2. split; reflexivity.
  + split; [split; [reflexivity|by eexists]|]. exists "m3", m3. split; reflexivity.
- intros key m Hm. apply three_lookup in Hm as [[_ ->]|[[_ ->]|[_ ->]]].
  + split; [reflexivity|]. exists node1. rewrite !elem_of_cons. split; [tauto|reflexivity].
  + split; [reflexivity|]. exists node2. rewrite !elem_of_cons. split; [tauto|reflexivity].
  + split; [reflexivity|]. exists node3. rewrite !elem_of_cons. split; [tauto|reflexivity].
- apply three_oneMachinePerNode; reflexivity.
- intros Hempty.
  assert (CPMachines exampleControlPlane !! "m1" = Some m1) as Hm by reflexivity.
  rewrite Hempty, lookup_empty in Hm. discriminate.
Defined.

(** A KCP object that already carries an unrelated condition. *)
Lemma agent_conditions_touch_only_agent_health_witness :
  Get (KCPConditions
         (UpdateAgentConditions exampleNames (Some [node1; node9]) n2Unreadable
            (fun s => s)
            (mkControlPlane [TrueCondition "CertificatesAvailable"] ∅ threeMachines)))
      "CertificatesAvailable"
  = Some (TrueCondition "CertificatesAvailable").
Proof.
apply (proj2 (proj2 (agent_conditions_touch_only_agent_health exampleNames n2Unreadable
                       (fun s => s) (Some [node1; node9])
                       (mkControlPlane [TrueCondition "CertificatesAvailable"] ∅
                          threeMachines)))
         "CertificatesAvailable"); discriminate.
Defined.

(** The example control plane when the node listing fails. *)
Lemma etcd_conditions_unknown_when_listing_fails_witness :
  Get (KCPConditions (UpdateEtcdConditions exampleNames None exampleControlPlane))
      (EtcdClusterHealthyCondition exampleNames)
  = Some (UnknownCondition (EtcdClusterHealthyCondition exampleNames)
            (EtcdClusterInspectionFailedReason exampleNames)
            "Failed to list nodes which are hosting the etcd members").
Proof.
apply (proj1 (proj2 (etcd_conditions_unknown_when_listing_fails exampleNames
                       exampleControlPlane))).
Defined.

(** Machine m2 on node n2 is being deleted; m1 on node n1 is not. *)
Lemma etcd_member_condition_follows_machine_witness :
  (exists m',
      CPMachines (UpdateEtcdConditions exampleNames (Some [node1; node2])
                    deletingControlPlane) !! "m2" = Some m' /\
      Get (MachineConditions m') (MachineEtcdMemberHealthyCondition exampleNames)
      = Some (FalseCondition (MachineEtcdMemberHealthyCondition exampleNames)
                DeletingReason SeverityInfo "")) /\
  (exists m',
      CPMachines (UpdateEtcdConditions exampleNames (Some [node1; node2])
                    deletingControlPlane) !! "m1" = Some m' /\
      Get (MachineConditions m') (MachineEtcdMemberHealthyCondition exampleNames)
      = Some (TrueCondition (MachineEtcdMemberHealthyCondition exampleNames))).
Proof.
split.
- apply (etcd_member_condition_follows_machine exampleNames deletingControlPlane
           [node1; node2] node2 "m2" m2Deleting).
  + rewrite !elem_of_cons. tauto.
  + reflexivity.
  + reflexivity.
  + intros key' m' Hm' Href.
    apply three_lookup in Hm' as [[-> ->]|[[-> ->]|[-> ->]]];
      [discriminate|reflexivity|discriminate].
- apply (etcd_member_condition_follows_machine exampleNames deletingControlPlane
           [node1; node2] node1 "m1" m1).
  + rewrite !elem_of_cons. tauto.
  + reflexivity.
  + reflexivity.
  + intros key' m' Hm' Href.
    apply three_lookup in Hm' as [[-> ->]|[[-> ->]|[-> ->]]];
      [reflexivity|discriminate|discriminate].
Defined.

(** Nodes n1 and n2 are listed; machine m3 on node n3 is left alone. *)
Lemma etcd_conditions_skip_unlisted_machines_witness :
  CPMachines (UpdateEtcdConditions exampleNames (Some [node1; node2])
                exampleControlPlane) !! "m3" = Some m3 /\
  KCPConditions (UpdateEtcdConditions exampleNames (Some [node1; node2])
                   exampleControlPlane)
  = KCPConditions exampleControlPlane.
Proof.
apply (etcd_conditions_skip_unlisted_machines exampleNames exampleControlPlane
         [node1; node2] "m3" m3).
- reflexivity.
- intros node Hin. rewrite !elem_of_cons, elem_of_nil in Hin.
  destruct Hin as [->|[->|[]]]; discriminate.
Defined.

Example etcd_conditions_example :
  CPMachines (UpdateEtcdConditions exampleNames (Some [node1; node2; node9])
                deletingControlPlane)
  = {[ "m1" := withConditions m1 [TrueCondition "EtcdMemberHealthy"];
       "m2" := withConditions m2Deleting
                 [FalseCondition "EtcdMemberHealthy" "Deleting" SeverityInfo ""];
       "m3" := m3 ]}.
Proof. vm_compute. reflexivity. Qed.

End WorkloadInstances.

(* ===================================================================== *)
(** * Properties of [EnabledIPv6] *)
(* ===================================================================== *)

Section TemplatesMoreFacts.
Import GoStrings TemplatesMore TemplatesMoreSpec.

(** The line splitting of [GenerateHosts] is the same [strings.Split]. *)
Lemma SplitLines_Split (s : string) : SplitLines s = Split newline s.
Proof. induction s as [|c s IH]; simpl; [done|]. by rewrite IH. Qed.

Lemma Split_length (sep : ascii) (s : string) :
  length (Split sep s) = S (countChar sep s).
Proof.
induction s as [|c s IH]; simpl; [done|].
destruct (Ascii.eqb c sep); simpl; [by rewrite IH|].
destruct (Split sep s) as [|piece pieces]; simpl in *; [done|lia].
Qed.

Lemma countChar_app (c : ascii) (a b : string) :
  countChar c (a +:+ b) = (countChar c a + countChar c b)%nat.
Proof. induction a as [|x a IH]; simpl; [done|]. rewrite IH. lia. Qed.

Lemma countChar_one (c : ascii) (s : string) :
  countChar c s = 1%nat <->
  exists a b, s = a +:+ String c b /\ countChar c a = 0%nat /\ countChar c b = 0%nat.
Proof.
split.
- induction s as [|x s IH]; simpl; [done|].
  destruct (Ascii.eqb_spec x c) as [->|Hne]; simpl.
  + intros Hrest. exists "", s. split; [done|]. split; [done|lia].
  + intros Hrest. destruct (IH Hrest) as (a & b & -> & Ha & Hb).
    exists (String x a), b. split; [done|]. split; [|done].
    simpl. destruct (Ascii.eqb_spec x c); [done|]. done.
- intros (a & b & -> & Ha & Hb). rewrite countChar_app. simpl.
  rewrite Ascii.eqb_refl. lia.
Qed.

(** X22.  [EnabledIPv6] is true exactly when the pod CIDR setting consists
    of two comma-free parts joined by one comma; neither part is inspected,
    so an empty part counts as well and no part needs to be an IPv6
    range. *)
Theorem EnabledIPv6_iff_two_parts (KubePodsCIDR : string) :
  EnabledIPv6 KubePodsCIDR = true <->
  exists a b,
    KubePodsCIDR = a +:+ "," +:+ b /\
    countChar comma a = 0%nat /\ countChar comma b = 0%nat.
Proof.
unfold EnabledIPv6. rewrite Split_length, <- (countChar_one comma).
destruct (Nat.eqb_spec (S (countChar comma KubePodsCIDR)) 2); split; intros H;
  try done; lia.
Qed.

Example EnabledIPv6_examples :
  EnabledIPv6 "10.233.64.0/18,fd85:ee78:d8a6:8607::1:0000/112" = true /\
  EnabledIPv6 "10.233.64.0/18" = false /\
  EnabledIPv6 "fd85:ee78:d8a6:8607::1:0000/112" = false /\
  EnabledIPv6 "10.233.64.0/18," = true /\
  EnabledIPv6 "10.233.64.0/18,10.234.0.0/18" = true /\
  EnabledIPv6 "a,b,c" = false.
Proof. repeat split. Qed.

End TemplatesMoreFacts.

(* ===================================================================== *)
(** * The agent condition of a machine, node by node *)
(* ===================================================================== *)

Section AgentVerdictFacts.
Import Conditions Collections Cluster Workload AggregateSpec WorkloadSpec.

Variable N : Names.
Variable clientGet : string -> GetNode.
Variable Sprintf0 : string -> string.

Lemma agentVerdict_ext (node : Node) (conds : list NodeCondition) (m m' : Machine) :
  DeletionTimestamp m' = DeletionTimestamp m ->
  Get (MachineConditions m') (MachineAgentHealthyCondition N)
  = Get (MachineConditions m) (MachineAgentHealthyCondition N) ->
  agentVerdict N node conds m' = agentVerdict N node conds m.
Proof. intros Hdel Hget. unfold agentVerdict. by rewrite Hdel, Hget. Qed.

Lemma agentVerdict_idem (node : Node) (conds : list NodeCondition) (m m' : Machine) :
  DeletionTimestamp m' = DeletionTimestamp m ->
  Get (MachineConditions m') (MachineAgentHealthyCondition N)
  = agentVerdict N node conds m ->
  agentVerdict N node conds m' = agentVerdict N node conds m.
Proof.
intros Hdel Hget. unfold agentVerdict in *. rewrite Hdel.
case_bool_decide; [done|].
destruct (nodeHasUnreachableTaint node); [done|].
by destruct (reportsReady conds).
Qed.

Lemma foldl_markTrue_none {A : Type} (p : A -> bool)
    (f : list Condition -> list Condition) key (l : list A) :
  existsb p l = false ->
  forall ms : Machines,
    foldl (fun ms a => if p a then mark f key ms else ms) ms l = ms.
Proof.
induction l as [|a l IH]; intros Hex ms; simpl in *; [done|].
apply orb_false_iff in Hex as [-> Hex]. by apply IH.
Qed.

(** The iteration of the machine's own node. *)
Lemma agentNode_same (node : Node) (conds : list NodeCondition) (ms : Machines)
    (errs : list string) key m :
  ms !! key = Some m -> NodeRef m = Some (NodeName node) ->
  (forall key' m', ms !! key' = Some m' -> NodeRef m' = Some (NodeName node) ->
                   key' = key) ->
  clientGet (NodeName node) = GetFound conds ->
  exists ms1 errs1 m1,
    agentNode N clientGet node ms errs = Continue ms1 errs1 /\
    ms1 !! key = Some m1 /\
    Get (MachineConditions m1) (MachineAgentHealthyCondition N)
    = agentVerdict N node conds m.
Proof.
intros Hm Href Hone Hget. unfold agentNode, agentVerdict.
destruct (machineOfNode ms (NodeName node)) as [[k0 m0]|] eqn:Hfind.
- apply machineOfNode_Some in Hfind as [Hm0 Href0].
  assert (k0 = key) as -> by by apply (Hone k0 m0).
  assert (m0 = m) as -> by congruence.
  case_bool_decide.
  { eexists _, _, _. split; [reflexivity|]. simpl. unfold mark.
    rewrite lookup_alter_eq, Hm. simpl. split; [reflexivity|].
    simpl. apply Get_MarkFalse. }
  destruct (nodeHasUnreachableTaint node).
  { eexists _, _, _. split; [reflexivity|]. simpl. unfold mark.
    rewrite lookup_alter_eq, Hm. simpl. split; [reflexivity|].
    simpl. apply Get_MarkUnknown. }
  rewrite Hget. unfold reportsReady.
  destruct (existsb _ conds) eqn:Hready.
  + destruct (foldl_markTrue_same
                (fun c => String.eqb (NodeConditionType c) NodeReady
                          && String.eqb (NodeConditionStatus c) NodeConditionTrue)
                (MachineAgentHealthyCondition N) key conds ms m Hm (or_introl Hready))
      as (m1 & Hm1 & Htrue).
    by eexists _, _, m1.
  + eexists _, _, m. split; [done|]. split; [|done].
    rewrite (foldl_markTrue_none
               (fun c => String.eqb (NodeConditionType c) NodeReady
                         && String.eqb (NodeConditionStatus c) NodeConditionTrue)
               (fun cs => MarkTrue cs (MachineAgentHealthyCondition N)) key conds Hready).
    done.
- apply machineOfNode_None in Hfind. destruct Hfind. by exists key, m.
Qed.

(** The iteration of another node. *)
Lemma agentNode_other (node : Node) (ms : Machines) (errs : list string) key m :
  allReadable clientGet ->
  ms !! key = Some m -> NodeRef m <> Some (NodeName node) ->
  exists ms1 errs1,
    agentNode N clientGet node ms errs = Continue ms1 errs1 /\ ms1 !! key = Some m.
Proof.
intros Hread Hm Hne. unfold agentNode.
destruct (machineOfNode ms (NodeName node)) as [[k0 m0]|] eqn:Hfind.
- apply machineOfNode_Some in Hfind as [Hm0 Href0].
  assert (key <> k0) as Hk by (intros ->; congruence).
  case_bool_decide.
  { simpl. eexists _, _. split; [done|]. unfold mark. by rewrite lookup_alter_ne. }
  destruct (nodeHasUnreachableTaint node).
  { simpl. eexists _, _. split; [done|]. unfold mark. by rewrite lookup_alter_ne. }
  destruct (Hread (NodeName node)) as [conds ->].
  eexists _, _. split; [done|]. rewrite <- Hm.
  apply (foldl_mark_other
           (fun c => String.eqb (NodeConditionType c) NodeReady
                     && String.eqb (NodeConditionStatus c) NodeConditionTrue)
           (fun cs => MarkTrue cs (MachineAgentHealthyCondition N)) k0 conds key Hk).
- destruct (hasProvisioningMachine ms); by eexists _, _.
Qed.

Lemma agentNodes_verdict (node : Node) (conds : list NodeCondition) key (m : Machine)
    (nodes : list Node) :
  allReadable clientGet ->
  clientGet (NodeName node) = GetFound conds ->
  (forall n, n ∈ nodes -> NodeName n = NodeName node -> n = node) ->
  forall (ms : Machines) (errs : list string) m0,
    ms !! key = Some m0 -> NodeRef m0 = Some (NodeName node) ->
    DeletionTimestamp m0 = DeletionTimestamp m ->
    (forall key' m', ms !! key' = Some m' -> NodeRef m' = Some (NodeName node) ->
                     key' = key) ->
    (node ∈ nodes /\
     Get (MachineConditions m0) (MachineAgentHealthyCondition N)
     = Get (MachineConditions m) (MachineAgentHealthyCondition N)) \/
    Get (MachineConditions m0) (MachineAgentHealthyCondition N)
    = agentVerdict N node conds m ->
    exists ms' errs' m',
      agentNodes N clientGet nodes ms errs = Continue ms' errs' /\
      ms' !! key = Some m' /\
      Get (MachineConditions m') (MachineAgentHealthyCondition N)
      = agentVerdict N node conds m.
Proof.
intros Hread Hget.
induction nodes as [|n nodes IH]; intros Hnames ms errs m0 Hm0 Href Hdel Hone Hor; simpl.
- destruct Hor as [[Hin _]|Hdone]; [by apply elem_of_nil in Hin|].
  by exists ms, errs, m0.
- pose proof (agentNode_identities N clientGet n ms errs) as Hid.
  assert (exists ms1 errs1 m1,
             agentNode N clientGet n ms errs = Continue ms1 errs1 /\
             ms1 !! key = Some m1 /\
             ((node ∈ nodes /\
               Get (MachineConditions m1) (MachineAgentHealthyCondition N)
               = Get (MachineConditions m) (MachineAgentHealthyCondition N)) \/
              Get (MachineConditions m1) (MachineAgentHealthyCondition N)
              = agentVerdict N node conds m))
    as (ms1 & errs1 & m1 & Hstep & Hm1 & Hor1).
  { destruct (decide (NodeName n = NodeName node)) as [Heq|Hne].
    - assert (n = node) as -> by (apply Hnames; [by left|done]).
      destruct (agentNode_same node conds ms errs key m0 Hm0 Href Hone Hget)
        as (ms1 & errs1 & m1 & Hstep & Hm1 & Hverdict).
      exists ms1, errs1, m1. split; [done|]. split; [done|]. right.
      rewrite Hverdict. destruct Hor as [[_ Hsame]|Hdone].
      + by apply agentVerdict_ext.
      + by apply agentVerdict_idem.
    - destruct (agentNode_other n ms errs key m0 Hread Hm0) as (ms1 & errs1 & Hstep & Hm1);
        [congruence|].
      exists ms1, errs1, m0. split; [done|]. split; [done|].
      destruct Hor as [[Hin Hsame]|Hdone]; [|by right].
      left. split; [|done].
      apply elem_of_cons in Hin as [->|Hin]; [done|done]. }
  rewrite Hstep in Hid. rewrite Hstep.
  destruct (identities_lookup ms ms1 key m1 (eq_sym Hid) Hm1)
    as (m_ & Hm_ & Href_ & Hdel_).
  assert (m_ = m0) as -> by congruence.
  apply (IH (fun x Hin => Hnames x (list_elem_of_further _ _ _ Hin)) ms1 errs1 m1);
    [done|congruence|congruence| |done].
  intros key' m' Hm' Href'.
  destruct (identities_lookup ms ms1 key' m' (eq_sym Hid) Hm') as (x & Hx & Hrefx & _).
  apply (Hone key' x); congruence.
Qed.

(** X23.  The agent condition of a machine, case by case.  When the nodes
    are listed and every node object can be read, the machine that alone
    references a listed node ends with the agent condition False with
    reason Deleting and severity Info when it is being deleted; otherwise
    Unknown when the node carries the unreachable taint; otherwise True
    when the node object reports Ready; and otherwise with the condition it
    had before: a reachable node that is not Ready changes nothing. *)
Theorem agent_condition_follows_node (c : ControlPlane) (nodes : list Node)
    (node : Node) (conds : list NodeCondition) key m :
  allReadable clientGet ->
  clientGet (NodeName node) = GetFound conds ->
  node ∈ nodes ->
  (forall n, n ∈ nodes -> NodeName n = NodeName node -> n = node) ->
  CPMachines c !! key = Some m ->
  NodeRef m = Some (NodeName node) ->
  (forall key' m', CPMachines c !! key' = Some m' ->
                   NodeRef m' = Some (NodeName node) -> key' = key) ->
  exists m',
    CPMachines (UpdateAgentConditions N (Some nodes) clientGet Sprintf0 c) !! key
    = Some m' /\
    Get (MachineConditions m') (MachineAgentHealthyCondition N)
    = if bool_decide (is_Some (DeletionTimestamp m)) then
        Some (FalseCondition (MachineAgentHealthyCondition N) DeletingReason
                SeverityInfo "")
      else if nodeHasUnreachableTaint node then
        Some (UnknownCondition (MachineAgentHealthyCondition N)
                (PodInspectionFailedReason N) "Node is unreachable")
      else if reportsReady conds then
        Some (TrueCondition (MachineAgentHealthyCondition N))
      else Get (MachineConditions m) (MachineAgentHealthyCondition N).
Proof.
intros Hread Hget Hin Hnames Hm Href Hone.
destruct (agentNodes_verdict node conds key m nodes Hread Hget Hnames
            (CPMachines c) [] m Hm Href eq_refl Hone (or_introl (conj Hin eq_refl)))
  as (ms' & errs' & m' & Hrun & Hm' & Hverdict).
pose proof (agentNodes_identities N clientGet nodes (CPMachines c) []) as Hid.
rewrite Hrun in Hid.
destruct (identities_lookup (CPMachines c) ms' key m' (eq_sym Hid) Hm')
  as (m_ & Hm_ & Href_ & _).
assert (m_ = m) as -> by congruence.
unfold UpdateAgentConditions. rewrite Hrun. cbv zeta. simpl.
exists m'. split; [|exact Hverdict].
unfold forEachMachine. rewrite lookup_fmap, Hm'. simpl. f_equal.
unfold reportMissingNode. rewrite <- Href_, Href.
assert (existsb (fun n => String.eqb (NodeName node) (NodeName n)) nodes = true)
  as ->; [|done].
apply existsb_exists. exists node. split; [by apply list_elem_of_In|].
apply String.eqb_refl.
Qed.

End AgentVerdictFacts.

Section AgentVerdictInstances.
Import Conditions Collections Cluster Workload AggregateSpec SelectionSpec WorkloadSpec.

Lemma n3NotReady_allReadable : allReadable n3NotReady.
Proof.
intros name. unfold n3NotReady. destruct (String.eqb name "n3"); by eexists.
Qed.

Lemma verdictNodes_names (node : Node) :
  node ∈ [node1Unreachable; node2; node3] ->
  forall n, n ∈ [node1Unreachable; node2; node3] -> NodeName n = NodeName node ->
            n = node.
Proof.
intros Hnode n Hn. rewrite !elem_of_cons, elem_of_nil in Hnode, Hn.
destruct Hnode as [->|[->|[->|[]]]]; destruct Hn as [->|[->|[->|[]]]];
  (reflexivity || discriminate).
Qed.

(** Machine m1 sits on the unreachable node n1, m2 is being deleted, and
    the node n3 of m3 reads as not Ready. *)
Lemma agent_condition_follows_node_witness :
  (exists m',
      CPMachines (UpdateAgentConditions exampleNames
                    (Some [node1Unreachable; node2; node3]) n3NotReady (fun s => s)
                    deletingControlPlane) !! "m1" = Some m' /\
      Get (MachineConditions m') (MachineAgentHealthyCondition exampleNames)
      = Some (UnknownCondition (MachineAgentHealthyCondition exampleNames)
                (PodInspectionFailedReason exampleNames) "Node is unreachable")) /\
  (exists m',
      CPMachines (UpdateAgentConditions exampleNames
                    (Some [node1Unreachable; node2; node3]) n3NotReady (fun s => s)
                    deletingControlPlane) !! "m2" = Some m' /\
      Get (MachineConditions m') (MachineAgentHealthyCondition exampleNames)
      = Some (FalseCondition (MachineAgentHealthyCondition exampleNames)
                DeletingReason SeverityInfo "")) /\
  (exists m',
      CPMachines (UpdateAgentConditions exampleNames
                    (Some [node1Unreachable; node2; node3]) n3NotReady (fun s => s)
                    deletingControlPlane) !! "m3" = Some m' /\
      Get (MachineConditions m') (MachineAgentHealthyCondition exampleNames)
      = Get (MachineConditions m3) (MachineAgentHealthyCondition exampleNames)).
Proof.
split; [|split].
- apply (agent_condition_follows_node exampleNames n3NotReady (fun s => s)
           deletingControlPlane [node1Unreachable; node2; node3] node1Unreachable
           [mkNodeCondition "MemoryPressure" "False"; mkNodeCondition "Ready" "True"]
           "m1" m1).
  + exact n3NotReady_allReadable.
  + reflexivity.
  + rewrite !elem_of_cons. tauto.
  + apply verdictNodes_names. rewrite !elem_of_cons. tauto.
  + reflexivity.
  + reflexivity.
  + intros key' m' Hm' Href.
    apply three_lookup in Hm' as [[-> ->]|[[-> ->]|[-> ->]]];
      [reflexivity|discriminate|discriminate].
- apply (agent_condition_follows_node exampleNames n3NotReady (fun s => s)
           deletingControlPlane [node1Unreachable; node2; node3] node2
           [mkNodeCondition "MemoryPressure" "False"; mkNodeCondition "Ready" "True"]
           "m2" m2Deleting).
  + exact n3NotReady_allReadable.
  + reflexivity.
  + rewrite !elem_of_cons. tauto.
  + apply verdictNodes_names. rewrite !elem_of_cons. tauto.
  + reflexivity.
  + reflexivity.
  + intros key' m' Hm' Href.
    apply three_lookup in Hm' as [[-> ->]|[[-> ->]|[-> ->]]];
      [discriminate|reflexivity|discriminate].
- apply (agent_condition_follows_node exampleNames n3NotReady (fun s => s)
           deletingControlPlane [node1Unreachable; node2; node3] node3
           [mkNodeCondition "Ready" "False"] "m3" m3).
  + exact n3NotReady_allReadable.
  + reflexivity.
  + rewrite !elem_of_cons. tauto.
  + apply verdictNodes_names. rewrite !elem_of_cons. tauto.
  + reflexivity.
  + reflexivity.
  + intros key' m' Hm' Href.
    apply three_lookup in Hm' as [[-> ->]|[[-> ->]|[-> ->]]];
      [discriminate|discriminate|reflexivity].
Defined.

(** The same run as a whole: no machine reports an error or is True, one
    reports Unknown, so the KCP condition comes out Unknown. *)
Example agent_conditions_example :
  UpdateAgentConditions exampleNames (Some [node1Unreachable; node2; node3])
    n3NotReady (fun s => s) deletingControlPlane
  = mkControlPlane
      [UnknownCondition "ControlPlaneComponentsHealthy" "ControlPlaneComponentsUnknown"
         "Following machines are reporting unknown control plane status: m1"]
      {[ "a" := true ]}
      {[ "m1" := withConditions m1
                   [UnknownCondition "AgentHealthy" "PodInspectionFailed"
                      "Node is unreachable"];
         "m2" := withConditions m2Deleting
                   [FalseCondition "AgentHealthy" "Deleting" SeverityInfo ""];
         "m3" := m3 ]}.
Proof. vm_compute. reflexivity. Qed.

End AgentVerdictInstances.

(* ===================================================================== *)
(** * The outcome of a phase and its condition *)
(* ===================================================================== *)

Section PhaseOutcomeFacts.
Import Conditions KKInstance PhaseSpec PhaseMoreSpec PhaseOutcomeSpec.

Variable E : Env.
Variable R : Scope.

Ltac outcome_cases :=
  repeat match goal with
         | |- context [answer E ?tr ?a] =>
             let H := fresh "Hans" in destruct (answer E tr a) eqn:H; simpl
         end.

(** A phase whose condition is not yet True returns the error of its
    first failing action, and nil when every action succeeds. *)
Lemma runPhase_returns_first_error (p : PhaseFn) (s : St) :
  IsTrue (Conds s) (phaseCondition p) = false ->
  fst (runPhase E R p s) = phaseFailure E R p s.
Proof.
intros Hfalse. destruct p; simpl in *.
- unfold reconcileBootstrap, withDefer, andThen, call, ret, firstError, bootstrapSteps.
  rewrite Hfalse. cbn [firstFailure]. simpl. outcome_cases; done.
- unfold reconcileRepository, withDefer, andThen, call, ret, firstError,
    repositorySteps.
  rewrite Hfalse. cbn [firstFailure]. simpl. outcome_cases; done.
- unfold reconcileBinaryService, withDefer, andThen, call, ret.
  rewrite Hfalse. simpl. outcome_cases; done.
- unfold reconcileContainerManager, withDefer, andThen, call, ret, firstError,
    installSteps.
  rewrite Hfalse. destruct (isExist E (trace s)); [done|].
  cbn [firstFailure]. simpl. outcome_cases; done.
- unfold reconcileProvisioning, withDefer, firstError. rewrite Hfalse.
  destruct (bootstrapData E (trace s)) as [[data format]|e]; [|done].
  destruct (toCommands E format data) as [commands|e]; [|done].
  rewrite runCommands_in_order. simpl.
  by destruct (firstFailure E (trace s ++ [GetRawBootstrapDataWithFormat])
                 (SudoCmd <$> commands)) as [[i msg]|].
Qed.

(** C4.  For each install phase whose condition is not yet True: when one
    of the phase's actions answers with an error, the phase returns the
    error of the first failing action and its condition is False with the
    phase's reason code and severity (Bootstrap: InitOSFailed, Warning;
    Repository: RepositoryFailed, Warning; BinaryService: GetBinaryFailed,
    Error; ContainerManager: InstallCRIFailed, Error; Provisioning:
    RunCloudConfigFailed, Error), carrying that error; when every action
    succeeds, the phase returns nil and its condition is True. *)
Theorem phase_outcome_marks_condition (p : PhaseFn) (s : St) :
  IsTrue (Conds s) (phaseCondition p) = false ->
  match phaseFailure E R p s with
  | Some msg =>
      fst (runPhase E R p s) = Some msg /\
      Get (Conds (snd (runPhase E R p s))) (phaseCondition p)
      = Some (FalseCondition (phaseCondition p) (phaseReason p) (phaseSeverity p)
                (Sprintf0 E msg))
  | None =>
      fst (runPhase E R p s) = None /\
      Get (Conds (snd (runPhase E R p s))) (phaseCondition p)
      = Some (TrueCondition (phaseCondition p))
  end.
Proof.
intros Hfalse.
pose proof (runPhase_returns_first_error p s Hfalse) as Hret.
pose proof (runPhase_body_conds E R p s) as Hconds.
rewrite Hret in Hconds. rewrite Hconds.
destruct (phaseFailure E R p s) as [msg|]; (split; [done|]).
- apply Get_MarkFalse.
- apply Get_MarkTrue.
Qed.

End PhaseOutcomeFacts.

Section PhaseOutcomeInstances.
Import Conditions KKInstance PhaseSpec PhaseMoreSpec PhaseOutcomeSpec.

(** A fresh host on which the download fails, one on which the work
    directory cannot be created, one on which a provisioning command
    fails, and one on which everything succeeds. *)
Lemma phase_outcome_marks_condition_witness :
  (fst (runPhase (envFailing (BinaryDownload KUBERNETES 600) "404 Not Found") scopeK8s
          ReconcileBinaryService pendingInstance) = Some "404 Not Found" /\
   Get (Conds (snd (runPhase (envFailing (BinaryDownload KUBERNETES 600) "404 Not Found")
                      scopeK8s ReconcileBinaryService pendingInstance)))
       KKInstanceBinariesReadyCondition
   = Some (FalseCondition KKInstanceBinariesReadyCondition
             KKInstanceGetBinaryFailedReason SeverityError "404 Not Found")) /\
  (fst (runPhase (envFailing CreateDirectory "read-only") scopeK8s
          ReconcileBootstrap pendingInstance) = Some "read-only" /\
   Get (Conds (snd (runPhase (envFailing CreateDirectory "read-only") scopeK8s
                      ReconcileBootstrap pendingInstance)))
       KKInstanceBootstrappedCondition
   = Some (FalseCondition KKInstanceBootstrappedCondition
             KKInstanceInitOSFailedReason SeverityWarning "read-only")) /\
  (fst (runPhase (envFailing (SudoCmd "echo b") "exit status 1") scopeK8s
          ReconcileProvisioning pendingInstance)
   = Some "failed to run cloud config: exit status 1" /\
   Get (Conds (snd (runPhase (envFailing (SudoCmd "echo b") "exit status 1") scopeK8s
                      ReconcileProvisioning pendingInstance)))
       KKInstanceProvisionedCondition
   = Some (FalseCondition KKInstanceProvisionedCondition
             KKInstanceRunCloudConfigFailedReason SeverityError
             "failed to run cloud config: exit status 1")) /\
  (fst (runPhase envOk scopeK8s ReconcileRepository pendingInstance) = None /\
   Get (Conds (snd (runPhase envOk scopeK8s ReconcileRepository pendingInstance)))
       KKInstanceRepositoryReadyCondition
   = Some (TrueCondition KKInstanceRepositoryReadyCondition)).
Proof.
split; [|split; [|split]].
- apply (phase_outcome_marks_condition
           (envFailing (BinaryDownload KUBERNETES 600) "404 Not Found") scopeK8s
           ReconcileBinaryService pendingInstance).
  reflexivity.
- apply (phase_outcome_marks_condition (envFailing CreateDirectory "read-only")
           scopeK8s ReconcileBootstrap pendingInstance).
  reflexivity.
- apply (phase_outcome_marks_condition (envFailing (SudoCmd "echo b") "exit status 1")
           scopeK8s ReconcileProvisioning pendingInstance).
  reflexivity.
- apply (phase_outcome_marks_condition envOk scopeK8s ReconcileRepository
           pendingInstance).
  reflexivity.
Defined.

End PhaseOutcomeInstances.
